(** * Dashboard.py: a shallow embedding and its checked properties

    The program is a pandas/streamlit dashboard over a table of daily stock
    metrics.  A DataFrame is embedded as the list of its rows, a row as a
    finite map from column names to cells, and a cell as the tagged union of
    the values a column can hold.  Floating point numbers are idealised as
    rationals ([Q]); the missing float is [NaN], the missing timestamp [NaT].
    A pandas timestamp is its count of nanoseconds since the epoch.

    Conventions.  Reading a column a row does not have gives [NaN] here, where
    pandas raises [KeyError]; only [load_data], which meets tables of unknown
    header, has that case written out.  After [load_data] the column
    [Today's Date] holds timestamps, [%chng] and [Market Cap] floats, [Symbol]
    and [Series Type] strings; [LTP] is taken to be a float column, as
    [pd.read_csv] makes it when the prices are plain numbers.  Strings are
    byte strings in UTF-8; [strip] and [upper] act on ASCII. *)

From Stdlib Require Import ZArith QArith Qabs Qround Lqa String Ascii List Lia Permutation Sorted.
From stdpp Require Import base gmap strings list pretty.

Local Open Scope Z_scope.

(** ** Cells, rows and frames *)

Inductive cell :=
| NaN
| NaT
| Num (q : Q)
| Str (s : string)
| Stamp (ns : Z).

#[global] Instance cell_inhabited : Inhabited cell := populate NaN.

Abbreviation Row := (gmap string cell).
Abbreviation Frame := (list (gmap string cell)).

(** [pd.isna] / [pd.notnull] on a cell. *)
Definition isna (c : cell) : bool :=
  match c with NaN | NaT => true | _ => false end.

Definition as_num (c : cell) : option Q :=
  match c with Num q => Some q | _ => None end.

Definition as_stamp (c : cell) : option Z :=
  match c with Stamp ns => Some ns | _ => None end.

Definition as_str (c : cell) : option string :=
  match c with Str s => Some s | _ => None end.

(** [df[c]]: the column [c] of a frame, row by row. *)
Definition col (c : string) (df : Frame) : list cell :=
  map (fun r : Row => r !!! c) df.

(** [df[c] = values]: the column [c] is set (or added) positionally. *)
Fixpoint assign (c : string) (values : list cell) (df : Frame) : Frame :=
  match df, values with
  | r :: df', v :: values' => <[c := v]> r :: assign c values' df'
  | _, _ => []
  end.

(** [df.empty] *)
Definition empty (df : Frame) : bool :=
  match df with [] => true | _ => false end.

(** ** Calendar

    [Series.dt.date] keeps the calendar day of a timestamp and drops the time
    of day.  A Python [date] is embedded as its day number since 1970-01-01. *)

Definition ns_per_day : Z := 86400000000000.

Definition dt_date (ns : Z) : Z := ns / ns_per_day.

Definition days_from_civil (y m d : Z) : Z :=
  let y := if m <=? 2 then y - 1 else y in
  let era := y / 400 in
  let yoe := y - era * 400 in
  let mp := if 2 <? m then m - 3 else m + 9 in
  let doy := (153 * mp + 2) / 5 + d - 1 in
  let doe := yoe * 365 + yoe / 4 - yoe / 100 + doy in
  era * 146097 + doe - 719468.

Definition civil_from_days (z : Z) : Z * Z * Z :=
  let z := z + 719468 in
  let era := z / 146097 in
  let doe := z - era * 146097 in
  let yoe := (doe - doe / 1460 + doe / 36524 - doe / 146096) / 365 in
  let y := yoe + era * 400 in
  let doy := doe - (365 * yoe + yoe / 4 - yoe / 100) in
  let mp := (5 * doy + 2) / 153 in
  let d := doy - (153 * mp + 2) / 5 + 1 in
  let m := if mp <? 10 then mp + 3 else mp - 9 in
  (if m <=? 2 then y + 1 else y, m, d).

(** A timestamp at midnight of a calendar day, and one later the same day. *)
Definition midnight (y m d : Z) : Z := days_from_civil y m d * ns_per_day.

Definition month_name (m : Z) : string :=
  match m with
  | 1 => "January" | 2 => "February" | 3 => "March" | 4 => "April"
  | 5 => "May" | 6 => "June" | 7 => "July" | 8 => "August"
  | 9 => "September" | 10 => "October" | 11 => "November" | _ => "December"
  end.

(** [strftime('%B %Y')] *)
Definition strftime_B_Y (ns : Z) : string :=
  let '(y, m, _) := civil_from_days (dt_date ns) in
  (month_name m ++ " " ++ pretty y)%string.

(** ** Exceptions *)

(** Python's exceptions, and the two error names of the specification, which
    no statement of the program raises. *)
Inductive exn :=
| ValueError
| TypeError
| OverflowError
| KeyError
| OSError
| InvalidRangeError
| DataLoadError.

Inductive outcome (A : Type) :=
| Returns (a : A)
| Raises (e : exn).
Arguments Returns {A} a.
Arguments Raises {A} e.

Definition bind {A B} (m : outcome A) (k : A -> outcome B) : outcome B :=
  match m with
  | Returns a => k a
  | Raises e => Raises e
  end.

Notation "'let*' x := m 'in' k" := (bind m (fun x => k))
  (at level 10, x name, m at level 100, k at level 200).

(** ** Filter engine (the boolean-mask expressions of [main])

    [data[mask]] keeps, in order, the rows whose mask entry is [True].  A
    comparison of [NaT] with a date is [False]. *)

Definition date_eq (c : cell) (d : Z) : bool :=
  match c with Stamp ns => dt_date ns =? d | _ => false end.

Definition date_ge (c : cell) (d : Z) : bool :=
  match c with Stamp ns => d <=? dt_date ns | _ => false end.

Definition date_le (c : cell) (d : Z) : bool :=
  match c with Stamp ns => dt_date ns <=? d | _ => false end.

Definition str_eq (c : cell) (s : string) : bool :=
  match c with Str s' => String.eqb s' s | _ => false end.

(** [data[data["Today's Date"].dt.date == selected_date]] *)
Definition filterByExactDate (data : Frame) (selected_date : Z) : Frame :=
  List.filter (fun r : Row => date_eq (r !!! "Today's Date") selected_date) data.

(** [data[(data["Today's Date"].dt.date >= start_date) &
          (data["Today's Date"].dt.date <= end_date)]] *)
Definition date_range_mask (start_date end_date : Z) (r : Row) : bool :=
  date_ge (r !!! "Today's Date") start_date && date_le (r !!! "Today's Date") end_date.

(** [data[data["Today's Date"].dt.strftime('%B %Y') == selected_month]];
    [strftime] of [NaT] is missing and equals no label. *)
Definition month_eq (c : cell) (label : string) : bool :=
  match c with Stamp ns => String.eqb (strftime_B_Y ns) label | _ => false end.

Definition filterByMonth (data : Frame) (selected_month : string) : Frame :=
  List.filter (fun r : Row => month_eq (r !!! "Today's Date") selected_month) data.

(** The date-range selection of [main]: the mask is evaluated as it stands,
    there is no comparison of [start_date] with [end_date] before it. *)
Definition filterByDateRange (data : Frame) (start_date end_date : Z) : outcome Frame :=
  Returns (List.filter (date_range_mask start_date end_date) data).

(** ** Sorting

    [sort_values] is embedded as a stable insertion sort: the order pandas
    gives to rows with equal keys is not relied upon by any statement below
    except where it says so. *)

Section Sorting.
Context {A : Type} (le : A -> A -> bool).

Fixpoint insert_by (x : A) (l : list A) : list A :=
  match l with
  | [] => [x]
  | y :: l' => if le x y then x :: y :: l' else y :: insert_by x l'
  end.

Definition sort_by (l : list A) : list A := foldr insert_by [] l.
End Sorting.

(** Ascending order of an optional key with the missing values last
    ([na_position='last']), and the descending one, missing values last too. *)
Definition asc_na_last {K} (le : K -> K -> bool) (a b : option K) : bool :=
  match a, b with
  | _, None => true
  | None, Some _ => false
  | Some x, Some y => le x y
  end.

Definition desc_na_last {K} (le : K -> K -> bool) (a b : option K) : bool :=
  match a, b with
  | _, None => true
  | None, Some _ => false
  | Some x, Some y => le y x
  end.

Definition date_key (r : Row) : option Z := as_stamp (r !!! "Today's Date").
Definition LTP (r : Row) : option Q := as_num (r !!! "LTP").
Definition chng (r : Row) : option Q := as_num (r !!! "%chng").

(** [stock_data.sort_values("Today's Date")] *)
Definition sort_by_date (df : Frame) : Frame :=
  sort_by (fun r1 r2 => asc_na_last Z.leb (date_key r1) (date_key r2)) df.

(** ** The 52-week-high trajectory *)

Definition Qmaxb (a b : Q) : Q := if Qle_bool a b then b else a.

(** [Series.cummax()]: the running maximum, skipping missing values (the
    result is missing where the input is). *)
Fixpoint cummax_from (acc : option Q) (l : list cell) : list cell :=
  match l with
  | [] => []
  | Num q :: l' =>
      let m := match acc with Some a => Qmaxb a q | None => q end in
      Num m :: cummax_from (Some m) l'
  | _ :: l' => NaN :: cummax_from acc l'
  end.

Definition cummax (l : list cell) : list cell := cummax_from None l.

(** [a == b] on float cells: [False] as soon as one side is missing. *)
Definition num_eq (a b : cell) : bool :=
  match a, b with
  | Num x, Num y => Qeq_bool x y
  | _, _ => false
  end.

(** Truthiness of a Python string. *)
Definition truthy (s : string) : bool :=
  match s with EmptyString => false | _ => true end.

Definition is_high (r : Row) : bool := num_eq (r !!! "LTP") (r !!! "High_LTP").

(** [get_stock_highs(data, symbol)]: "Get dates when the stock made new
    highs".  The pair is (high_dates, stock_data). *)
Definition get_stock_highs (data : Frame) (symbol : string) : Frame * Frame :=
  if truthy symbol then
    let stock_data := List.filter (fun r : Row => str_eq (r !!! "Symbol") symbol) data in
    if negb (empty stock_data) then
      let stock_data := sort_by_date stock_data in
      let stock_data := assign "High_LTP" (cummax (col "LTP" stock_data)) stock_data in
      let high_dates := List.filter is_high stock_data in
      (high_dates, stock_data)
    else ([], [])
  else ([], []).

(** A row of the normalised table with the columns the trajectory reads. *)
Definition quote (symbol : string) (ns : Z) (price : Q) : Row :=
  <["Today's Date" := Stamp ns]> (<["Symbol" := Str symbol]> (<["LTP" := Num price]> ∅)).

(** ** Counting and grouping *)

(** The strings of an object column, missing values dropped ([dropna]). *)
Definition strs (l : list cell) : list string := omap as_str l.

(** [Series.unique()]: the distinct values in order of first appearance. *)
Fixpoint unique (l : list string) : list string :=
  match l with
  | [] => []
  | x :: l' => x :: List.filter (fun y => negb (String.eqb y x)) (unique l')
  end.

Definition count (s : string) (l : list string) : nat :=
  length (List.filter (String.eqb s) l).

(** [Series.value_counts()]: each distinct non-missing value with the number
    of its occurrences, by descending count.  Values with equal counts stay in
    order of first appearance. *)
Definition value_counts (l : list cell) : list (string * nat) :=
  sort_by (fun a b => Nat.leb (snd b) (snd a))
          (map (fun s => (s, count s (strs l))) (unique (strs l))).

(** [sort_values(["Today's Date", '%chng'], ascending=[False, False])] *)
Definition lex {A} (le1 le2 : A -> A -> bool) (x y : A) : bool :=
  if negb (le1 y x) then true
  else if negb (le1 x y) then false
  else le2 x y.

Definition latest_first : Row -> Row -> bool :=
  lex (fun r1 r2 => desc_na_last Z.leb (date_key r1) (date_key r2))
      (fun r1 r2 => desc_na_last Qle_bool (chng r1) (chng r2)).

(** [GroupBy.first()] takes, column by column, the first entry of the group
    that is not missing: the cells of the row it builds can come from
    different rows of the group. *)
Definition first_valid (a b : cell) : option cell :=
  Some (if isna a then b else a).

Definition first (group : Frame) : Row :=
  foldr (union_with first_valid) ∅ group.

(** The groups of [df.groupby(c)], keys ascending, rows in frame order. *)
Definition group_keys (c : string) (df : Frame) : list string :=
  sort_by String.leb (unique (strs (col c df))).

Definition group (c : string) (key : string) (df : Frame) : Frame :=
  List.filter (fun r : Row => str_eq (r !!! c) key) df.

Definition groupby_first (c : string) (df : Frame) : Frame :=
  map (fun key => first (group c key df)) (group_keys c df).

Definition of_nat (n : nat) : cell := Num (inject_Z (Z.of_nat n)).

(** [Series.map(d)] for a dict [d]: missing where the key is absent. *)
Definition map_dict (d : gmap string nat) (c : cell) : cell :=
  match c with
  | Str s => match d !! s with Some n => of_nat n | None => NaN end
  | _ => NaN
  end.

Definition count_key (r : Row) : option Q := as_num (r !!! "count").

(** [get_latest_stock_data(filtered_data)]: "Get the latest data for each
    stock with count". *)
Definition get_latest_stock_data (filtered_data : Frame) : Frame :=
  let stock_counts : gmap string nat := list_to_map (value_counts (col "Symbol" filtered_data)) in
  let latest_data := groupby_first "Symbol" (sort_by latest_first filtered_data) in
  let latest_data := assign "count" (map (map_dict stock_counts) (col "Symbol" latest_data)) latest_data in
  sort_by (fun r1 r2 => desc_na_last Qle_bool (count_key r1) (count_key r2)) latest_data.

(** ** Sector distribution *)

(** [numpy.round]: to the nearest integer, halves to the even one. *)
Definition round_half_even (q : Q) : Z :=
  let n := Qnum q in
  let d := Zpos (Qden q) in
  let f := n / d in
  match (2 * (n mod d)) ?= d with
  | Lt => f
  | Gt => f + 1
  | Eq => if Z.even f then f else f + 1
  end.

(** [Series.round(2)] *)
Definition round2 (q : Q) : Q := Qmake (round_half_even (q * 100)) 100.

(** [create_sector_chart]: the bars are [filtered_data['Sector'].value_counts()]. *)
Definition sector_counts (filtered_data : Frame) : list (string * nat) :=
  value_counts (col "Sector" filtered_data).

Definition total (counts : list (string * nat)) : nat :=
  foldr (fun p acc => (snd p + acc)%nat) 0%nat counts.

Definition percentage (n total : nat) : Q :=
  round2 (inject_Z (Z.of_nat n) / inject_Z (Z.of_nat total) * 100).

(** The sector table of the month and date-range views, read as (sector,
    count, percentageOfTotal) triples: [value_counts()], then
    [(Count / Count.sum() * 100).round(2)]. *)
Definition sectorHistogram (subset : Frame) : list (string * nat * Q) :=
  let counts := sector_counts subset in
  map (fun p => (fst p, snd p, percentage (snd p) (total counts))) counts.

(** The same table as a frame with the columns [Sector], [Count] and
    [Percentage]. *)
Definition sector_row (t : string * nat * Q) : Row :=
  <["Percentage" := Num (snd t)]>
    (<["Count" := of_nat (snd (fst t))]> (<["Sector" := Str (fst (fst t))]> ∅)).

Definition sector_table (filtered_data : Frame) : Frame :=
  map sector_row (sectorHistogram filtered_data).

(** ** Python values

    A value a formatter can be called with: [None], a float, an int, a string,
    or an object of another type ([PObj]: a dict, say), on which comparison
    with a number and fixed-point formatting raise [TypeError]. *)

Inductive pyfloat :=
| FNaN
| FInf (negative : bool)
| FFin (q : Q).

Inductive pyval :=
| PNone
| PFloat (f : pyfloat)
| PInt (n : Z)
| PStr (s : string)
| PObj.

(** ** String helpers *)

Definition is_space (c : ascii) : bool :=
  let n := nat_of_ascii c in
  ((9 <=? n) && (n <=? 13) || (28 <=? n) && (n <=? 32))%nat.

Fixpoint lstrip (s : string) : string :=
  match s with
  | String c s' => if is_space c then lstrip s' else s
  | EmptyString => EmptyString
  end.

Definition reverse (s : string) : string :=
  string_of_list_ascii (rev (list_ascii_of_string s)).

(** [str.strip()] *)
Definition strip (s : string) : string := reverse (lstrip (reverse (lstrip s))).

Fixpoint remove_go (old : string) (skip : nat) (s : string) : string :=
  match s with
  | EmptyString => EmptyString
  | String c s' =>
      match skip with
      | S k => remove_go old k s'
      | O => if String.prefix old s
             then remove_go old (String.length old - 1) s'
             else String c (remove_go old 0 s')
      end
  end.

(** [s.replace(old, '')] for a non-empty [old]. *)
Definition remove (old s : string) : string := remove_go old 0 s.

Definition rupee : string := "₹".

(** ** Fixed-point formatting *)

Definition pow10 (p : nat) : Z := 10 ^ Z.of_nat p.

Fixpoint zeros (k : nat) : string :=
  match k with O => EmptyString | S k' => String "0" (zeros k') end.

Definition pad_zeros (width : nat) (s : string) : string :=
  (zeros (width - String.length s) ++ s)%string.

Fixpoint commas_rev (k : nat) (l : list ascii) : list ascii :=
  match l with
  | [] => []
  | c :: l' =>
      match k with
      | O => ("," :: c :: commas_rev 2 l')%char
      | S k' => c :: commas_rev k' l'
      end
  end.

(** The thousands separators of the [,] format option. *)
Definition group3 (digits : string) : string :=
  string_of_list_ascii (rev (commas_rev 3 (rev (list_ascii_of_string digits)))).

(** [format(x, '.{prec}f')] and [format(x, ',.{prec}f')] of a finite float:
    rounded to [prec] decimals, halves to even, the sign kept. *)
Definition format_fixed (comma : bool) (prec : nat) (q : Q) : string :=
  let scaled := round_half_even (Qabs q * inject_Z (pow10 prec)) in
  let int_part := pretty (scaled / pow10 prec) in
  let int_part := if comma then group3 int_part else int_part in
  let frac_part :=
    match prec with
    | O => EmptyString
    | _ => ("." ++ pad_zeros prec (pretty (scaled mod pow10 prec)))%string
    end in
  let sign := if Qle_bool 0 q then EmptyString else "-"%string in
  (sign ++ int_part ++ frac_part)%string.

Definition format_float (comma : bool) (prec : nat) (f : pyfloat) : string :=
  match f with
  | FNaN => "nan"
  | FInf false => "inf"
  | FInf true => "-inf"
  | FFin q => format_fixed comma prec q
  end.

(** An int converts to a float when it rounds to a finite double; otherwise
    the conversion raises [OverflowError]. *)
Definition fits_float (n : Z) : bool := Z.abs n <? 2 ^ 1024 - 2 ^ 970.

(** The precision of a format specification: a negative one, or one past
    [INT_MAX], is refused with [ValueError]. *)
Definition spec_precision (precision : Z) : outcome nat :=
  if (0 <=? precision) && (precision <=? 2147483647)
  then Returns (Z.to_nat precision)
  else Raises ValueError.

(** [format(value, f'{","}.{precision}f')] *)
Definition py_format (comma : bool) (precision : Z) (value : pyval) : outcome string :=
  match value with
  | PFloat f => let* prec := spec_precision precision in Returns (format_float comma prec f)
  | PInt n =>
      let* prec := spec_precision precision in
      if fits_float n then Returns (format_fixed comma prec (inject_Z n))
      else Raises OverflowError
  | PStr _ => Raises ValueError
  | PNone | PObj => Raises TypeError
  end.

(** [num >= c] for a float constant [c] *)
Definition py_ge (num : pyval) (c : Q) : outcome bool :=
  match num with
  | PFloat FNaN => Returns false
  | PFloat (FInf negative) => Returns (negb negative)
  | PFloat (FFin q) => Returns (Qle_bool c q)
  | PInt n => Returns (Qle_bool c (inject_Z n))
  | PNone | PStr _ | PObj => Raises TypeError
  end.

(** [num / c] for a positive float constant [c] *)
Definition py_div (num : pyval) (c : Q) : outcome pyval :=
  match num with
  | PFloat (FFin q) => Returns (PFloat (FFin (q / c)))
  | PFloat f => Returns (PFloat f)
  | PInt n => if fits_float n then Returns (PFloat (FFin (inject_Z n / c)))
              else Raises OverflowError
  | PNone | PStr _ | PObj => Raises TypeError
  end.

(** [pd.isna] on a scalar *)
Definition pd_isna (v : pyval) : bool :=
  match v with PNone | PFloat FNaN => true | _ => false end.

(** ** Presentation formatters *)

Section Formatters.
(** The builtin [float(s)]: [None] when it raises [ValueError]. *)
Variable py_float : string -> option pyfloat.

(** [float(value.replace('₹', '').replace(',', '').strip())] when [value] is
    a string. *)
Definition to_float (value : pyval) : outcome pyval :=
  match value with
  | PStr s =>
      match py_float (strip (remove "," (remove rupee s))) with
      | Some f => Returns (PFloat f)
      | None => Raises ValueError
      end
  | _ => Returns value
  end.

(** [except (ValueError, TypeError): return "N/A"] *)
Definition except_na (body : outcome string) : outcome string :=
  match body with
  | Raises ValueError | Raises TypeError => Returns "N/A"%string
  | _ => body
  end.

Definition format_metric_value (value : pyval) (precision : Z) : outcome string :=
  except_na
    (if pd_isna value then Returns "N/A"%string
     else let* value := to_float value in py_format false precision value).

Definition format_number (num : pyval) : outcome string :=
  except_na
    (if pd_isna num then Returns "N/A"%string
     else
       let* num := to_float num in
       let* b9 := py_ge num 1e9 in
       if b9 then let* x := py_div num 1e9 in let* s := py_format false 2 x in
                  Returns (rupee ++ s ++ "B")%string
       else
         let* b7 := py_ge num 1e7 in
         if b7 then let* x := py_div num 1e7 in let* s := py_format false 2 x in
                    Returns (rupee ++ s ++ "Cr")%string
         else
           let* b5 := py_ge num 1e5 in
           if b5 then let* x := py_div num 1e5 in let* s := py_format false 2 x in
                      Returns (rupee ++ s ++ "L")%string
           else let* s := py_format true 2 num in Returns (rupee ++ s)%string).
End Formatters.

(** ** Record normalizer

    [pd.read_csv] yields a table with a header; [load_data] rewrites it column
    by column.  [df[c]] raises [KeyError] when the header lacks [c]. *)

Record DataFrame := { columns : list string; rows : Frame }.

(** [pd.DataFrame()] *)
Definition no_frame : DataFrame := {| columns := []; rows := [] |}.

Definition has_column (c : string) (df : DataFrame) : bool :=
  existsb (String.eqb c) (columns df).

Definition getcol (c : string) (df : DataFrame) : outcome (list cell) :=
  if has_column c df then Returns (col c (rows df)) else Raises KeyError.

(** [df[c] = df[c].map(f)]: an element-wise rewrite of a column. *)
Definition update (c : string) (f : cell -> cell) (r : Row) : Row :=
  <[c := f (r !!! c)]> r.

Definition map_column (c : string) (f : cell -> cell) (df : DataFrame) : DataFrame :=
  {| columns := columns df; rows := map (update c f) (rows df) |}.

Definition is_digit (c : ascii) : bool :=
  let n := nat_of_ascii c in ((48 <=? n) && (n <=? 57))%nat.

Fixpoint take_digits (s : string) : string * string :=
  match s with
  | String c s' =>
      if is_digit c then let '(ds, rest) := take_digits s' in (String c ds, rest)
      else (EmptyString, s)
  | EmptyString => (EmptyString, EmptyString)
  end.

(** [str.extract(r'(\d+(?:\.\d+)?)')]: the first run of digits, with a
    fractional part when a dot and a digit follow it. *)
Fixpoint extract (s : string) : option string :=
  match s with
  | EmptyString => None
  | String c s' =>
      if is_digit c then
        let '(ds, rest) := take_digits s in
        match rest with
        | String "." rest' =>
            match take_digits rest' with
            | (EmptyString, _) => Some ds
            | (fs, _) => Some (ds ++ "." ++ fs)%string
            end
        | _ => Some ds
        end
      else extract s'
  end.

Definition upper_ascii (c : ascii) : ascii :=
  let n := nat_of_ascii c in
  if ((97 <=? n) && (n <=? 122))%nat then ascii_of_nat (n - 32) else c.

(** [str.upper()], on the ASCII letters *)
Fixpoint upper (s : string) : string :=
  match s with
  | EmptyString => EmptyString
  | String c s' => String (upper_ascii c) (upper s')
  end.

Definition numeric_columns : list string :=
  ["ROE"; "ROCE"; "P/E Ratio"; "Book Value"; "Dividend Yield"].

Section Normalizer.
(** [str(x)] of a float, the numbers [pd.to_numeric] reads, and the
    timestamps [pd.to_datetime] reads. *)
Variable str_of_num : Q -> string.
Variable parse_number : string -> option Q.
Variable parse_datetime : string -> option Z.

(** [Series.astype(str)] *)
Definition astype_str (c : cell) : string :=
  match c with
  | Str s => s
  | NaN => "nan"
  | NaT => "NaT"
  | Num q => str_of_num q
  | Stamp ns => pretty ns
  end.

(** [pd.to_numeric(..., errors='coerce')]: a string that is no number
    becomes the missing value. *)
Definition to_numeric (s : string) : cell :=
  match parse_number s with
  | Some q => Num q
  | None => NaN
  end.

(** [pd.to_datetime] on one cell: a string that is no date raises; a number
    is read as nanoseconds since the epoch. *)
Definition to_datetime (c : cell) : outcome cell :=
  match c with
  | NaN | NaT => Returns NaT
  | Stamp ns => Returns (Stamp ns)
  | Num q => Returns (Stamp (Qfloor q))
  | Str s =>
      match parse_datetime s with
      | Some ns => Returns (Stamp ns)
      | None => Raises ValueError
      end
  end.

Fixpoint to_datetime_all (l : list cell) : outcome (list cell) :=
  match l with
  | [] => Returns []
  | c :: l' =>
      let* c' := to_datetime c in
      let* l'' := to_datetime_all l' in
      Returns (c' :: l'')
  end.

Definition clean_percent (c : cell) : cell :=
  to_numeric (strip (remove "%" (astype_str c))).

Definition clean_numeric (c : cell) : cell :=
  to_numeric (remove rupee (remove "%" (astype_str c))).

Definition clean_market_cap (c : cell) : cell :=
  match extract (remove "," (remove rupee (astype_str c))) with
  | Some s => to_numeric s
  | None => NaN
  end.

Definition clean_symbol (c : cell) : cell :=
  Str (upper (strip (astype_str c))).

Definition clean_series_type (c : cell) : cell :=
  Str (astype_str (if isna c then Str "N/A" else c)).

Definition clean_optional (df : DataFrame) (c : string) : DataFrame :=
  if has_column c df then map_column c clean_numeric df else df.

(** The body of the [try] block, after [pd.read_csv]. *)
Definition normalize (df : DataFrame) : outcome DataFrame :=
  let* dates := getcol "Today's Date" df in
  let* dates := to_datetime_all dates in
  let df := {| columns := columns df; rows := assign "Today's Date" dates (rows df) |} in
  let* _ := getcol "%chng" df in
  let df := map_column "%chng" clean_percent df in
  let df := foldl clean_optional df numeric_columns in
  let* _ := getcol "Market Cap" df in
  let df := map_column "Market Cap" clean_market_cap df in
  let* _ := getcol "Symbol" df in
  let df := map_column "Symbol" clean_symbol df in
  let* _ := getcol "Series Type" df in
  let df := map_column "Series Type" clean_series_type df in
  Returns df.

(** [load_data(file)], given what [pd.read_csv(file)] does.  Any exception is
    caught: [st.error] shows it and the empty frame is returned.  The result
    pairs the exception shown, if any, with the frame returned. *)
Definition load_data (read_csv : outcome DataFrame) : option exn * DataFrame :=
  match (let* df := read_csv in normalize df) with
  | Returns df => (None, df)
  | Raises e => (Some e, no_frame)
  end.
End Normalizer.

(** Plain decimal numbers ([-12.5], [7]) and ISO dates ([2024-01-05]), for
    running the normalizer on examples. *)
Definition digit_value (c : ascii) : Z := Z.of_nat (nat_of_ascii c - 48).

Fixpoint digits_value (acc : Z) (s : string) : option Z :=
  match s with
  | EmptyString => Some acc
  | String c s' => if is_digit c then digits_value (10 * acc + digit_value c) s' else None
  end.

Definition parse_digits (s : string) : option Z :=
  match s with EmptyString => None | _ => digits_value 0 s end.

Definition parse_unsigned (s : string) : option Q :=
  let '(ip, rest) := take_digits s in
  match parse_digits ip, rest with
  | Some n, EmptyString => Some (inject_Z n)
  | Some n, String "." fs =>
      match parse_digits fs with
      | Some f => Some (inject_Z n + inject_Z f / inject_Z (pow10 (String.length fs)))%Q
      | None => None
      end
  | _, _ => None
  end.

Definition parse_decimal (s : string) : option Q :=
  match s with
  | String "-" s' => option_map Qopp (parse_unsigned s')
  | _ => parse_unsigned s
  end.

Definition parse_iso_date (s : string) : option Z :=
  match Nat.eqb (String.length s) 10, parse_digits (substring 0 4 s), substring 4 1 s,
        parse_digits (substring 5 2 s), substring 7 1 s, parse_digits (substring 8 2 s) with
  | true, Some y, "-"%string, Some m, "-"%string, Some d =>
      if (1 <=? m) && (m <=? 12) && (1 <=? d) && (d <=? 31)
         && (snd (civil_from_days (days_from_civil y m d)) =? d)
      then Some (midnight y m d) else None
  | _, _, _, _, _, _ => None
  end.

(** ** The frequency table of the month and date-range views *)

Fixpoint distinct (l : list Z) : list Z :=
  match l with
  | [] => []
  | x :: l' => x :: List.filter (fun y => negb (Z.eqb y x)) (distinct l')
  end.

(** [Series.nunique()] of a timestamp column: missing values do not count. *)
Definition nunique (l : list cell) : nat := length (distinct (omap as_stamp l)).

(** [groupby('Symbol')["Today's Date"].nunique().reset_index()], with the
    columns renamed to [Symbol] and [Occurrences]. *)
Definition stock_occurrences (filtered_data : Frame) : Frame :=
  map (fun key =>
         <["Occurrences" := of_nat (nunique (col "Today's Date" (group "Symbol" key filtered_data)))]>
           (<["Symbol" := Str key]> ∅))
      (group_keys "Symbol" filtered_data).

(** [groupby('Symbol').agg({'Series Type': 'first', 'Sector': 'first'}).reset_index()] *)
Definition stock_info (filtered_data : Frame) : Frame :=
  map (fun key =>
         let g : Row := first (group "Symbol" key filtered_data) in
         <["Sector" := g !!! "Sector"]>
           (<["Series Type" := g !!! "Series Type"]> (<["Symbol" := Str key]> ∅)))
      (group_keys "Symbol" filtered_data).

(** [pd.merge(left, right, on=c)]: the inner join, in the order of [left]. *)
Definition merge_on (c : string) (left right : Frame) : Frame :=
  concat (map (fun l : Row =>
                 map (fun r : Row => l ∪ r)
                     (List.filter (fun r : Row =>
                                     match l !!! c, r !!! c with
                                     | Str a, Str b => String.eqb a b
                                     | _, _ => false
                                     end) right))
              left).

Definition dquote : string := String (ascii_of_nat 34) EmptyString.

Definition occurrences_key (r : Row) : option Q := as_num (r !!! "Occurrences").

Definition screener_link (c : cell) : cell :=
  match c with
  | Str symbol =>
      Str ("<a href=" ++ dquote ++ "https://www.screener.in/company/" ++ symbol ++ dquote
             ++ " target=" ++ dquote ++ "_blank" ++ dquote ++ ">" ++ symbol ++ "</a>")%string
  | _ => c
  end.

(** ** Objects and in-place updates

    A DataFrame is an object: two variables can name the same one, and
    [df[c] = values] changes it for both.  The store lists the frames
    allocated so far; a location is an index into it.  Indexing with a mask,
    [copy()], [sort_values()], [groupby(...)...reset_index()] and [merge]
    build a new object; only item and column assignment update one in place. *)

Abbreviation store := (list (list (gmap string cell))).

Definition M (A : Type) : Type := store -> A * store.

Definition ret {A} (a : A) : M A := fun st => (a, st).

Definition bindM {A B} (m : M A) (k : A -> M B) : M B :=
  fun st => let '(a, st') := m st in k a st'.

Notation "'let!' x := m 'in' k" := (bindM m (fun x => k))
  (at level 10, x name, m at level 100, k at level 200).

Definition new (f : Frame) : M nat := fun st => (length st, st ++ [f]).

Definition read (l : nat) : M Frame := fun st => (default [] (st !! l), st).

(** An update of the object at [l] in place. *)
Definition modify (l : nat) (g : Frame -> Frame) : M unit :=
  fun st => (tt, alter g l st).

(** [df[c] = values], where [values] is computed from the frame itself. *)
Definition setitem (l : nat) (c : string) (values : Frame -> list cell) : M unit :=
  modify l (fun f => assign c (values f) f).

(** An operation that returns a new frame computed from the one at [l]. *)
Definition derive (l : nat) (g : Frame -> Frame) : M nat :=
  let! f := read l in new (g f).

(** [df.copy()] *)
Definition copy (l : nat) : M nat := derive l (fun f => f).

Definition get_stock_highs_st (data : nat) (symbol : string) : M (nat * nat) :=
  if truthy symbol then
    let! stock_data := derive data (List.filter (fun r : Row => str_eq (r !!! "Symbol") symbol)) in
    let! stock_data := copy stock_data in
    let! rows := read stock_data in
    if negb (empty rows) then
      let! stock_data := derive stock_data sort_by_date in
      let! _ := setitem stock_data "High_LTP" (fun f => cummax (col "LTP" f)) in
      let! high_dates := derive stock_data (List.filter is_high) in
      let! high_dates := copy high_dates in
      ret (high_dates, stock_data)
    else
      let! a := new [] in let! b := new [] in ret (a, b)
  else
    let! a := new [] in let! b := new [] in ret (a, b).

Definition get_latest_stock_data_st (filtered_data : nat) : M nat :=
  let! rows := read filtered_data in
  let stock_counts : gmap string nat := list_to_map (value_counts (col "Symbol" rows)) in
  let! sorted := derive filtered_data (sort_by latest_first) in
  let! latest_data := derive sorted (groupby_first "Symbol") in
  let! _ := setitem latest_data "count"
                    (fun f => map (map_dict stock_counts) (col "Symbol" f)) in
  derive latest_data
         (sort_by (fun r1 r2 => desc_na_last Qle_bool (count_key r1) (count_key r2))).

(** What a view hands to the rendering surface. *)
Inductive shown :=
| Chart (bars : list (string * nat))
| Table (frame : nat)
| Cards (frame : nat)
| Warning (message : string)
| Notice (message : string).

Definition refine_st (c : string) (selected : string) (filtered_data : nat) : M nat :=
  if String.eqb selected "All" then ret filtered_data
  else derive filtered_data (List.filter (fun r : Row => str_eq (r !!! c) selected)).

(** The sector table and the frequency table, as the month and the date-range
    views build them. *)
Definition column_sum (l : list cell) : Q :=
  foldr (fun c acc => match c with Num q => (q + acc)%Q | _ => acc end) 0%Q l.

(** [(Count / Count.sum() * 100).round(2)] *)
Definition percentages (counts : list cell) : list cell :=
  map (fun c => match c with
                | Num q => Num (round2 (q / column_sum counts * 100))
                | _ => NaN
                end) counts.

(** A row of [value_counts().reset_index()], and the renaming
    [sector_counts.columns = ['Sector', 'Count']]. *)
Definition counted (p : string * nat) : Row :=
  <["count" := of_nat (snd p)]> (<["Sector" := Str (fst p)]> ∅).

Definition renamed (r : Row) : Row :=
  <["Count" := r !!! "count"]> (<["Sector" := r !!! "Sector"]> ∅).

Definition sector_table_st (filtered_data : nat) : M nat :=
  let! rows := read filtered_data in
  let! table := new (map counted (sector_counts rows)) in
  let! _ := modify table (map renamed) in
  let! _ := setitem table "Percentage" (fun f => percentages (col "Count" f)) in
  ret table.

Definition stock_table_st (filtered_data : nat) : M nat :=
  let! occurrences := derive filtered_data stock_occurrences in
  let! info := derive filtered_data stock_info in
  let! left := read occurrences in
  let! right := read info in
  let! stock_table := new (merge_on "Symbol" left right) in
  let! stock_table := derive stock_table
      (sort_by (fun r1 r2 => desc_na_last Qle_bool (occurrences_key r1) (occurrences_key r2))) in
  let! _ := setitem stock_table "Symbol" (fun f => map screener_link (col "Symbol" f)) in
  ret stock_table.

Definition period_analysis (filtered_data : nat) (nothing : string) : M (list shown) :=
  let! rows := read filtered_data in
  if negb (empty rows) then
    let! sectors := sector_table_st filtered_data in
    let! stocks := stock_table_st filtered_data in
    ret [Chart (sector_counts rows); Table sectors; Table stocks]
  else ret [Warning nothing].

Definition pad2 (n : Z) : string := pad_zeros 2 (pretty n).

(** [str(d)] of a Python date *)
Definition isoformat (day : Z) : string :=
  let '(y, m, d) := civil_from_days day in
  (pad_zeros 4 (pretty y) ++ "-" ++ pad2 m ++ "-" ++ pad2 d)%string.

Definition month_label (c : cell) : cell :=
  match c with Stamp ns => Str (strftime_B_Y ns) | _ => NaN end.

(** The four views of [main], on the frame [data] that [load_data] returned. *)
Definition specific_date_view (data : nat) (selected_date : Z)
    (selected_sectors selected_series : string) : M (list shown) :=
  let! filtered_data := derive data (fun d => filterByExactDate d selected_date) in
  let! filtered_data := refine_st "Sector" selected_sectors filtered_data in
  let! filtered_data := refine_st "Series Type" selected_series filtered_data in
  let! rows := read filtered_data in
  if negb (empty rows) then
    let! latest_stock_data := get_latest_stock_data_st filtered_data in
    ret [Chart (sector_counts rows); Cards latest_stock_data]
  else ret [Warning "No data found for the selected filters."].

Definition month_view (data : nat) (selected_month : string)
    (selected_sectors selected_series : string) : M (list shown) :=
  let! _ := setitem data "Month" (fun f => map month_label (col "Today's Date" f)) in
  let! filtered_data := derive data (fun d => filterByMonth d selected_month) in
  let! filtered_data := refine_st "Sector" selected_sectors filtered_data in
  let! filtered_data := refine_st "Series Type" selected_series filtered_data in
  period_analysis filtered_data ("No data found for " ++ selected_month).

Definition date_range_view (data : nat) (start_date end_date : Z)
    (selected_sectors selected_series : string) : M (list shown) :=
  let! filtered_data := derive data (List.filter (date_range_mask start_date end_date)) in
  let! filtered_data := refine_st "Sector" selected_sectors filtered_data in
  let! filtered_data := refine_st "Series Type" selected_series filtered_data in
  period_analysis filtered_data
    ("No data found between " ++ isoformat start_date ++ " and " ++ isoformat end_date).

Definition sort_desc_by_date (df : Frame) : Frame :=
  sort_by (fun r1 r2 => desc_na_last Z.leb (date_key r1) (date_key r2)) df.

(** The display columns of the high-points table. *)
Definition strftime_d_B_Y (ns : Z) : string :=
  let '(y, m, d) := civil_from_days (dt_date ns) in
  (pad2 d ++ " " ++ month_name m ++ " " ++ pretty y)%string.

Definition date_text (c : cell) : cell :=
  match c with Stamp ns => Str (strftime_d_B_Y ns) | _ => NaN end.

Definition pyval_of_cell (c : cell) : pyval :=
  match c with
  | Num q => PFloat (FFin q)
  | Str s => PStr s
  | NaN | NaT => PFloat FNaN
  | Stamp _ => PObj
  end.

(** [lambda x: f"{'💹' if x > 0 else '🔻'}{x:+.2f}%" if pd.notnull(x) else "N/A"] *)
Definition change_text (c : cell) : cell :=
  match c with
  | Num x =>
      Str ((if Qle_bool x 0 then "🔻" else "💹")
             ++ (if Qle_bool 0 x then "+" else "") ++ format_fixed false 2 x ++ "%")%string
  | _ => Str "N/A"
  end.

Section Views.
Variable py_float : string -> option pyfloat.

Definition price_text (c : cell) : cell :=
  match format_number py_float (pyval_of_cell c) with
  | Returns s => Str s
  | Raises _ => NaN
  end.

Fixpoint search_view (data : nat) (search_symbols : list string) : M (list shown) :=
  match search_symbols with
  | [] => ret []
  | symbol :: rest =>
      let! found := get_stock_highs_st data symbol in
      let! stock_data := read (snd found) in
      let! out :=
        (if negb (empty stock_data) then
           let! high_dates := read (fst found) in
           if negb (empty high_dates) then
             let! display_df := copy (fst found) in
             let! display_df := derive display_df sort_desc_by_date in
             let! _ := setitem display_df "Date" (fun f => map date_text (col "Today's Date" f)) in
             let! _ := setitem display_df "Price" (fun f => map price_text (col "LTP" f)) in
             let! _ := setitem display_df "Change" (fun f => map change_text (col "%chng" f)) in
             ret [Table display_df]
           else ret []
         else ret [Warning ("No data found for symbol " ++ symbol)]) in
      let! more := search_view data rest in
      ret (out ++ more)
  end.

Inductive view :=
| SpecificDate (selected_date : Z) (selected_sectors selected_series : string)
| DateRange (start_date end_date : Z) (selected_sectors selected_series : string)
| Month (selected_month : string) (selected_sectors selected_series : string)
| SearchStock (search_symbols : list string).

Definition render (data : nat) (v : view) : M (list shown) :=
  match v with
  | SpecificDate d sectors series => specific_date_view data d sectors series
  | DateRange s e sectors series => date_range_view data s e sectors series
  | Month m sectors series => month_view data m sectors series
  | SearchStock symbols =>
      match symbols with
      | [] => ret [Notice "Please select one or more stock symbols to view their analysis"]
      | _ => search_view data symbols
      end
  end.
End Views.

(** ** Vocabulary of the statements *)

(** The order of [sort_values("Today's Date")]: dates ascending, [NaT] last. *)
Definition chronological (r1 r2 : Row) : Prop :=
  asc_na_last Z.leb (date_key r1) (date_key r2) = true.

Definition price_le (r1 r2 : Row) : Prop :=
  exists p1 p2, LTP r1 = Some p1 /\ LTP r2 = Some p2 /\ (p1 <= p2)%Q.

Definition with_highs (acc : option Q) (df : Frame) : Frame :=
  assign "High_LTP" (cummax_from acc (col "LTP" df)) df.

Definition symbol_rows (data : Frame) (symbol : string) : Frame :=
  List.filter (fun r : Row => str_eq (r !!! "Symbol") symbol) data.

(** The state of the running maximum after the prices [prev]. *)
Definition is_max (acc : option Q) (prev : list Q) : Prop :=
  match acc with
  | None => prev = []
  | Some a => In a prev /\ forall q, In q prev -> (q <= a)%Q
  end.

(** Chronological prices 100, 90, 105, 105, 95 for one symbol, listed out of
    order among the rows of another symbol. *)
Definition trajectory_example : Frame :=
  [quote "ABC" (midnight 2024 1 3) 105;
   quote "XYZ" (midnight 2024 1 1) 500;
   quote "ABC" (midnight 2024 1 5) 95;
   quote "ABC" (midnight 2024 1 1) 100;
   quote "ABC" (midnight 2024 1 4) 105;
   quote "XYZ" (midnight 2024 1 2) 400;
   quote "ABC" (midnight 2024 1 2) 90].

Definition record_of (fields : list (string * cell)) : Row := list_to_map fields.

Definition sum_percentages (hist : list (string * nat * Q)) : Q :=
  foldr (fun t acc => (snd t + acc)%Q) 0%Q hist.

Definition by_count_desc (a b : string * nat * Q) : Prop :=
  (snd (fst b) <= snd (fst a))%nat.

Definition exact_percentage (total : nat) (p : string * nat) : Q :=
  (inject_Z (Z.of_nat (snd p)) / inject_Z (Z.of_nat total) * 100)%Q.

(** From the specification's words: missing gives "N/A"; otherwise the largest
    applicable scale among 1e9 ("B"), 1e7 ("Cr"), 1e5 ("L"), else the raw value
    with thousands separators; two decimals, the currency symbol in front. *)
Definition formatScaledCurrency (value : option Q) : string :=
  match value with
  | None => "N/A"
  | Some v =>
      if Qle_bool 1e9 v then rupee ++ format_fixed false 2 (v / 1e9) ++ "B"
      else if Qle_bool 1e7 v then rupee ++ format_fixed false 2 (v / 1e7) ++ "Cr"
      else if Qle_bool 1e5 v then rupee ++ format_fixed false 2 (v / 1e5) ++ "L"
      else rupee ++ format_fixed true 2 v
  end%string.

Definition float_of (value : option Q) : pyval :=
  PFloat (match value with Some v => FFin v | None => FNaN end).

(** [float(s)] on plain decimal numbers, for running the formatters. *)
Definition decimal_float (s : string) : option pyfloat :=
  option_map FFin (parse_decimal s).

Definition cleaned (s : string) : string := strip (remove "," (remove rupee s)).

(** *** What [load_data] does to one row *)

Section NormalizedRow.
Variable str_of_num : Q -> string.
Variable parse_number : string -> option Q.
Variable parse_datetime : string -> option Z.

Definition parses (c : cell) : bool :=
  match to_datetime parse_datetime c with Returns _ => true | Raises _ => false end.

Definition stamp_of (c : cell) : cell :=
  match to_datetime parse_datetime c with Returns d => d | Raises _ => NaT end.

Definition clean_optional_row (df : DataFrame) (r : Row) (c : string) : Row :=
  if has_column c df then update c (clean_numeric str_of_num parse_number) r else r.

Definition normalize_row (df : DataFrame) (r : Row) : Row :=
  update "Series Type" (clean_series_type str_of_num)
    (update "Symbol" (clean_symbol str_of_num)
       (update "Market Cap" (clean_market_cap str_of_num parse_number)
          (foldl (clean_optional_row df)
             (update "%chng" (clean_percent str_of_num parse_number)
                (<["Today's Date" := stamp_of (r !!! "Today's Date")]> r))
             numeric_columns))).

(** The columns [load_data] reads unconditionally. *)
Definition accessed_columns : list string :=
  ["Today's Date"; "%chng"; "Market Cap"; "Symbol"; "Series Type"].

Definition load_data_result (read_csv : outcome DataFrame) : option exn * DataFrame :=
  match read_csv with
  | Raises e => (Some e, no_frame)
  | Returns df =>
      if negb (has_column "Today's Date" df)
      then (Some KeyError, no_frame)
      else if negb (forallb (fun r : Row => parses (r !!! "Today's Date")) (rows df))
      then (Some ValueError, no_frame)
      else if negb (forallb (fun c => has_column c df) accessed_columns)
      then (Some KeyError, no_frame)
      else (None, {| columns := columns df; rows := map (normalize_row df) (rows df) |})
  end.
End NormalizedRow.

Definition required_columns : list string :=
  ["Today's Date"; "Symbol"; "LTP"; "%chng"; "Series Type"; "Market Cap"; "Sector"; "Industry"].

Definition is_number_or_missing (c : cell) : Prop :=
  c = NaN \/ exists q, c = Num q.

(** A two-decimal rendering standing for [str(x)] when running examples. *)
Definition plain_repr (q : Q) : string := format_fixed false 2 q.

Definition raw_example : DataFrame :=
  {| columns := required_columns;
     rows :=
       [record_of [("Today's Date", Str "2024-01-05"); ("Symbol", Str " abc ");
                   ("LTP", Num 110); ("%chng", Str "1.5 %"); ("Series Type", NaN);
                   ("Market Cap", Str "₹1,234.5 Cr"); ("Sector", Str "Tech");
                   ("Industry", Str "Software")];
        record_of [("Today's Date", Str "2024-01-06"); ("Symbol", Str "xyz");
                   ("LTP", Num 7); ("%chng", Str "n/a"); ("Series Type", Str "EQ");
                   ("Market Cap", Str "unknown"); ("Sector", NaN);
                   ("Industry", NaN)]] |}.

Definition bad_date_example : DataFrame :=
  {| columns := required_columns;
     rows :=
       [record_of [("Today's Date", Str "2024-01-05"); ("Symbol", Str "ABC");
                   ("LTP", Num 110); ("%chng", Str "1.5%"); ("Series Type", Str "EQ");
                   ("Market Cap", Str "1234.5"); ("Sector", Str "Tech");
                   ("Industry", Str "Software")];
        record_of [("Today's Date", Str "not a date"); ("Symbol", Str "XYZ");
                   ("LTP", Num 7); ("%chng", Str "0.5%"); ("Series Type", Str "EQ");
                   ("Market Cap", Str "88"); ("Sector", Str "Auto");
                   ("Industry", Str "Cars")]] |}.

(** [m] leaves the first [n] objects of the store as they are, allocates past
    them only, and its result satisfies [post]. *)
Definition preserves {A} (n : nat) (m : M A) (post : A -> Prop) : Prop :=
  forall st : store,
    (n <= length st)%nat ->
    post (fst (m st)) /\ (n <= length (snd (m st)))%nat /\ take n (snd (m st)) = take n st.

Definition month_column (f : Frame) : Frame :=
  assign "Month" (map month_label (col "Today's Date" f)) f.

(** The first entry of column [c] in [g] that is not missing, if any. *)
Definition first_entry (c : string) (g : Frame) : option cell :=
  option_map (fun r : Row => r !!! c) (List.find (fun r : Row => negb (isna (r !!! c))) g).

Definition by_occurrences (r1 r2 : Row) : Prop :=
  desc_na_last Qle_bool (count_key r1) (count_key r2) = true.

(** * Further definitions *)

(** ** The frequency table as a function of the selection *)

(** The frame [stock_table_st] builds, from the rows of the selection:
    [pd.merge(stock_occurrences, stock_info, on='Symbol')], then
    [sort_values('Occurrences', ascending=False)], then the links. *)
Definition stock_table (filtered_data : Frame) : Frame :=
  let stock_table :=
    merge_on "Symbol" (stock_occurrences filtered_data) (stock_info filtered_data) in
  let stock_table :=
    sort_by (fun r1 r2 => desc_na_last Qle_bool (occurrences_key r1) (occurrences_key r2))
            stock_table in
  assign "Symbol" (map screener_link (col "Symbol" stock_table)) stock_table.

(** ** Text columns

    A column of text holds strings, and the missing float where the field is
    empty.  [Series.unique()] keeps the distinct entries in order of first
    appearance, the missing one among them. *)

Definition texts (l : list cell) : list (option string) := map as_str l.

Definition same_text (a b : option string) : bool :=
  match a, b with
  | Some x, Some y => String.eqb x y
  | None, None => true
  | _, _ => false
  end.

Fixpoint unique_text (l : list (option string)) : list (option string) :=
  match l with
  | [] => []
  | x :: l' => x :: List.filter (fun y => negb (same_text y x)) (unique_text l')
  end.

(** ** Symbol search *)

Definition lower_ascii (c : ascii) : ascii :=
  let n := nat_of_ascii c in
  if ((65 <=? n) && (n <=? 90))%nat then ascii_of_nat (n + 32) else c.

(** [str.lower()], on the ASCII letters *)
Fixpoint lower (s : string) : string :=
  match s with
  | EmptyString => EmptyString
  | String c s' => String (lower_ascii c) (lower s')
  end.

(** A value, or the [AttributeError] of [symbol.lower()] on an entry that is
    no string. *)
Inductive attr (A : Type) :=
| Attr (a : A)
| AttributeError.
Arguments Attr {A} a.
Arguments AttributeError {A}.

(** [[symbol for symbol in symbols
      if symbol.lower().startswith(search_text.lower())]] *)
Fixpoint filtered_symbols (symbols : list (option string)) (search_text : string)
    : attr (list string) :=
  match symbols with
  | [] => Attr []
  | Some symbol :: rest =>
      let keep := String.prefix (lower search_text) (lower symbol) in
      match filtered_symbols rest search_text with
      | Attr l => Attr (if keep then symbol :: l else l)
      | AttributeError => AttributeError
      end
  | None :: _ => AttributeError
  end.

(** [get_stock_symbols(data, search_text)]: "Get filtered list of stock
    symbols based on search text". *)
Definition get_stock_symbols (data : Frame) (search_text : string) : attr (list string) :=
  if negb (truthy search_text) then Attr []
  else
    let symbols := unique_text (texts (col "Symbol" data)) in
    match filtered_symbols symbols search_text with
    | Attr l => Attr (sort_by String.leb l)
    | AttributeError => AttributeError
    end.

(** ** The choice lists of the sidebar

    [['All'] + sorted(filtered_data[c].unique().tolist())].  [sorted] compares
    the entries with [<]; a string and a float are not ordered, and the
    comparison of the two raises [TypeError].  Every entry of a list of two or
    more is compared with another one. *)

Definition text_lt (a b : option string) : outcome bool :=
  match a, b with
  | Some x, Some y => Returns (String.ltb x y)
  | None, None => Returns false
  | _, _ => Raises TypeError
  end.

Fixpoint insert_sorted (x : option string) (l : list (option string))
    : outcome (list (option string)) :=
  match l with
  | [] => Returns [x]
  | y :: l' =>
      let* lt := text_lt y x in
      if lt then let* l'' := insert_sorted x l' in Returns (y :: l'')
      else Returns (x :: y :: l')
  end.

Fixpoint sorted (l : list (option string)) : outcome (list (option string)) :=
  match l with
  | [] => Returns []
  | x :: l' => let* s := sorted l' in insert_sorted x s
  end.

Definition available_options (c : string) (filtered_data : Frame)
    : outcome (list (option string)) :=
  let* options := sorted (unique_text (texts (col c filtered_data))) in
  Returns (Some "All"%string :: options).

Definition available_sectors : Frame -> outcome (list (option string)) :=
  available_options "Sector".

Definition available_series : Frame -> outcome (list (option string)) :=
  available_options "Series Type".

(** ** The metrics of the views *)

(** [Series.max()]: the greatest value, the missing ones skipped; missing when
    there is none. *)
Definition series_max (l : list cell) : cell :=
  match omap as_num l with
  | [] => NaN
  | q :: qs => Num (foldl Qmaxb q qs)
  end.

(** [highest_price = stock_data['LTP'].max()] *)
Definition highest_price (stock_data : Frame) : cell := series_max (col "LTP" stock_data).

(** [f"{len(high_dates)} dates" if not high_dates.empty else "0"] *)
Definition high_points_found (high_dates : Frame) : string :=
  if negb (empty high_dates) then (pretty (length high_dates) ++ " dates")%string
  else "0"%string.

(** [len(filtered_data['Symbol'].unique())] and
    [len(filtered_data['Sector'].unique())] *)
Definition total_stocks (filtered_data : Frame) : nat :=
  length (unique_text (texts (col "Symbol" filtered_data))).

Definition total_sectors (filtered_data : Frame) : nat :=
  length (unique_text (texts (col "Sector" filtered_data))).

Definition Qsum (l : list Q) : Q := foldr Qplus 0%Q l.

(** [Series.mean()]: the mean of the values that are not missing; missing when
    there is none. *)
Definition series_mean (l : list cell) : pyfloat :=
  match omap as_num l with
  | [] => FNaN
  | qs => FFin (Qsum qs / inject_Z (Z.of_nat (length qs)))
  end.

(** [format(x, '+.{prec}f')] *)
Definition format_signed (prec : nat) (f : pyfloat) : string :=
  match f with
  | FNaN => "+nan"
  | FInf false => "+inf"
  | FInf true => "-inf"
  | FFin q => ((if Qle_bool 0 q then "+" else "") ++ format_fixed false prec q)%string
  end.

(** [avg_change = filtered_data['%chng'].mean()], shown as
    [f"{avg_change:+.2f}%"] *)
Definition average_change (filtered_data : Frame) : string :=
  (format_signed 2 (series_mean (col "%chng" filtered_data)) ++ "%")%string.

(** The bar trace of [create_sector_chart]: [x] is the index of
    [value_counts()], [y] and [text] its values.  The layout of the figure is
    constant and left out. *)
Record bar_trace := { trace_x : list string; trace_y : list nat; trace_text : list nat }.

Definition create_sector_chart (filtered_data : Frame) : bar_trace :=
  let sector_counts := value_counts (col "Sector" filtered_data) in
  {| trace_x := map fst sector_counts;
     trace_y := map snd sector_counts;
     trace_text := map snd sector_counts |}.

Definition occurrences_desc (r1 r2 : Row) : Prop :=
  desc_na_last Qle_bool (occurrences_key r1) (occurrences_key r2) = true.

(** The number of distinct dates among the records of [key]. *)
Definition dates_of (key : string) (filtered_data : Frame) : nat :=
  nunique (col "Today's Date" (group "Symbol" key filtered_data)).

(** The strict order of Python strings. *)
Definition string_lt (a b : string) : Prop := String.ltb a b = true.

Section SearchMetrics.
Variable py_float : string -> option pyfloat.

(** The two metrics of the search view, "52-Week High" and "High Points
    Found". *)
Definition search_metrics (high_dates stock_data : Frame) : outcome string * string :=
  (format_number py_float (pyval_of_cell (highest_price stock_data)),
   high_points_found high_dates).
End SearchMetrics.

(** The prices of a frame, missing ones dropped. *)
Definition prices (df : Frame) : list Q := omap as_num (col "LTP" df).

(** Whether a text column has a missing entry. *)
Definition has_missing (l : list (option string)) : bool :=
  existsb (fun e : option string => match e with None => true | Some _ => false end) l.

Definition one_if (b : bool) : nat := if b then 1%nat else 0%nat.

(** The form [load_data] gives a symbol: no blank at either end, no lower-case
    letter. *)
Definition normal_symbol (s : string) : Prop := upper (strip s) = s.

Fixpoint has_digit (s : string) : bool :=
  match s with
  | EmptyString => false
  | String c s' => is_digit c || has_digit s'
  end.

Fixpoint digits (s : string) : bool :=
  match s with
  | EmptyString => true
  | String c s' => is_digit c && digits s'
  end.

(** Whether a string begins with a digit. *)
Definition starts_with_digit (s : string) : bool :=
  match s with
  | String c _ => is_digit c
  | EmptyString => false
  end.

(** The texts [\d+(?:\.\d+)?] matches entirely: digits, then possibly a dot
    and digits. *)
Definition number_text (x : string) : Prop :=
  exists ds, digits ds = true /\ ds <> ""%string
    /\ (x = ds
        \/ exists fs, digits fs = true /\ fs <> ""%string /\ x = (ds ++ "." ++ fs)%string).

(** The text of a market cap the number is taken from. *)
Definition market_cap_text (str_of_num : Q -> string) (c : cell) : string :=
  remove "," (remove rupee (astype_str str_of_num c)).

(** ** The month list of the month view *)

(** The year and month of a timestamp, and the label [strftime('%B %Y')]
    gives them. *)
Definition year_month (ns : Z) : Z * Z :=
  let '(y, m, _) := civil_from_days (dt_date ns) in (y, m).

Definition month_text (ym : Z * Z) : string :=
  (month_name (snd ym) ++ " " ++ pretty (fst ym))%string.

(** [x] without the leading [name], letter case ignored. *)
Definition drop_name (name x : string) : option string :=
  if String.prefix (lower name) (lower x)
  then Some (substring (String.length name) (String.length x - String.length name) x)
  else None.

Fixpoint find_month (months : list Z) (x : string) : option (Z * string) :=
  match months with
  | [] => None
  | m :: months' =>
      match drop_name (month_name m) x with
      | Some rest => Some (m, rest)
      | None => find_month months' x
      end
  end.

(** [datetime.strptime(x, '%B %Y')], as the year and the month of the date
    it returns: a full month name in any letter case, white space, four
    digits that do not spell the year 0; [ValueError] otherwise. *)
Definition strptime_B_Y (x : string) : outcome (Z * Z) :=
  match find_month [1; 2; 3; 4; 5; 6; 7; 8; 9; 10; 11; 12] x with
  | Some (m, rest) =>
      let year := lstrip rest in
      if ((String.length year <? String.length rest) && (String.length year =? 4))%nat
      then match parse_digits year with
           | Some y => if 1 <=? y then Returns (y, m) else Raises ValueError
           | None => Raises ValueError
           end
      else Raises ValueError
  | None => Raises ValueError
  end.

(** The order of two dates that fall on the first of a month. *)
Definition ym_le (a b : Z * Z) : bool :=
  (fst a <? fst b) || ((fst a =? fst b) && (snd a <=? snd b)).

(** The keys [sorted] computes before it sorts: [strptime] of each entry, in
    order; an entry that is no string raises [TypeError]. *)
Fixpoint keyed (months : list (option string)) : outcome (list (Z * Z * string)) :=
  match months with
  | [] => Returns []
  | Some x :: rest =>
      let* key := strptime_B_Y x in
      let* keys := keyed rest in
      Returns ((key, x) :: keys)
  | None :: _ => Raises TypeError
  end.

(** [sorted(data['Month'].unique(), key=lambda x: datetime.strptime(x, '%B %Y'))],
    after [data['Month'] = data["Today's Date"].dt.strftime('%B %Y')]. *)
Definition month_options (data : Frame) : outcome (list string) :=
  let months := unique_text (texts (map month_label (col "Today's Date" data))) in
  let* keys := keyed months in
  Returns (map snd (sort_by (fun a b => ym_le (fst a) (fst b)) keys)).

Definition ym_lt (a b : Z * Z) : Prop :=
  fst a < fst b \/ (fst a = fst b /\ snd a < snd b).

(** The timestamps pandas can hold: 64-bit counts of nanoseconds. *)
Definition int64 (ns : Z) : Prop := - 2 ^ 63 <= ns < 2 ^ 63.

Definition valid_month (ym : Z * Z) : Prop :=
  1000 <= fst ym <= 9999 /\ 1 <= snd ym <= 12.

(** ** The stock card

    [create_stock_card(row)] fills a fixed HTML template with values it reads
    from one row of [get_latest_stock_data]; it is embedded as the record of
    those values, the markup around them left out.  A row is a pandas Series
    indexed by the columns of the frame: [row[c]] raises [KeyError] when there
    is no column [c], [row.get(c, 'N/A')] gives ["N/A"] then. *)

Definition getitem (row : Row) (c : string) : outcome cell :=
  match row !! c with
  | Some v => Returns v
  | None => Raises KeyError
  end.

Definition get_or_na (row : Row) (c : string) : cell :=
  match row !! c with
  | Some v => v
  | None => Str "N/A"
  end.

(** A metric box: the label, the colour of the box, the colour of the trend
    and the text [f"{value}{' ' + unit if unit else ''} {trend_icon[trend]}"]. *)
Record metric := {
  metric_label : string;
  metric_color : string;
  metric_trend_color : string;
  metric_text : string
}.

(** [trend_color[trend]] and [trend_icon[trend]]: dictionaries with the keys
    ["up"], ["down"] and [None]. *)
Definition trend_color (trend : option string) : outcome string :=
  match trend with
  | None => Returns "white"%string
  | Some t =>
      if String.eqb t "up" then Returns "#22C55E"%string
      else if String.eqb t "down" then Returns "#EF4444"%string
      else Raises KeyError
  end.

Definition trend_icon (trend : option string) : outcome string :=
  match trend with
  | None => Returns ""%string
  | Some t =>
      if String.eqb t "up" then Returns "↑"%string
      else if String.eqb t "down" then Returns "↓"%string
      else Raises KeyError
  end.

Definition create_metric_container (label value unit color : string) (trend : option string)
    : outcome metric :=
  let* tcolor := trend_color trend in
  let* icon := trend_icon trend in
  Returns {| metric_label := label;
             metric_color := color;
             metric_trend_color := tcolor;
             metric_text :=
               (value ++ (if truthy unit then " " ++ unit else "") ++ " " ++ icon)%string |}.

Record stock_card := {
  card_link : string;
  card_symbol : string;
  card_series : string;
  card_sector : string;
  card_industry : string;
  card_price : string;
  card_price_color : string;
  card_change : string;
  card_metrics : list metric;
  card_about : option string
}.

Section StockCard.
Variable py_float : string -> option pyfloat.
(** [str(x)] of a float and of a timestamp. *)
Variable str_of_num : Q -> string.
Variable str_of_stamp : Z -> string.

(** [str(value)], as an f-string writes a value without a format. *)
Definition py_str (c : cell) : string :=
  match c with
  | Str s => s
  | NaN => "nan"
  | NaT => "NaT"
  | Num q => str_of_num q
  | Stamp ns => str_of_stamp ns
  end.

(** [format_metric_value(value)] on a cell.  A timestamp formats itself with
    [strftime], which copies a format without directives. *)
Definition metric_value (c : cell) : outcome string :=
  match c with
  | Stamp _ => Returns ".2f"%string
  | _ => format_metric_value py_float (pyval_of_cell c) 2
  end.

(** The colour and the text of the change: [price_change >= 0] is evaluated
    first and raises [TypeError] on a value that is no number; the text is
    [f"{price_change:+.2f}% {' ↑' if price_change >= 0 else ' ↓'}"]. *)
Definition change_box (price_change : cell) : outcome (string * string) :=
  match price_change with
  | Num q =>
      let up := Qle_bool 0 q in
      Returns (if up then "#22C55E" else "#EF4444",
               format_signed 2 (FFin q) ++ "% " ++ (if up then " ↑" else " ↓"))%string
  | NaN => Returns ("#EF4444", "+nan%  ↓")%string
  | _ => Raises TypeError
  end.

(** ['About' in row and pd.notnull(row['About']) and str(row['About']) != 'nan'] *)
Definition about_section (row : Row) : option string :=
  match row !! "About" with
  | Some v =>
      if negb (isna v) && negb (String.eqb (py_str v) "nan") then Some (py_str v) else None
  | None => None
  end.

Definition create_stock_card (row : Row) : outcome stock_card :=
  let* price_change := getitem row "%chng" in
  let* symbol := getitem row "Symbol" in
  let* title := getitem row "Symbol" in
  let* series := getitem row "Series Type" in
  let sector := get_or_na row "Sector" in
  let industry := get_or_na row "Industry" in
  let* ltp := getitem row "LTP" in
  let* price := format_number py_float (pyval_of_cell ltp) in
  let* price_change := getitem row "%chng" in
  let* change := change_box price_change in
  let* v := format_number py_float (pyval_of_cell (get_or_na row "Market Cap")) in
  let* market_cap := create_metric_container "Market Cap" v "" "#A5B4FC" None in
  let* days := getitem row "Days Since High" in
  let* v := metric_value days in
  let* days_since_high := create_metric_container "Days Since High" v "" "#BAE6FD" None in
  let* v := metric_value (get_or_na row "P/E Ratio") in
  let* pe := create_metric_container "Stock P/E" v "" "#93C5FD" None in
  let* v := metric_value (get_or_na row "ROE") in
  let* roe := create_metric_container "ROE" v "%" "#FDA4AF" None in
  let* v := metric_value (get_or_na row "Dividend Yield") in
  let* dividend_yield := create_metric_container "Dividend Yield" v "%" "#FCA5A5" None in
  let* v := metric_value (get_or_na row "ROCE") in
  let* roce := create_metric_container "ROCE" v "%" "#FDBA74" None in
  Returns {| card_link := ("https://www.screener.in/company/" ++ py_str symbol)%string;
             card_symbol := py_str title;
             card_series := py_str series;
             card_sector := py_str sector;
             card_industry := py_str industry;
             card_price := price;
             card_price_color := fst change;
             card_change := snd change;
             card_metrics := [market_cap; days_since_high; pe; roe; dividend_yield; roce];
             card_about := about_section row |}.

(** [for idx, row in latest_stock_data.iterrows(): create_stock_card(row)] *)
Fixpoint stock_cards (latest_stock_data : Frame) : outcome (list stock_card) :=
  match latest_stock_data with
  | [] => Returns []
  | row :: rest =>
      let* card := create_stock_card row in
      let* cards := stock_cards rest in
      Returns (card :: cards)
  end.
End StockCard.

(** The columns a card cannot do without. *)
Definition card_columns : list string :=
  ["%chng"; "Symbol"; "Series Type"; "LTP"; "Days Since High"].

(** The metrics that have a default: the column, the label, the unit. *)
Definition optional_metrics : list (string * string * string) :=
  [("Market Cap", "Market Cap", ""); ("P/E Ratio", "Stock P/E", ""); ("ROE", "ROE", "%");
   ("Dividend Yield", "Dividend Yield", "%"); ("ROCE", "ROCE", "%")]%string.

(** Whether the column is absent from the row, or its entry missing. *)
Definition absent_or_missing (row : Row) (c : string) : Prop :=
  row !! c = None \/ exists v, row !! c = Some v /\ isna v = true.

(** A row with the columns of a card, its change missing. *)
Definition card_example : Row :=
  record_of [("%chng", NaN); ("Symbol", Str "ABC"); ("Series Type", Str "EQ");
             ("LTP", Num 110); ("Days Since High", Num 3); ("Sector", NaN)].

(** The rows a date-range selection keeps. *)
Definition date_range (data : Frame) (start_date end_date : Z) : Frame :=
  match filterByDateRange data start_date end_date with
  | Returns rows => rows
  | Raises _ => []
  end.

Section Timeline.
Variable py_float : string -> option pyfloat.

(** The table "High Points Timeline" of the search view: the high points by
    descending date, with the display columns [Date], [Price] and [Change]. *)
Definition timeline (high_dates : Frame) : Frame :=
  let display_df := sort_desc_by_date high_dates in
  let display_df := assign "Date" (map date_text (col "Today's Date" display_df)) display_df in
  let display_df :=
    assign "Price" (map (price_text py_float) (col "LTP" display_df)) display_df in
  assign "Change" (map change_text (col "%chng" display_df)) display_df.
End Timeline.

Definition dated (r : Row) : bool :=
  match date_key r with Some _ => true | None => false end.

(** Latest first, rows without a date last. *)
Definition latest_date_first (r1 r2 : Row) : Prop :=
  desc_na_last Z.leb (date_key r1) (date_key r2) = true.

(** ** The bounds of the date pickers *)

(** [data["Today's Date"].min()] and [data["Today's Date"].max()]: the
    earliest and the latest timestamp, missing dates skipped; [NaT] when no
    record is dated. *)
Definition min_date (data : Frame) : cell :=
  match omap date_key data with
  | [] => NaT
  | ns :: rest => Stamp (foldl Z.min ns rest)
  end.

Definition max_date (data : Frame) : cell :=
  match omap date_key data with
  | [] => NaT
  | ns :: rest => Stamp (foldl Z.max ns rest)
  end.

(** ** Refining a selection by sector *)

(** [if selected != 'All': filtered_data = filtered_data[filtered_data[c] == selected]] *)
Definition refine (c selected : string) (filtered_data : Frame) : Frame :=
  if String.eqb selected "All" then filtered_data
  else List.filter (fun r : Row => str_eq (r !!! c) selected) filtered_data.

(** Three records in two sectors. *)
Definition sector_example : Frame :=
  [record_of [("Symbol", Str "A"); ("Sector", Str "Auto")];
   record_of [("Symbol", Str "B"); ("Sector", Str "Tech")];
   record_of [("Symbol", Str "C"); ("Sector", Str "Tech")]].

(** * Properties *)

(** ** Lists: masks and sorting *)

Lemma filter_idempotent {A} (p : A -> bool) (l : list A) :
  List.filter p (List.filter p l) = List.filter p l.
Proof.
  induction l as [|x l IH]; simpl; [reflexivity|].
  destruct (p x) eqn:Hx; simpl; [rewrite Hx, IH|]; auto.
Qed.

Lemma filter_none {A} (p : A -> bool) (l : list A) :
  (forall x, p x = false) -> List.filter p l = [].
Proof.
  intros Hp. induction l as [|x l IH]; simpl; [reflexivity|].
  rewrite Hp. exact IH.
Qed.

Section SortingFacts.
Context {A : Type} (le : A -> A -> bool).
Hypothesis le_total : forall x y, le x y = true \/ le y x = true.
Hypothesis le_trans : forall x y z, le x y = true -> le y z = true -> le x z = true.

Lemma insert_by_perm (x : A) (l : list A) : Permutation (insert_by le x l) (x :: l).
Proof.
  induction l as [|y l IH]; simpl; [reflexivity|].
  destruct (le x y); [reflexivity|].
  rewrite IH. apply perm_swap.
Qed.

Lemma sort_by_perm (l : list A) : Permutation (sort_by le l) l.
Proof.
  induction l as [|x l IH]; simpl; [reflexivity|].
  rewrite insert_by_perm. now constructor.
Qed.

Lemma insert_by_sorted (x : A) (l : list A) :
  StronglySorted (fun a b => le a b = true) l ->
  StronglySorted (fun a b => le a b = true) (insert_by le x l).
Proof.
  induction 1 as [|y l Hs IH Hy]; simpl.
  - repeat constructor.
  - destruct (le x y) eqn:Hxy.
    + constructor; [now constructor|].
      constructor; [exact Hxy|].
      rewrite List.Forall_forall in *. intros z Hz. eapply le_trans; eauto.
    + constructor; [exact IH|].
      rewrite List.Forall_forall in *. intros z Hz.
      apply (Permutation_in _ (insert_by_perm x l)) in Hz.
      destruct Hz as [Hz|Hz]; [subst z|auto].
      destruct (le_total x y) as [H|H]; [congruence|exact H].
Qed.

Lemma sort_by_sorted (l : list A) :
  StronglySorted (fun a b => le a b = true) (sort_by le l).
Proof.
  induction l as [|x l IH]; simpl; [constructor|].
  now apply insert_by_sorted.
Qed.
End SortingFacts.

Lemma sort_by_nil_inv {A} (le : A -> A -> bool) (l : list A) :
  sort_by le l = [] -> l = [].
Proof.
  intros H. pose proof (sort_by_perm le l) as P. rewrite H in P.
  now apply Permutation_nil in P.
Qed.

Lemma sort_by_length {A} (le : A -> A -> bool) (l : list A) :
  length (sort_by le l) = length l.
Proof. apply Permutation_length, sort_by_perm. Qed.

Lemma asc_na_last_total (a b : option Z) :
  asc_na_last Z.leb a b = true \/ asc_na_last Z.leb b a = true.
Proof.
  destruct a as [x|], b as [y|]; simpl; auto.
  destruct (Z.leb_spec x y); [auto|right]. apply Z.leb_le. lia.
Qed.

Lemma asc_na_last_trans (a b c : option Z) :
  asc_na_last Z.leb a b = true -> asc_na_last Z.leb b c = true ->
  asc_na_last Z.leb a c = true.
Proof.
  destruct a as [x|], b as [y|], c as [z|]; simpl; try congruence.
  rewrite !Z.leb_le. lia.
Qed.

Lemma sort_by_date_sorted (df : Frame) : StronglySorted chronological (sort_by_date df).
Proof.
  unfold sort_by_date, chronological.
  apply (sort_by_sorted (fun r1 r2 : Row => asc_na_last Z.leb (date_key r1) (date_key r2))).
  - intros x y. apply asc_na_last_total.
  - intros x y z. apply asc_na_last_trans.
Qed.

Lemma sort_by_date_perm (df : Frame) : Permutation (sort_by_date df) df.
Proof. apply sort_by_perm. Qed.

(** ** Filter engine *)

Lemma date_range_mask_inverted (start_date end_date : Z) (r : Row) :
  end_date < start_date -> date_range_mask start_date end_date r = false.
Proof.
  intros H. unfold date_range_mask, date_ge, date_le.
  destruct (r !!! "Today's Date"); simpl; try reflexivity.
  destruct (Z.leb_spec start_date (dt_date ns)); simpl; [|reflexivity].
  apply Z.leb_gt. lia.
Qed.

(** C8.  Filtering by an exact date is idempotent, and the mask looks at the
    calendar day of the timestamp only: a row with a timestamp is kept exactly
    when it is in the dataset and its day is the selected one, whatever its
    time of day. *)
Theorem filterByExactDate_idempotent (data : Frame) (d : Z) :
  filterByExactDate (filterByExactDate data d) d = filterByExactDate data d
  /\ (forall (r : Row) (ns : Z),
         r !!! "Today's Date" = Stamp ns ->
         (In r (filterByExactDate data d) <-> In r data /\ dt_date ns = d)).
Proof.
  split.
  - apply filter_idempotent.
  - intros r ns Hr. unfold filterByExactDate.
    rewrite List.filter_In, Hr. simpl. now rewrite Z.eqb_eq.
Qed.

(** Two timestamps on the same calendar day, hours apart, are both selected. *)
Example filterByExactDate_time_of_day :
  filterByExactDate
    [quote "ABC" (midnight 2024 1 5) 100;
     quote "XYZ" (midnight 2024 1 5 + 15 * 3600 * 1000000000) 7;
     quote "ABC" (midnight 2024 1 6) 101]
    (days_from_civil 2024 1 5)
  = [quote "ABC" (midnight 2024 1 5) 100;
     quote "XYZ" (midnight 2024 1 5 + 15 * 3600 * 1000000000) 7].
Proof. vm_compute. reflexivity. Qed.

(** C1, as stated, fails: with the start after the end the selection raises
    nothing; it returns the empty subset like any range that matches no row. *)
Lemma filterByDateRange_inverted_not_signalled :
  let data := [quote "ABC" (midnight 2024 1 3) 105] in
  let start_date := days_from_civil 2024 1 5 in
  let end_date := days_from_civil 2024 1 1 in
  end_date < start_date
  /\ filterByDateRange data start_date end_date = Returns []
  /\ filterByDateRange data start_date end_date <> Raises InvalidRangeError.
Proof.
  cbv zeta. split; [reflexivity|]. split; [vm_compute; reflexivity|].
  unfold filterByDateRange. discriminate.
Qed.

(** ** The 52-week-high trajectory *)

Lemma with_highs_cons (acc : option Q) (r : Row) (df : Frame) :
  with_highs acc (r :: df) =
  match r !!! "LTP" with
  | Num q =>
      let m := match acc with Some a => Qmaxb a q | None => q end in
      <["High_LTP" := Num m]> r :: with_highs (Some m) df
  | _ => <["High_LTP" := NaN]> r :: with_highs acc df
  end.
Proof. unfold with_highs. simpl. destruct (r !!! "LTP"); reflexivity. Qed.

Lemma LTP_insert_high (h : cell) (r : Row) : LTP (<["High_LTP" := h]> r) = LTP r.
Proof. unfold LTP. now rewrite lookup_total_insert_ne. Qed.

Lemma date_key_insert_high (h : cell) (r : Row) :
  date_key (<["High_LTP" := h]> r) = date_key r.
Proof. unfold date_key. now rewrite lookup_total_insert_ne. Qed.

Lemma is_high_insert (h : cell) (r : Row) :
  is_high (<["High_LTP" := h]> r) = num_eq (r !!! "LTP") h.
Proof.
  unfold is_high. rewrite lookup_total_insert_eq.
  now rewrite lookup_total_insert_ne.
Qed.

Lemma Qmaxb_ge_l (a q : Q) : (a <= Qmaxb a q)%Q.
Proof.
  unfold Qmaxb. destruct (Qle_bool a q) eqn:H.
  - now apply Qle_bool_iff.
  - apply Qle_refl.
Qed.

Lemma Qmaxb_ge_r (a q : Q) : (q <= Qmaxb a q)%Q.
Proof.
  unfold Qmaxb. destruct (Qle_bool a q) eqn:H.
  - apply Qle_refl.
  - apply Qlt_le_weak, Qnot_le_lt. intros Hle.
    apply Qle_bool_iff in Hle. congruence.
Qed.

Lemma Qeq_bool_maxb (a q : Q) : Qeq_bool q (Qmaxb a q) = true <-> (a <= q)%Q.
Proof.
  rewrite Qeq_bool_iff. split.
  - intros H. rewrite H. apply Qmaxb_ge_l.
  - intros H. unfold Qmaxb. apply Qle_bool_iff in H. now rewrite H.
Qed.

Lemma with_highs_agrees (acc : option Q) (df : Frame) :
  map (delete "High_LTP") (with_highs acc df) = map (delete "High_LTP") df.
Proof.
  revert acc. induction df as [|r df IH]; intros acc; [reflexivity|].
  rewrite with_highs_cons.
  destruct (r !!! "LTP"); simpl; rewrite delete_insert_eq, IH; reflexivity.
Qed.

Lemma is_max_step (acc : option Q) (prev : list Q) (q : Q) :
  is_max acc prev ->
  is_max (Some (match acc with Some a => Qmaxb a q | None => q end)) (q :: prev).
Proof.
  destruct acc as [a|]; simpl.
  - intros [Ha Hmax]. split.
    + unfold Qmaxb. destruct (Qle_bool a q); auto.
    + intros x [<-|Hx]; [apply Qmaxb_ge_r|].
      eapply Qle_trans; [apply Hmax, Hx|apply Qmaxb_ge_l].
  - intros ->. split; [now left|]. intros x [<-|[]]. apply Qle_refl.
Qed.

Lemma is_high_running_max (df : Frame) :
  forall (acc : option Q) (prev : list Q), is_max acc prev ->
  forall (pre : Frame) (r : Row) (post : Frame),
    with_highs acc df = pre ++ r :: post ->
    (is_high r = true <->
     exists p, LTP r = Some p
               /\ (forall q, In q prev -> (q <= p)%Q)
               /\ (forall r' q, In r' pre -> LTP r' = Some q -> (q <= p)%Q)).
Proof.
  induction df as [|r0 df IH]; intros acc prev Hmax pre r post Heq.
  - destruct pre; discriminate.
  - rewrite with_highs_cons in Heq.
    destruct pre as [|r1 pre].
    + (* the record is the head of the series *)
      simpl in Heq.
      destruct (r0 !!! "LTP") as [| |q| |] eqn:Hc; injection Heq as <- _;
        rewrite is_high_insert, LTP_insert_high; unfold LTP; rewrite Hc; simpl;
        try (split; [discriminate|intros (p & Hp & _); discriminate]).
      destruct acc as [a|]; simpl in Hmax.
      * rewrite Qeq_bool_maxb. destruct Hmax as [Ha Hmax]. split.
        -- intros Hle. exists q. split; [reflexivity|]. split; [|intros ? ? []].
           intros x Hx. eapply Qle_trans; [apply Hmax, Hx|exact Hle].
        -- intros (p & [= <-] & Hp & _). now apply Hp.
      * subst prev. rewrite Qeq_bool_refl. split; [|reflexivity].
        intros _. exists q. split; [reflexivity|]. split; [intros ? []|intros ? ? []].
    + (* the record comes later *)
      simpl in Heq.
      destruct (r0 !!! "LTP") as [| |q| |] eqn:Hc; injection Heq as <- Heq.
      3: {
        specialize (IH _ _ (is_max_step acc prev q Hmax) _ _ _ Heq).
        rewrite IH. split; intros (p & Hp & Hprev & Hpre); exists p;
          (split; [exact Hp|]); split.
        - intros x Hx. apply Hprev. now right.
        - intros r' x [<-|Hr'] HL; [|eapply Hpre; eauto].
          rewrite LTP_insert_high in HL. unfold LTP in HL. rewrite Hc in HL.
          injection HL as <-. apply Hprev. now left.
        - intros x [<-|Hx]; [|now apply Hprev].
          eapply Hpre; [now left|].
          rewrite LTP_insert_high. unfold LTP. now rewrite Hc.
        - intros r' x Hr'. apply Hpre. now right.
      }
      all: specialize (IH _ _ Hmax _ _ _ Heq); rewrite IH;
        split; intros (p & Hp & Hprev & Hpre); exists p;
        (split; [exact Hp|]); (split; [exact Hprev|]).
      all: try (intros r' x [<-|Hr'] HL; [|eapply Hpre; eauto];
                rewrite LTP_insert_high in HL; unfold LTP in HL; rewrite Hc in HL;
                discriminate).
      all: intros r' x Hr'; apply Hpre; now right.
Qed.

Lemma high_points_above (df : Frame) :
  forall (acc : option Q) (a : Q), acc = Some a ->
  Forall (fun r => exists p, LTP r = Some p /\ (a <= p)%Q)
         (List.filter is_high (with_highs acc df)).
Proof.
  induction df as [|r0 df IH]; intros acc a ->; [constructor|].
  rewrite with_highs_cons.
  destruct (r0 !!! "LTP") as [| |q| |] eqn:Hc; simpl;
    rewrite is_high_insert, Hc; simpl; try (now apply IH).
  assert (Htail : Forall (fun r => exists p, LTP r = Some p /\ (a <= p)%Q)
                         (List.filter is_high (with_highs (Some (Qmaxb a q)) df))).
  { eapply List.Forall_impl; [|apply (IH _ _ eq_refl)].
    intros r (p & Hp & Hle). exists p. split; [exact Hp|].
    eapply Qle_trans; [apply Qmaxb_ge_l|exact Hle]. }
  destruct (Qeq_bool q (Qmaxb a q)) eqn:Hq; [|exact Htail].
  constructor; [|exact Htail].
  exists q. rewrite LTP_insert_high. unfold LTP. rewrite Hc. split; [reflexivity|].
  now apply Qeq_bool_maxb.
Qed.

Lemma high_points_nondecreasing (df : Frame) (acc : option Q) :
  StronglySorted price_le (List.filter is_high (with_highs acc df)).
Proof.
  revert acc. induction df as [|r0 df IH]; intros acc; [constructor|].
  rewrite with_highs_cons.
  destruct (r0 !!! "LTP") as [| |q| |] eqn:Hc; simpl;
    rewrite is_high_insert, Hc; simpl; try apply IH.
  set (m := match acc with Some a => Qmaxb a q | None => q end).
  destruct (Qeq_bool q m) eqn:Hq; [|apply IH].
  constructor; [apply IH|].
  eapply List.Forall_impl; [|apply (high_points_above df _ m eq_refl)].
  intros r (p & Hp & Hle). exists q, p.
  rewrite LTP_insert_high. unfold LTP. rewrite Hc. repeat split; auto.
  apply Qeq_bool_iff in Hq. now rewrite Hq.
Qed.

Lemma StronglySorted_filter {A} (R : A -> A -> Prop) (p : A -> bool) (l : list A) :
  StronglySorted R l -> StronglySorted R (List.filter p l).
Proof.
  induction 1 as [|x l Hs IH Hx]; simpl; [constructor|].
  destruct (p x); [|exact IH].
  constructor; [exact IH|].
  rewrite List.Forall_forall in *. intros y Hy.
  apply List.filter_In in Hy. now apply Hx.
Qed.

Lemma with_highs_chronological (df : Frame) (acc : option Q) :
  StronglySorted chronological df -> StronglySorted chronological (with_highs acc df).
Proof.
  intros Hs. revert acc. induction Hs as [|r df Hs IH Hr]; intros acc; [constructor|].
  rewrite with_highs_cons.
  assert (Hall : forall acc' h,
             Forall (chronological (<["High_LTP" := h]> r)) (with_highs acc' df)).
  { intros acc' h. rewrite List.Forall_forall in *. intros y Hy.
    assert (Hk : exists y0, In y0 df /\ date_key y0 = date_key y).
    { clear - Hy. revert acc' Hy. induction df as [|r0 df IH]; intros acc' Hy; [destruct Hy|].
      rewrite with_highs_cons in Hy.
      destruct (r0 !!! "LTP"); destruct Hy as [<-|Hy];
        try (exists r0; split; [now left|now rewrite date_key_insert_high]);
        destruct (IH _ Hy) as (y0 & Hin & Hk); exists y0; split; auto; now right. }
    destruct Hk as (y0 & Hin & Hk). specialize (Hr y0 Hin).
    unfold chronological in *. now rewrite date_key_insert_high, <- Hk. }
  destruct (r !!! "LTP"); constructor; auto.
Qed.

Lemma get_stock_highs_unfold (data : Frame) (symbol : string) :
  truthy symbol = true ->
  get_stock_highs data symbol =
  (List.filter is_high (with_highs None (sort_by_date (symbol_rows data symbol))),
   with_highs None (sort_by_date (symbol_rows data symbol))).
Proof.
  intros Hs. unfold get_stock_highs. rewrite Hs.
  fold (symbol_rows data symbol).
  destruct (symbol_rows data symbol) eqn:Hrows; reflexivity.
Qed.




(** C10.  When the symbol is not empty and the first row of its series sorted
    by date has a price, the high points are not empty and start with that
    row (with its own price as [High_LTP]); that row is a record of the symbol
    and no record of the symbol is dated before it. *)
Theorem get_stock_highs_first_is_high
    (data : Frame) (symbol : string) (r0 : Row) (rest : Frame) (p : Q) :
  truthy symbol = true ->
  sort_by_date (symbol_rows data symbol) = r0 :: rest ->
  LTP r0 = Some p ->
  (exists more, fst (get_stock_highs data symbol) = <["High_LTP" := Num p]> r0 :: more)
  /\ In r0 data
  /\ str_eq (r0 !!! "Symbol") symbol = true
  /\ (forall r, In r (symbol_rows data symbol) -> chronological r0 r).
Proof.
  intros Hs Hsorted Hp.
  assert (Hin : In r0 (symbol_rows data symbol)).
  { apply (Permutation_in _ (sort_by_date_perm _)). rewrite Hsorted. now left. }
  split.
  - rewrite (get_stock_highs_unfold _ _ Hs), Hsorted. simpl fst.
    rewrite with_highs_cons. unfold LTP in Hp.
    destruct (r0 !!! "LTP") as [| |q| |] eqn:Hc; try discriminate.
    injection Hp as ->. simpl.
    rewrite is_high_insert, Hc. simpl. rewrite Qeq_bool_refl. eauto.
  - apply List.filter_In in Hin as Hin'. destruct Hin' as [Hd Hsym].
    repeat split; auto.
    intros r Hr.
    pose proof (sort_by_date_sorted (symbol_rows data symbol)) as Hss.
    rewrite Hsorted in Hss. apply StronglySorted_inv in Hss as [_ Hall].
    apply (Permutation_in _ (Permutation_sym (sort_by_date_perm _))) in Hr.
    rewrite Hsorted in Hr. destruct Hr as [<-|Hr].
    + unfold chronological. destruct (asc_na_last_total (date_key r0) (date_key r0)); auto.
    + rewrite List.Forall_forall in Hall. now apply Hall.
Qed.

Lemma get_stock_highs_first_is_high_witness :
  exists more,
    fst (get_stock_highs trajectory_example "ABC")
    = <["High_LTP" := Num 100]> (quote "ABC" (midnight 2024 1 1) 100) :: more.
Proof.
  apply (get_stock_highs_first_is_high trajectory_example "ABC"
           (quote "ABC" (midnight 2024 1 1) 100)
           [quote "ABC" (midnight 2024 1 2) 90; quote "ABC" (midnight 2024 1 3) 105;
            quote "ABC" (midnight 2024 1 4) 105; quote "ABC" (midnight 2024 1 5) 95]
           100%Q eq_refl).
  - vm_compute. reflexivity.
  - reflexivity.
Defined.

(** When one record of the symbol is dated strictly before all the others, it
    is the first row of the sorted series, whatever order the sort gives to
    rows with equal dates. *)
Lemma earliest_is_first (data : Frame) (symbol : string) (r0 : Row) (t0 : Z) :
  In r0 (symbol_rows data symbol) ->
  date_key r0 = Some t0 ->
  (forall r, In r (symbol_rows data symbol) ->
             r = r0 \/ match date_key r with Some t => t0 < t | None => True end) ->
  exists rest, sort_by_date (symbol_rows data symbol) = r0 :: rest.
Proof.
  intros Hin Hk Hlater.
  destruct (sort_by_date (symbol_rows data symbol)) as [|h rest] eqn:Hsorted.
  - apply sort_by_nil_inv in Hsorted. rewrite Hsorted in Hin. destruct Hin.
  - exists rest. f_equal.
    assert (Hh : In h (symbol_rows data symbol)).
    { apply (Permutation_in _ (sort_by_date_perm _)). rewrite Hsorted. now left. }
    pose proof (sort_by_date_sorted (symbol_rows data symbol)) as Hss.
    rewrite Hsorted in Hss. apply StronglySorted_inv in Hss as [_ Hall].
    apply (Permutation_in _ (Permutation_sym (sort_by_date_perm _))) in Hin.
    rewrite Hsorted in Hin. destruct Hin as [->|Hin]; [reflexivity|].
    rewrite List.Forall_forall in Hall. specialize (Hall _ Hin).
    destruct (Hlater h Hh) as [->|Hlt]; [reflexivity|].
    unfold chronological in Hall. rewrite Hk in Hall.
    destruct (date_key h) as [t|]; simpl in Hall; [|discriminate].
    apply Z.leb_le in Hall. lia.
Qed.

(** ** Counting *)

Lemma unique_In (l : list string) (s : string) : In s (unique l) <-> In s l.
Proof.
  induction l as [|x l IH]; simpl; [reflexivity|].
  rewrite List.filter_In, IH. split.
  - intros [->|[H _]]; auto.
  - intros [->|H]; [now left|].
    destruct (String.eqb_spec s x) as [->|Hne]; [now left|right].
    split; [exact H|]. reflexivity.
Qed.

Lemma NoDup_filter' {A} (p : A -> bool) (l : list A) :
  List.NoDup l -> List.NoDup (List.filter p l).
Proof.
  induction 1 as [|x l Hx Hnd IH]; simpl; [constructor|].
  destruct (p x); [|exact IH].
  constructor; [|exact IH]. rewrite List.filter_In. tauto.
Qed.

Lemma unique_NoDup (l : list string) : List.NoDup (unique l).
Proof.
  induction l as [|x l IH]; simpl; constructor.
  - rewrite List.filter_In, String.eqb_refl. simpl. intros [_ H]. discriminate.
  - now apply NoDup_filter'.
Qed.

Lemma count_cons (s x : string) (l : list string) :
  count s (x :: l) = ((if String.eqb s x then 1 else 0) + count s l)%nat.
Proof. unfold count. simpl. destruct (String.eqb s x); reflexivity. Qed.

(** Over a duplicate-free list of keys that covers [l], the counts add up to
    the length of [l]. *)
Lemma counts_add_up (keys l : list string) :
  List.NoDup keys -> (forall s, In s l -> In s keys) ->
  foldr (fun s acc => (count s l + acc)%nat) 0%nat keys = length l.
Proof.
  intros Hnd. induction l as [|x l IH]; intros Hcover.
  - clear. induction keys as [|k keys IH]; simpl; [reflexivity|]. exact IH.
  - simpl length. rewrite <- IH by (intros s Hs; apply Hcover; now right).
    assert (Hx : In x keys) by (apply Hcover; now left).
    clear IH Hcover. induction Hnd as [|k keys Hk Hnd IH]; [destruct Hx|].
    simpl. rewrite count_cons.
    destruct (String.eqb_spec k x) as [->|Hne].
    + assert (Hrest : foldr (fun s acc => (count s (x :: l) + acc)%nat) 0%nat keys
                      = foldr (fun s acc => (count s l + acc)%nat) 0%nat keys).
      { clear - Hk. induction keys as [|k keys IH]; simpl; [reflexivity|].
        rewrite count_cons.
        destruct (String.eqb_spec k x) as [->|Hne]; [exfalso; apply Hk; now left|].
        rewrite IH; [reflexivity|]. intros H. apply Hk. now right. }
      rewrite Hrest. lia.
    + destruct Hx as [->|Hx]; [congruence|]. rewrite (IH Hx). lia.
Qed.

Lemma total_perm (a b : list (string * nat)) : Permutation a b -> total a = total b.
Proof.
  unfold total. induction 1; simpl; try lia.
Qed.

Lemma value_counts_perm (l : list cell) :
  Permutation (value_counts l) (map (fun s => (s, count s (strs l))) (unique (strs l))).
Proof. apply sort_by_perm. Qed.

Lemma value_counts_total (l : list cell) : total (value_counts l) = length (strs l).
Proof.
  rewrite (total_perm _ _ (value_counts_perm l)).
  rewrite <- (counts_add_up (unique (strs l)) (strs l)).
  - unfold total. induction (unique (strs l)) as [|k keys IH]; simpl; [reflexivity|].
    now rewrite IH.
  - apply unique_NoDup.
  - intros s. apply unique_In.
Qed.

Lemma value_counts_In (l : list cell) (s : string) (n : nat) :
  In (s, n) (value_counts l) <-> In s (strs l) /\ n = count s (strs l).
Proof.
  split.
  - intros H. apply (Permutation_in _ (value_counts_perm l)) in H.
    apply List.in_map_iff in H as (k & [= <- <-] & Hk).
    split; [now apply unique_In|reflexivity].
  - intros [Hs ->]. apply (Permutation_in _ (Permutation_sym (value_counts_perm l))).
    apply List.in_map_iff. exists s. split; [reflexivity|now apply unique_In].
Qed.

Lemma value_counts_keys_NoDup (l : list cell) : List.NoDup (map fst (value_counts l)).
Proof.
  apply (Permutation_NoDup (l := map fst (map (fun s => (s, count s (strs l))) (unique (strs l))))).
  - apply Permutation_map, Permutation_sym, value_counts_perm.
  - rewrite List.map_map. simpl. rewrite List.map_id. apply unique_NoDup.
Qed.

Lemma StronglySorted_weaken {A} (R S : A -> A -> Prop) (l : list A) :
  (forall a b, R a b -> S a b) -> StronglySorted R l -> StronglySorted S l.
Proof.
  intros HRS. induction 1 as [|x l Hs IH Hx]; constructor; [exact IH|].
  eapply List.Forall_impl; [|exact Hx]. intros b. apply HRS.
Qed.

Lemma value_counts_sorted (l : list cell) :
  StronglySorted (fun a b : string * nat => (snd b <= snd a)%nat) (value_counts l).
Proof.
  unfold value_counts.
  eapply StronglySorted_weaken;
    [|apply (sort_by_sorted (fun a b : string * nat => Nat.leb (snd b) (snd a)))].
  - intros a b H. now apply Nat.leb_le.
  - intros a b. destruct (Nat.leb_spec (snd b) (snd a)); [now left|right].
    apply Nat.leb_le. lia.
  - intros a b c. rewrite !Nat.leb_le. lia.
Qed.

(** ** Rounding *)

Lemma round_half_even_close (q : Q) :
  (inject_Z (round_half_even q) - q <= 1 # 2)%Q
  /\ (q - inject_Z (round_half_even q) <= 1 # 2)%Q.
Proof.
  destruct q as [n d]. unfold round_half_even. simpl Qnum. simpl Qden.
  pose proof (Z.div_mod n (Zpos d) ltac:(lia)) as Hdm.
  pose proof (Z.mod_pos_bound n (Zpos d) ltac:(lia)) as Hr.
  set (f := n / Zpos d) in *. set (r := n mod Zpos d) in *.
  assert (Hcases : forall R, (R = f /\ 2 * r <= Zpos d) \/ (R = f + 1 /\ Zpos d <= 2 * r) ->
            (inject_Z R - (n # d) <= 1 # 2)%Q /\ ((n # d) - inject_Z R <= 1 # 2)%Q).
  { intros R HR. unfold Qle, Qminus, Qplus, Qopp, inject_Z. simpl.
    destruct HR as [[-> H]|[-> H]]; split; nia. }
  apply Hcases.
  destruct (Z.compare_spec (2 * r) (Zpos d)) as [H|H|H].
  - destruct (Z.even f); [left|right]; lia.
  - left; lia.
  - right; lia.
Qed.

Lemma round2_close (q : Q) : (Qabs (round2 q - q) <= 1 # 200)%Q.
Proof.
  destruct (round_half_even_close (q * 100)) as [H1 H2].
  assert (E : (round2 q == inject_Z (round_half_even (q * 100)) / 100)%Q).
  { unfold round2. rewrite (Qmake_Qdiv _ 100). reflexivity. }
  apply Qabs_Qle_condition. rewrite E.
  set (R := inject_Z (round_half_even (q * 100))) in *.
  assert (ER : (R / 100 == R * (1 # 100))%Q) by (unfold Qdiv; reflexivity).
  rewrite ER. split; lra.
Qed.

(** ** Sector distribution *)

Lemma sum_percentages_close (T : nat) (counts : list (string * nat)) :
  (Qabs (sum_percentages (map (fun p => (fst p, snd p, percentage (snd p) T)) counts)
         - foldr (fun p acc => exact_percentage T p + acc) 0 counts)
   <= inject_Z (Z.of_nat (length counts)) * (1 # 200))%Q.
Proof.
  induction counts as [|p counts IH].
  - vm_compute. discriminate.
  - cbn [map foldr sum_percentages length snd].
    fold (sum_percentages (map (fun p => (fst p, snd p, percentage (snd p) T)) counts)).
    rewrite Nat2Z.inj_succ, <- Z.add_1_r, inject_Z_plus.
    pose proof (round2_close (exact_percentage T p)) as Hp.
    change (percentage (snd p) T) with (round2 (exact_percentage T p)).
    change (inject_Z 1) with 1%Q.
    apply Qabs_Qle_condition in Hp. apply Qabs_Qle_condition in IH.
    apply Qabs_Qle_condition.
    set (a := round2 (exact_percentage T p)) in *.
    set (b := exact_percentage T p) in *.
    set (c := sum_percentages _) in *.
    set (d := foldr _ _ _) in *.
    set (n := inject_Z _) in *.
    split; lra.
Qed.

Lemma exact_percentages_sum (T : nat) (counts : list (string * nat)) :
  (foldr (fun p acc => exact_percentage T p + acc) 0 counts
   == inject_Z (Z.of_nat (total counts)) / inject_Z (Z.of_nat T) * 100)%Q.
Proof.
  induction counts as [|p counts IH].
  - simpl. change (inject_Z 0) with 0%Q. unfold Qdiv. ring.
  - cbn [foldr total]. fold (total counts). rewrite IH. unfold exact_percentage.
    rewrite Nat2Z.inj_add, inject_Z_plus. unfold Qdiv. ring.
Qed.

Lemma sectorHistogram_sum (subset : Frame) :
  strs (col "Sector" subset) <> [] ->
  (Qabs (sum_percentages (sectorHistogram subset) - 100)
   <= inject_Z (Z.of_nat (length (sectorHistogram subset))) * (1 # 200))%Q.
Proof.
  intros Hne. unfold sectorHistogram.
  set (counts := sector_counts subset).
  pose proof (sum_percentages_close (total counts) counts) as H.
  rewrite exact_percentages_sum in H.
  assert (HT : (0 < total counts)%nat).
  { unfold counts, sector_counts. rewrite value_counts_total.
    destruct (strs (col "Sector" subset)); [congruence|simpl; lia]. }
  assert (E : (inject_Z (Z.of_nat (total counts)) / inject_Z (Z.of_nat (total counts)) * 100 == 100)%Q).
  { field. intros H0. unfold Qeq, inject_Z in H0. simpl in H0. lia. }
  rewrite E in H. now rewrite length_map.
Qed.

Lemma StronglySorted_map {A B} (R : A -> A -> Prop) (S : B -> B -> Prop) (f : A -> B)
    (l : list A) :
  (forall a b, R a b -> S (f a) (f b)) -> StronglySorted R l -> StronglySorted S (map f l).
Proof.
  intros HRS. induction 1 as [|x l Hs IH Hx]; simpl; constructor; [exact IH|].
  rewrite List.Forall_forall in *. intros y Hy.
  apply List.in_map_iff in Hy as (a & <- & Ha). now apply HRS, Hx.
Qed.



Example sectorHistogram_example :
  sectorHistogram
    [record_of [("Symbol", Str "A"); ("Sector", Str "Auto")];
     record_of [("Symbol", Str "B"); ("Sector", Str "Tech")];
     record_of [("Symbol", Str "C"); ("Sector", Str "Tech")]]
  = [("Tech"%string, 2%nat, 6667 # 100); ("Auto"%string, 1%nat, 3333 # 100)].
Proof. vm_compute. reflexivity. Qed.

(** ** Latest row per symbol *)

(** C3 is what the docstring promises, and the code misses it: [first()]
    builds the row of a symbol column by column from the first entries that
    are not missing.  Two records of one symbol on the same day, the one with
    the higher change lacking its ROE: the row returned has the price and the
    change of that record and the ROE of the other.  The same happens across
    days: the row dated 2024-01-05 carries the ROE recorded on 2024-01-01. *)
Example get_latest_stock_data_mixes_records :
  let day := Stamp (midnight 2024 1 5) in
  get_latest_stock_data
    [record_of [("Today's Date", day); ("Symbol", Str "ABC"); ("LTP", Num 110);
                ("%chng", Num 2); ("ROE", NaN)];
     record_of [("Today's Date", day); ("Symbol", Str "ABC"); ("LTP", Num 100);
                ("%chng", Num 1); ("ROE", Num 10)]]
  = [record_of [("Today's Date", day); ("Symbol", Str "ABC"); ("LTP", Num 110);
                ("%chng", Num 2); ("ROE", Num 10); ("count", Num 2)]]
  /\ get_latest_stock_data
       [record_of [("Today's Date", Stamp (midnight 2024 1 1)); ("Symbol", Str "ABC");
                   ("LTP", Num 100); ("%chng", Num 1); ("ROE", Num 10)];
        record_of [("Today's Date", day); ("Symbol", Str "ABC"); ("LTP", Num 110);
                   ("%chng", Num 1); ("ROE", NaN)]]
     = [record_of [("Today's Date", day); ("Symbol", Str "ABC"); ("LTP", Num 110);
                   ("%chng", Num 1); ("ROE", Num 10); ("count", Num 2)]].
Proof. cbv zeta. split; vm_compute; reflexivity. Qed.

(** With no field missing, the row of a symbol is its latest record. *)
Example get_latest_stock_data_complete_records :
  get_latest_stock_data
    [quote "XYZ" (midnight 2024 1 3) 7;
     quote "ABC" (midnight 2024 1 1) 100;
     quote "ABC" (midnight 2024 1 5) 110]
  = [<["count" := Num 2]> (quote "ABC" (midnight 2024 1 5) 110);
     <["count" := Num 1]> (quote "XYZ" (midnight 2024 1 3) 7)].
Proof. vm_compute. reflexivity. Qed.

(** ** Presentation formatters *)

Section FormatterFacts.
Variable py_float : string -> option pyfloat.

Lemma format_number_float (value : option Q) :
  format_number py_float (float_of value) = Returns (formatScaledCurrency value).
Proof.
  destruct value as [v|]; [|reflexivity].
  unfold format_number, float_of, formatScaledCurrency. simpl.
  destruct (Qle_bool 1e9 v); [reflexivity|].
  destruct (Qle_bool 1e7 v); [reflexivity|].
  destruct (Qle_bool 1e5 v); reflexivity.
Qed.

Lemma format_number_int (n : Z) :
  fits_float n = true ->
  format_number py_float (PInt n) = Returns (formatScaledCurrency (Some (inject_Z n))).
Proof.
  intros Hfit. unfold format_number, formatScaledCurrency. simpl. rewrite Hfit.
  destruct (Qle_bool 1e9 (inject_Z n)); [reflexivity|].
  destruct (Qle_bool 1e7 (inject_Z n)); [reflexivity|].
  destruct (Qle_bool 1e5 (inject_Z n)); reflexivity.
Qed.


Lemma py_format_float (comma : bool) (precision : Z) (f : pyfloat) :
  exists s, except_na (py_format comma precision (PFloat f)) = Returns s.
Proof.
  unfold py_format, spec_precision.
  destruct ((0 <=? precision) && (precision <=? 2147483647)); simpl; eauto.
Qed.

Lemma format_metric_value_float (f : pyfloat) (precision : Z) :
  exists s, format_metric_value py_float (PFloat f) precision = Returns s.
Proof.
  unfold format_metric_value.
  destruct (pd_isna (PFloat f)); [eauto|]. simpl. apply py_format_float.
Qed.

Lemma format_number_pyfloat (f : pyfloat) :
  exists s, format_number py_float (PFloat f) = Returns s.
Proof.
  destruct f as [|negative|q].
  - simpl. eauto.
  - destruct negative; simpl; eauto.
  - exists (formatScaledCurrency (Some q)). apply (format_number_float (Some q)).
Qed.

End FormatterFacts.



Example format_number_examples :
  format_number decimal_float (PStr "₹1,50,00,000") = Returns "₹1.50Cr"%string
  /\ format_number decimal_float (PStr "N/A") = Returns "N/A"%string
  /\ format_number decimal_float (PFloat (FFin 99999.5)) = Returns "₹99,999.50"%string
  /\ format_number decimal_float (PFloat (FFin (-1234567.891))) = Returns "₹-1,234,567.89"%string
  /\ format_metric_value decimal_float (PStr " 12.345 ") 1 = Returns "12.3"%string
  /\ format_metric_value decimal_float (PFloat (FFin 7)) (-1) = Returns "N/A"%string.
Proof. repeat split; vm_compute; reflexivity. Qed.

(** ** Record normalizer *)

Section NormalizerFacts.
Variable str_of_num : Q -> string.
Variable parse_number : string -> option Q.
Variable parse_datetime : string -> option Z.

Lemma to_datetime_all_ok (c : string) (df : Frame) :
  forallb (fun r : Row => parses parse_datetime (r !!! c)) df = true ->
  to_datetime_all parse_datetime (col c df)
  = Returns (map (fun r : Row => stamp_of parse_datetime (r !!! c)) df).
Proof.
  induction df as [|r df IH]; simpl; [reflexivity|].
  intros H. apply andb_prop in H as [Hr Hdf].
  unfold parses in Hr. unfold stamp_of at 1.
  destruct (to_datetime parse_datetime (r !!! c)); [|discriminate].
  simpl. rewrite (IH Hdf). reflexivity.
Qed.

Lemma to_datetime_raises (c : cell) (e : exn) :
  to_datetime parse_datetime c = Raises e -> e = ValueError.
Proof.
  destruct c; simpl; try discriminate.
  destruct (parse_datetime s); [discriminate|]. now intros [= <-].
Qed.

Lemma to_datetime_all_fails (c : string) (df : Frame) :
  forallb (fun r : Row => parses parse_datetime (r !!! c)) df = false ->
  to_datetime_all parse_datetime (col c df) = Raises ValueError.
Proof.
  induction df as [|r df IH]; simpl; [discriminate|].
  intros H. unfold parses in H.
  destruct (to_datetime parse_datetime (r !!! c)) eqn:Hr; simpl in *.
  - rewrite (IH H). reflexivity.
  - now rewrite (to_datetime_raises _ _ Hr).
Qed.

Lemma assign_map (c : string) (f : Row -> cell) (df : Frame) :
  assign c (map f df) df = map (fun r : Row => <[c := f r]> r) df.
Proof. induction df as [|r df IH]; simpl; [reflexivity|]. now rewrite IH. Qed.

Lemma clean_optional_fold (df0 : DataFrame) (cols : list string) :
  forall df, columns df = columns df0 ->
  foldl (clean_optional str_of_num parse_number) df cols
  = {| columns := columns df0;
       rows := map (fun r => foldl (clean_optional_row str_of_num parse_number df0) r cols)
                   (rows df) |}.
Proof.
  induction cols as [|c cols IH]; intros df Hc; simpl.
  - rewrite List.map_id. destruct df; simpl in *. now subst.
  - rewrite IH.
    + unfold clean_optional, clean_optional_row, has_column. rewrite Hc.
      destruct (existsb (String.eqb c) (columns df0)); simpl; [|reflexivity].
      now rewrite List.map_map.
    + unfold clean_optional, has_column. rewrite Hc.
      now destruct (existsb (String.eqb c) (columns df0)).
Qed.

Lemma getcol_present (c : string) (df : DataFrame) :
  has_column c df = true -> getcol c df = Returns (col c (rows df)).
Proof. intros H. unfold getcol. now rewrite H. Qed.

Lemma getcol_absent (c : string) (df : DataFrame) :
  has_column c df = false -> getcol c df = Raises KeyError.
Proof. intros H. unfold getcol. now rewrite H. Qed.

Lemma load_data_characterised (read_csv : outcome DataFrame) :
  load_data str_of_num parse_number parse_datetime read_csv
  = load_data_result str_of_num parse_number parse_datetime read_csv.
Proof.
  destruct read_csv as [df|e]; [|reflexivity].
  unfold load_data, load_data_result, normalize, accessed_columns.
  cbn [bind forallb].
  destruct (has_column "Today's Date" df) eqn:H1;
    [rewrite (getcol_present _ _ H1)|now rewrite (getcol_absent _ _ H1)].
  cbn [bind negb andb].
  destruct (forallb (fun r : Row => parses parse_datetime (r !!! "Today's Date")) (rows df))
    eqn:Hd; [|now rewrite (to_datetime_all_fails _ _ Hd)].
  rewrite (to_datetime_all_ok _ _ Hd). cbn [bind negb].
  rewrite (assign_map "Today's Date" (fun r : Row => stamp_of parse_datetime (r !!! "Today's Date"))).
  set (df1 := {| columns := columns df; rows := _ |}).
  assert (Hcols : forall c d, columns d = columns df -> has_column c d = has_column c df).
  { intros c d Hd'. unfold has_column. now rewrite Hd'. }
  destruct (has_column "%chng" df) eqn:H2.
  2: { rewrite getcol_absent; [reflexivity|]. now rewrite Hcols. }
  rewrite (getcol_present "%chng" df1) by now rewrite Hcols.
  cbn [bind andb].
  rewrite (clean_optional_fold df) by reflexivity.
  set (df2 := {| columns := columns df; rows := _ |}).
  destruct (has_column "Market Cap" df) eqn:H3.
  2: { rewrite getcol_absent; [reflexivity|]. now rewrite Hcols. }
  rewrite (getcol_present "Market Cap" df2) by now rewrite Hcols.
  cbn [bind andb].
  set (df3 := map_column "Market Cap" _ df2).
  destruct (has_column "Symbol" df) eqn:H4.
  2: { rewrite getcol_absent; [reflexivity|]. now rewrite Hcols. }
  rewrite (getcol_present "Symbol" df3) by now rewrite Hcols.
  cbn [bind andb].
  set (df4 := map_column "Symbol" _ df3).
  destruct (has_column "Series Type" df) eqn:H5.
  2: { rewrite getcol_absent; [reflexivity|]. now rewrite Hcols. }
  rewrite (getcol_present "Series Type" df4) by now rewrite Hcols.
  cbn [bind andb negb].
  unfold df4, df3, df2, df1, map_column, normalize_row. cbn [rows columns].
  rewrite !List.map_map. reflexivity.
Qed.
End NormalizerFacts.

Section NormalizedRowFacts.
Variable str_of_num : Q -> string.
Variable parse_number : string -> option Q.
Variable parse_datetime : string -> option Z.

Lemma update_eq (c : string) (f : cell -> cell) (r : Row) :
  update c f r !!! c = f (r !!! c).
Proof. unfold update. apply lookup_total_insert_eq. Qed.

Lemma update_ne (c c' : string) (f : cell -> cell) (r : Row) :
  c <> c' -> update c f r !!! c' = r !!! c'.
Proof. intros H. unfold update. now apply lookup_total_insert_ne. Qed.

Lemma to_numeric_number_or_missing (s : string) :
  is_number_or_missing (to_numeric parse_number s).
Proof. unfold to_numeric. destruct (parse_number s); [right; eauto|now left]. Qed.

Lemma clean_optional_row_other (df : DataFrame) (r : Row) (cols : list string) (c : string) :
  ~ In c cols ->
  foldl (clean_optional_row str_of_num parse_number df) r cols !!! c = r !!! c.
Proof.
  revert r. induction cols as [|c' cols IH]; intros r Hc; simpl; [reflexivity|].
  rewrite IH by (intros H; apply Hc; now right).
  unfold clean_optional_row. destruct (has_column c' df); [|reflexivity].
  apply update_ne. intros ->. apply Hc. now left.
Qed.

Lemma clean_optional_row_present (df : DataFrame) (r : Row) (cols : list string) (c : string) :
  List.NoDup cols -> In c cols -> has_column c df = true ->
  foldl (clean_optional_row str_of_num parse_number df) r cols !!! c
  = clean_numeric str_of_num parse_number (r !!! c).
Proof.
  intros Hnd. revert r. induction Hnd as [|c' cols Hc' Hnd IH]; intros r Hin Hcol; [destruct Hin|].
  simpl. destruct Hin as [->|Hin].
  - rewrite clean_optional_row_other by exact Hc'.
    unfold clean_optional_row. rewrite Hcol. apply update_eq.
  - rewrite (IH _ Hin Hcol). unfold clean_optional_row.
    destruct (has_column c' df); [|reflexivity].
    rewrite update_ne; [reflexivity|]. intros ->. contradiction.
Qed.

Lemma numeric_columns_NoDup : List.NoDup numeric_columns.
Proof. unfold numeric_columns. repeat constructor; simpl; intuition discriminate. Qed.

(** The fields of a normalised row, column by column. *)
Lemma normalize_row_fields (df : DataFrame) (r : Row) :
  let r' := normalize_row str_of_num parse_number parse_datetime df r in
  r' !!! "Today's Date" = stamp_of parse_datetime (r !!! "Today's Date")
  /\ r' !!! "%chng" = clean_percent str_of_num parse_number (r !!! "%chng")
  /\ r' !!! "Market Cap" = clean_market_cap str_of_num parse_number (r !!! "Market Cap")
  /\ r' !!! "Symbol" = clean_symbol str_of_num (r !!! "Symbol")
  /\ r' !!! "Series Type" = clean_series_type str_of_num (r !!! "Series Type")
  /\ (forall c, In c numeric_columns -> has_column c df = true ->
                r' !!! c = clean_numeric str_of_num parse_number (r !!! c))
  /\ r' !!! "LTP" = r !!! "LTP"
  /\ r' !!! "Sector" = r !!! "Sector"
  /\ r' !!! "Industry" = r !!! "Industry".
Proof.
  cbv zeta. unfold normalize_row.
  assert (Hout : forall c,
             c <> "Series Type"%string -> c <> "Symbol"%string -> c <> "Market Cap"%string ->
             update "Series Type" (clean_series_type str_of_num)
               (update "Symbol" (clean_symbol str_of_num)
                  (update "Market Cap" (clean_market_cap str_of_num parse_number)
                     (foldl (clean_optional_row str_of_num parse_number df)
                        (update "%chng" (clean_percent str_of_num parse_number)
                           (<["Today's Date" := stamp_of parse_datetime (r !!! "Today's Date")]> r))
                        numeric_columns))) !!! c
             = foldl (clean_optional_row str_of_num parse_number df)
                 (update "%chng" (clean_percent str_of_num parse_number)
                    (<["Today's Date" := stamp_of parse_datetime (r !!! "Today's Date")]> r))
                 numeric_columns !!! c).
  { intros c H1 H2 H3. rewrite !update_ne by congruence. reflexivity. }
  assert (Hnum : forall c, ~ In c numeric_columns ->
             foldl (clean_optional_row str_of_num parse_number df)
                 (update "%chng" (clean_percent str_of_num parse_number)
                    (<["Today's Date" := stamp_of parse_datetime (r !!! "Today's Date")]> r))
                 numeric_columns !!! c
             = update "%chng" (clean_percent str_of_num parse_number)
                    (<["Today's Date" := stamp_of parse_datetime (r !!! "Today's Date")]> r) !!! c).
  { intros c Hc. now apply clean_optional_row_other. }
  assert (Hnot : forall c, (forall c', In c' numeric_columns -> c' <> c) -> ~ In c numeric_columns).
  { intros c H Hin. exact (H c Hin eq_refl). }
  repeat split.
  - rewrite Hout, Hnum by (try discriminate; simpl; intuition discriminate).
    rewrite update_ne by discriminate. apply lookup_total_insert_eq.
  - rewrite Hout, Hnum by (try discriminate; simpl; intuition discriminate).
    rewrite update_eq. now rewrite lookup_total_insert_ne.
  - rewrite update_ne, update_ne, update_eq by discriminate.
    rewrite Hnum by (simpl; intuition discriminate).
    rewrite update_ne by discriminate. now rewrite lookup_total_insert_ne.
  - rewrite update_ne, update_eq by discriminate.
    rewrite update_ne by discriminate.
    rewrite Hnum by (simpl; intuition discriminate).
    rewrite update_ne by discriminate. now rewrite lookup_total_insert_ne.
  - rewrite update_eq. rewrite !update_ne by discriminate.
    rewrite Hnum by (simpl; intuition discriminate).
    rewrite update_ne by discriminate. now rewrite lookup_total_insert_ne.
  - intros c Hc Hcol.
    rewrite Hout by (simpl in Hc; intuition (subst; discriminate)).
    rewrite (clean_optional_row_present df _ _ c numeric_columns_NoDup Hc Hcol).
    rewrite update_ne by (simpl in Hc; intuition (subst; discriminate)).
    rewrite lookup_total_insert_ne by (simpl in Hc; intuition (subst; discriminate)).
    reflexivity.
  - rewrite Hout, Hnum by (try discriminate; simpl; intuition discriminate).
    rewrite update_ne by discriminate. now rewrite lookup_total_insert_ne.
  - rewrite Hout, Hnum by (try discriminate; simpl; intuition discriminate).
    rewrite update_ne by discriminate. now rewrite lookup_total_insert_ne.
  - rewrite Hout, Hnum by (try discriminate; simpl; intuition discriminate).
    rewrite update_ne by discriminate. now rewrite lookup_total_insert_ne.
Qed.
End NormalizedRowFacts.



Example load_data_example :
  load_data plain_repr parse_decimal parse_iso_date (Returns raw_example)
  = (None,
     {| columns := required_columns;
        rows :=
          [record_of [("Today's Date", Stamp (midnight 2024 1 5)); ("Symbol", Str "ABC");
                      ("LTP", Num 110); ("%chng", Num 1.5); ("Series Type", Str "N/A");
                      ("Market Cap", Num 1234.5); ("Sector", Str "Tech");
                      ("Industry", Str "Software")];
           record_of [("Today's Date", Stamp (midnight 2024 1 6)); ("Symbol", Str "XYZ");
                      ("LTP", Num 7); ("%chng", NaN); ("Series Type", Str "EQ");
                      ("Market Cap", NaN); ("Sector", NaN); ("Industry", NaN)]] |}).
Proof. vm_compute. reflexivity. Qed.

(** A table without the [LTP], [Sector] and [Industry] columns loads: the
    normalizer never reads them. *)
Example load_data_without_LTP :
  fst (load_data plain_repr parse_decimal parse_iso_date
         (Returns {| columns := accessed_columns;
                     rows := [record_of [("Today's Date", Str "2024-01-05");
                                         ("Symbol", Str "ABC"); ("%chng", Str "2%");
                                         ("Series Type", Str "EQ"); ("Market Cap", Str "5")]] |}))
  = None.
Proof. vm_compute. reflexivity. Qed.

(** ** Objects: what a view leaves untouched *)

Section Frame.
Context (n : nat).

Lemma preserves_ret {A} (a : A) (post : A -> Prop) : post a -> preserves n (ret a) post.
Proof. intros H st Hn. simpl. auto. Qed.

Lemma preserves_bind {A B} (m : M A) (k : A -> M B) (mid : A -> Prop) (post : B -> Prop) :
  preserves n m mid -> (forall a, mid a -> preserves n (k a) post) ->
  preserves n (bindM m k) post.
Proof.
  intros Hm Hk st Hn. unfold bindM.
  destruct (Hm st Hn) as (Ha & Hlen & Htake).
  destruct (m st) as [a st1]. simpl in *.
  destruct (Hk a Ha st1 Hlen) as (Hb & Hlen' & Htake').
  repeat split; auto. congruence.
Qed.

Lemma preserves_weaken {A} (m : M A) (pre post : A -> Prop) :
  (forall a, pre a -> post a) -> preserves n m pre -> preserves n m post.
Proof. intros H Hm st Hn. destruct (Hm st Hn) as (Ha & Hrest). auto. Qed.

Lemma preserves_new (f : Frame) : preserves n (new f) (fun l => (n <= l)%nat).
Proof.
  intros st Hn. simpl. rewrite length_app. simpl.
  repeat split; try lia. now apply take_app_le.
Qed.

Lemma preserves_read (l : nat) : preserves n (read l) (fun _ => True).
Proof. intros st Hn. simpl. auto. Qed.

Lemma preserves_modify (l : nat) (g : Frame -> Frame) :
  (n <= l)%nat -> preserves n (modify l g) (fun _ => True).
Proof.
  intros Hl st Hn. simpl. rewrite length_alter.
  repeat split; auto. now apply take_alter_ge.
Qed.

Lemma preserves_setitem (l : nat) (c : string) (values : Frame -> list cell) :
  (n <= l)%nat -> preserves n (setitem l c values) (fun _ => True).
Proof. apply preserves_modify. Qed.

Lemma preserves_derive (l : nat) (g : Frame -> Frame) :
  preserves n (derive l g) (fun l' => (n <= l')%nat).
Proof.
  unfold derive. eapply preserves_bind; [apply preserves_read|].
  intros f _. apply preserves_new.
Qed.

Lemma preserves_copy (l : nat) : preserves n (copy l) (fun l' => (n <= l')%nat).
Proof. apply preserves_derive. Qed.

Ltac frame_step :=
  first
    [ apply preserves_new
    | apply preserves_derive
    | apply preserves_copy
    | apply preserves_read
    | apply preserves_setitem; assumption
    | apply preserves_modify; assumption
    | apply preserves_ret ].

Ltac frame :=
  repeat first
    [ frame_step
    | eapply preserves_bind; [frame_step|cbv beta; intros ? ?] ].

Lemma preserves_get_stock_highs_st (data : nat) (symbol : string) :
  preserves n (get_stock_highs_st data symbol)
            (fun found => (n <= fst found)%nat /\ (n <= snd found)%nat).
Proof.
  unfold get_stock_highs_st.
  destruct (truthy symbol).
  - eapply preserves_bind; [frame_step|cbv beta; intros ? ?].
    eapply preserves_bind; [frame_step|cbv beta; intros ? ?].
    eapply preserves_bind; [frame_step|cbv beta; intros rows _].
    destruct (negb (empty rows)); frame; simpl; auto.
  - frame; simpl; auto.
Qed.

Lemma preserves_get_latest_stock_data_st (filtered_data : nat) :
  preserves n (get_latest_stock_data_st filtered_data) (fun l => (n <= l)%nat).
Proof. unfold get_latest_stock_data_st. frame. Qed.

Lemma preserves_refine_st (c selected : string) (l : nat) :
  (n <= l)%nat -> preserves n (refine_st c selected l) (fun l' => (n <= l')%nat).
Proof.
  intros Hl. unfold refine_st. destruct (String.eqb selected "All"); frame; auto.
Qed.

Lemma preserves_sector_table_st (filtered_data : nat) :
  preserves n (sector_table_st filtered_data) (fun _ => True).
Proof. unfold sector_table_st. frame; auto. Qed.

Lemma preserves_stock_table_st (filtered_data : nat) :
  preserves n (stock_table_st filtered_data) (fun _ => True).
Proof. unfold stock_table_st. frame; auto. Qed.

Lemma preserves_period_analysis (filtered_data : nat) (nothing : string) :
  preserves n (period_analysis filtered_data nothing) (fun _ => True).
Proof.
  unfold period_analysis.
  eapply preserves_bind; [frame_step|cbv beta; intros rows _].
  destruct (negb (empty rows)); [|frame; auto].
  eapply preserves_bind; [apply preserves_sector_table_st|cbv beta; intros ? _].
  eapply preserves_bind; [apply preserves_stock_table_st|cbv beta; intros ? _].
  frame; auto.
Qed.

Lemma preserves_specific_date_view (data : nat) (d : Z) (sectors series : string) :
  preserves n (specific_date_view data d sectors series) (fun _ => True).
Proof.
  unfold specific_date_view.
  eapply preserves_bind; [frame_step|cbv beta; intros l1 H1].
  eapply preserves_bind; [apply preserves_refine_st, H1|cbv beta; intros l2 H2].
  eapply preserves_bind; [apply preserves_refine_st, H2|cbv beta; intros l3 H3].
  eapply preserves_bind; [frame_step|cbv beta; intros rows _].
  destruct (negb (empty rows)); [|frame; auto].
  eapply preserves_bind; [apply preserves_get_latest_stock_data_st|cbv beta; intros ? _].
  frame; auto.
Qed.

Lemma preserves_date_range_view (data : nat) (s e : Z) (sectors series : string) :
  preserves n (date_range_view data s e sectors series) (fun _ => True).
Proof.
  unfold date_range_view.
  eapply preserves_bind; [frame_step|cbv beta; intros l1 H1].
  eapply preserves_bind; [apply preserves_refine_st, H1|cbv beta; intros l2 H2].
  eapply preserves_bind; [apply preserves_refine_st, H2|cbv beta; intros l3 H3].
  apply preserves_period_analysis.
Qed.

(** Past its first statement, the month view behaves like the others. *)
Lemma preserves_month_filters (data : nat) (m sectors series : string) :
  preserves n
    (let! filtered_data := derive data (fun d => filterByMonth d m) in
     let! filtered_data := refine_st "Sector" sectors filtered_data in
     let! filtered_data := refine_st "Series Type" series filtered_data in
     period_analysis filtered_data ("No data found for " ++ m))
    (fun _ => True).
Proof.
  eapply preserves_bind; [frame_step|cbv beta; intros l1 H1].
  eapply preserves_bind; [apply preserves_refine_st, H1|cbv beta; intros l2 H2].
  eapply preserves_bind; [apply preserves_refine_st, H2|cbv beta; intros l3 H3].
  apply preserves_period_analysis.
Qed.

Lemma preserves_search_view (py_float : string -> option pyfloat)
    (data : nat) (symbols : list string) :
  preserves n (search_view py_float data symbols) (fun _ => True).
Proof.
  induction symbols as [|symbol rest IH]; simpl; [frame; auto|].
  eapply preserves_bind; [apply preserves_get_stock_highs_st|cbv beta; intros found [Hh Hs]].
  eapply preserves_bind; [frame_step|cbv beta; intros stock_data _].
  eapply preserves_bind with (mid := fun _ => True).
  - destruct (negb (empty stock_data)); [|frame; auto].
    eapply preserves_bind; [frame_step|cbv beta; intros high_dates _].
    destruct (negb (empty high_dates)); frame; auto.
  - intros out _. eapply preserves_bind; [exact IH|cbv beta; intros more _].
    frame; auto.
Qed.
End Frame.

(** ** Objects: running a computation on a store [st ++ ext] *)

Lemma run_new (st ext : store) (f : Frame) :
  new f (st ++ ext) = ((length st + length ext)%nat, st ++ (ext ++ [f])).
Proof. unfold new. now rewrite length_app, <- app_assoc. Qed.

Lemma run_read_old (st ext : store) (l : nat) (f : Frame) :
  st !! l = Some f -> read l (st ++ ext) = (f, st ++ ext).
Proof.
  intros H. unfold read. rewrite lookup_app_l by (eapply lookup_lt_Some; eauto).
  now rewrite H.
Qed.

Lemma run_read_new (st ext : store) (k : nat) (f : Frame) :
  ext !! k = Some f -> read (length st + k) (st ++ ext) = (f, st ++ ext).
Proof.
  intros H. unfold read. rewrite lookup_app_r by lia.
  replace (length st + k - length st)%nat with k by lia. now rewrite H.
Qed.

Lemma run_modify_new (st ext : store) (k : nat) (g : Frame -> Frame) :
  modify (length st + k) g (st ++ ext) = (tt, st ++ alter g k ext).
Proof. unfold modify. now rewrite alter_app_r. Qed.

Lemma run_derive_old (st ext : store) (l : nat) (f : Frame) (g : Frame -> Frame) :
  st !! l = Some f ->
  derive l g (st ++ ext) = ((length st + length ext)%nat, st ++ (ext ++ [g f])).
Proof.
  intros H. unfold derive, bindM. rewrite (run_read_old _ _ _ _ H). apply run_new.
Qed.

Lemma run_derive_new (st ext : store) (k : nat) (f : Frame) (g : Frame -> Frame) :
  ext !! k = Some f ->
  derive (length st + k) g (st ++ ext) = ((length st + length ext)%nat, st ++ (ext ++ [g f])).
Proof.
  intros H. unfold derive, bindM. rewrite (run_read_new _ _ _ _ H). apply run_new.
Qed.

Lemma get_stock_highs_st_run (st : store) (data : nat) (f : Frame) (symbol : string) :
  st !! data = Some f ->
  exists ext high_dates stock_data,
    get_stock_highs_st data symbol st
    = (((length st + high_dates)%nat, (length st + stock_data)%nat), st ++ ext)
    /\ ext !! high_dates = Some (fst (get_stock_highs f symbol))
    /\ ext !! stock_data = Some (snd (get_stock_highs f symbol)).
Proof.
  intros Hdata.
  replace (get_stock_highs_st data symbol st)
    with (get_stock_highs_st data symbol (st ++ [])) by now rewrite app_nil_r.
  unfold get_stock_highs_st, get_stock_highs.
  destruct (truthy symbol).
  - unfold bindM at 1. rewrite (run_derive_old _ _ _ _ _ Hdata). cbn [length app Nat.add].
    unfold bindM at 1, copy. erewrite (run_derive_new st) by reflexivity. cbn [length app].
    unfold bindM at 1. erewrite (run_read_new st) by reflexivity.
    set (rows := List.filter _ f).
    destruct rows as [|r rows'] eqn:Hrows; cbn [empty negb].
    + unfold bindM. rewrite run_new. cbn [length app]. rewrite run_new. cbn [length app].
      unfold ret. exists [[]; []; []; []], 2%nat, 3%nat. repeat split.
    + unfold bindM at 1. erewrite (run_derive_new st) by reflexivity. cbn [length app].
      unfold bindM at 1, setitem. rewrite (run_modify_new st). cbn [alter list_alter].
      unfold bindM at 1. erewrite (run_derive_new st) by reflexivity. cbn [length app].
      unfold bindM at 1. erewrite (run_derive_new st) by reflexivity. cbn [length app].
      unfold ret. eexists _, 4%nat, 2%nat. repeat split.
  - unfold bindM. rewrite run_new. cbn [length app]. rewrite run_new. cbn [length app].
    unfold ret. exists [[]; []], 0%nat, 1%nat. rewrite !Nat.add_0_r. repeat split.
Qed.

Lemma get_latest_stock_data_st_run (st : store) (filtered_data : nat) (f : Frame) :
  st !! filtered_data = Some f ->
  exists ext latest,
    get_latest_stock_data_st filtered_data st = ((length st + latest)%nat, st ++ ext)
    /\ ext !! latest = Some (get_latest_stock_data f).
Proof.
  intros Hf.
  replace (get_latest_stock_data_st filtered_data st)
    with (get_latest_stock_data_st filtered_data (st ++ [])) by now rewrite app_nil_r.
  unfold get_latest_stock_data_st, get_latest_stock_data.
  unfold bindM at 1. rewrite (run_read_old _ _ _ _ Hf).
  unfold bindM at 1. rewrite (run_derive_old _ _ _ _ _ Hf). cbn [length app Nat.add].
  unfold bindM at 1. erewrite (run_derive_new st) by reflexivity. cbn [length app].
  unfold bindM at 1, setitem. rewrite (run_modify_new st). cbn [alter list_alter].
  erewrite (run_derive_new st) by reflexivity. cbn [length app].
  eexists _, 2%nat. repeat split.
Qed.

Lemma column_sum_counts (counts : list (string * nat)) :
  column_sum (map (fun p => of_nat (snd p)) counts) = inject_Z (Z.of_nat (total counts)).
Proof.
  induction counts as [|p counts IH]; [reflexivity|].
  cbn [map column_sum foldr total of_nat]. fold (total counts).
  change (foldr _ 0%Q (map _ counts)) with (column_sum (map (fun p => of_nat (snd p)) counts)).
  rewrite IH. unfold Qplus, inject_Z. simpl. f_equal. lia.
Qed.

Lemma assign_maps {A} (c : string) (f : A -> cell) (g : A -> Row) (l : list A) :
  assign c (map f l) (map g l) = map (fun x => <[c := f x]> (g x)) l.
Proof. induction l as [|x l IH]; simpl; [reflexivity|]. now rewrite IH. Qed.

Lemma renamed_counted (p : string * nat) :
  renamed (counted p) = <["Count" := of_nat (snd p)]> (<["Sector" := Str (fst p)]> ∅).
Proof.
  unfold renamed, counted. rewrite lookup_total_insert_eq.
  rewrite lookup_total_insert_ne by discriminate. now rewrite lookup_total_insert_eq.
Qed.

Lemma sector_table_st_run (st : store) (filtered_data : nat) (f : Frame) :
  st !! filtered_data = Some f ->
  exists ext table,
    sector_table_st filtered_data st = ((length st + table)%nat, st ++ ext)
    /\ ext !! table = Some (sector_table f).
Proof.
  intros Hf.
  replace (sector_table_st filtered_data st)
    with (sector_table_st filtered_data (st ++ [])) by now rewrite app_nil_r.
  unfold sector_table_st.
  unfold bindM at 1. rewrite (run_read_old _ _ _ _ Hf).
  unfold bindM at 1. rewrite run_new. cbn [length app Nat.add].
  unfold bindM at 1. rewrite (run_modify_new st). cbn [alter list_alter].
  unfold bindM at 1, setitem. rewrite (run_modify_new st). cbn [alter list_alter].
  unfold ret. eexists _, 0%nat. split; [reflexivity|]. cbn [lookup list_lookup]. f_equal.
  unfold sector_table, sectorHistogram. set (counts := sector_counts f).
  rewrite !List.map_map.
  assert (Hcol : col "Count" (map (fun p => renamed (counted p)) counts)
                 = map (fun p => of_nat (snd p)) counts).
  { unfold col. rewrite List.map_map. apply List.map_ext. intros p.
    rewrite renamed_counted. apply lookup_total_insert_eq. }
  rewrite Hcol. unfold percentages. rewrite column_sum_counts, List.map_map.
  rewrite (assign_maps "Percentage"). apply List.map_ext. intros p.
  now rewrite renamed_counted.
Qed.

Lemma refine_st_empty (st ext : store) (c selected : string) (k : nat) :
  ext !! k = Some [] ->
  exists ext' k',
    refine_st c selected (length st + k) (st ++ ext) = ((length st + k')%nat, st ++ ext')
    /\ ext' !! k' = Some [].
Proof.
  intros Hk. unfold refine_st. destruct (String.eqb selected "All").
  - exists ext, k. split; [reflexivity|exact Hk].
  - erewrite (run_derive_new st) by exact Hk.
    exists (ext ++ [[]]), (length ext). split; [reflexivity|].
    simpl. now rewrite list_lookup_middle.
Qed.

(** C1, amended.  With the start after the end, the date-range selection
    raises nothing and matches nothing: it returns the empty subset, and the
    view shows the same "No data found between ..." warning as for any
    range without rows. *)
Theorem filterByDateRange_inverted_empty (data : Frame) (start_date end_date : Z) :
  end_date < start_date ->
  filterByDateRange data start_date end_date = Returns []
  /\ (forall (st : store) (loc : nat) (sectors series : string),
         st !! loc = Some data ->
         fst (date_range_view loc start_date end_date sectors series st)
         = [Warning ("No data found between " ++ isoformat start_date
                       ++ " and " ++ isoformat end_date)]).
Proof.
  intros Hinv.
  assert (Hnone : List.filter (date_range_mask start_date end_date) data = []).
  { apply filter_none. intros r. now apply date_range_mask_inverted. }
  split.
  - unfold filterByDateRange. now rewrite Hnone.
  - intros st loc sectors series Hloc.
    replace (date_range_view loc start_date end_date sectors series st)
      with (date_range_view loc start_date end_date sectors series (st ++ []))
      by now rewrite app_nil_r.
    unfold date_range_view.
    unfold bindM at 1. rewrite (run_derive_old _ _ _ _ _ Hloc), Hnone. cbn [length app].
    destruct (refine_st_empty st [[]] "Sector" sectors 0 eq_refl) as (ext1 & k1 & E1 & H1).
    unfold bindM at 1. rewrite E1.
    destruct (refine_st_empty st ext1 "Series Type" series k1 H1) as (ext2 & k2 & E2 & H2).
    unfold bindM at 1. rewrite E2.
    unfold period_analysis, bindM. rewrite (run_read_new st _ _ _ H2). reflexivity.
Qed.

Lemma filterByDateRange_inverted_empty_witness :
  filterByDateRange [quote "ABC" (midnight 2024 1 3) 105]
                    (days_from_civil 2024 1 5) (days_from_civil 2024 1 1)
  = Returns [].
Proof.
  apply (filterByDateRange_inverted_empty
           [quote "ABC" (midnight 2024 1 3) 105]
           (days_from_civil 2024 1 5) (days_from_civil 2024 1 1)).
  reflexivity.
Defined.

Lemma month_column_agrees (f : Frame) :
  map (delete "Month") (month_column f) = map (delete "Month") f.
Proof.
  unfold month_column, col. rewrite List.map_map.
  rewrite (assign_map "Month" (fun r : Row => month_label (r !!! "Today's Date"))).
  rewrite List.map_map. apply List.map_ext. intros r. apply delete_insert_eq.
Qed.

Lemma lookup_of_take (n : nat) (st st' : store) (l : nat) :
  take n st' = take n st -> (l < n)%nat -> st' !! l = st !! l.
Proof.
  intros Ht Hl. rewrite <- (lookup_take_lt st' n l Hl), <- (lookup_take_lt st n l Hl).
  now rewrite Ht.
Qed.

Lemma render_others_preserved (py_float : string -> option pyfloat)
    (st : store) (data : nat) (v : view) :
  match v with Month _ _ _ => False | _ => True end ->
  take (length st) (snd (render py_float data v st)) = st.
Proof.
  intros Hv.
  assert (H : preserves (length st) (render py_float data v) (fun _ => True)).
  { destruct v as [d s1 s2|s e s1 s2|m s1 s2|symbols]; simpl.
    - apply preserves_specific_date_view.
    - apply preserves_date_range_view.
    - destruct Hv.
    - destruct symbols; [now apply preserves_ret|apply preserves_search_view]. }
  destruct (H st (le_n _)) as (_ & _ & Ht). now rewrite Ht, firstn_all.
Qed.

Lemma render_month_preserved (py_float : string -> option pyfloat)
    (st : store) (data : nat) (m s1 s2 : string) :
  take (length st) (snd (render py_float data (Month m s1 s2) st))
  = alter month_column data st.
Proof.
  change (snd (render py_float data (Month m s1 s2) st))
    with (snd ((let! filtered_data := derive data (fun d => filterByMonth d m) in
                let! filtered_data := refine_st "Sector" s1 filtered_data in
                let! filtered_data := refine_st "Series Type" s2 filtered_data in
                period_analysis filtered_data ("No data found for " ++ m))
                 (alter month_column data st))).
  destruct (preserves_month_filters (length st) data m s1 s2 (alter month_column data st))
    as (_ & _ & Ht).
  - now rewrite length_alter.
  - rewrite Ht.
    rewrite <- (length_alter month_column st data) at 1. apply firstn_all.
Qed.

(** C9, as stated, fails: the month view assigns a [Month] column to the
    dataset itself, so the dataset after the view is not the one before. *)
Lemma month_view_changes_dataset :
  let data := [quote "ABC" (midnight 2024 1 3) 105] in
  snd (render decimal_float 0 (Month "January 2024" "All" "All") [data]) !! 0%nat
  = Some [<["Month" := Str "January 2024"]> (quote "ABC" (midnight 2024 1 3) 105)]
  /\ quote "ABC" (midnight 2024 1 3) 105 !! "Month" = None.
Proof. cbv zeta. split; vm_compute; reflexivity. Qed.

(** C9, amended.  Every view leaves every object of the store other than the
    dataset as it was.  The specific-date, date-range and search views leave
    the dataset as it was too; the month view adds the column [Month] to it
    and changes no other column, no row and no order.  [get_stock_highs] and
    [get_latest_stock_data] return fresh objects, holding the values of the
    pure functions, and change no object that existed. *)
Theorem render_frame (py_float : string -> option pyfloat)
    (st : store) (data : nat) (f : Frame) (v : view) :
  st !! data = Some f ->
  let st' := snd (render py_float data v st) in
  (forall l, (l < length st)%nat -> l <> data -> st' !! l = st !! l)
  /\ match v with
     | Month _ _ _ =>
         st' !! data = Some (month_column f)
         /\ map (delete "Month") (month_column f) = map (delete "Month") f
     | _ => st' !! data = Some f
     end
  /\ (forall symbol,
         let run := get_stock_highs_st data symbol st in
         take (length st) (snd run) = st
         /\ (length st <= fst (fst run))%nat /\ snd run !! fst (fst run) = Some (fst (get_stock_highs f symbol))
         /\ (length st <= snd (fst run))%nat /\ snd run !! snd (fst run) = Some (snd (get_stock_highs f symbol)))
  /\ (let run := get_latest_stock_data_st data st in
      take (length st) (snd run) = st
      /\ (length st <= fst run)%nat /\ snd run !! fst run = Some (get_latest_stock_data f)).
Proof.
  intros Hdata. cbv zeta.
  assert (Hlt : (data < length st)%nat) by (eapply lookup_lt_Some; eauto).
  split; [|split; [|split]].
  - intros l Hl Hne. destruct v as [d s1 s2|s e s1 s2|m s1 s2|symbols].
    1,2,4: eapply lookup_of_take; [|exact Hl];
      rewrite render_others_preserved by exact I; now rewrite firstn_all.
    rewrite (lookup_of_take (length st) (alter month_column data st)).
    + now apply list_lookup_alter_ne.
    + rewrite render_month_preserved, <- (length_alter month_column st data) at 1.
      now rewrite firstn_all.
    + exact Hl.
  - destruct v as [d s1 s2|s e s1 s2|m s1 s2|symbols].
    1,2,4: rewrite <- Hdata; eapply lookup_of_take; [|exact Hlt];
      rewrite render_others_preserved by exact I; now rewrite firstn_all.
    split; [|apply month_column_agrees].
    rewrite (lookup_of_take (length st) (alter month_column data st)).
    + now rewrite list_lookup_alter_eq, Hdata.
    + rewrite render_month_preserved, <- (length_alter month_column st data) at 1.
      now rewrite firstn_all.
    + exact Hlt.
  - intros symbol.
    destruct (get_stock_highs_st_run st data f symbol Hdata) as (ext & h & s & E & Hh & Hs).
    rewrite E. cbn [fst snd].
    split; [apply take_app_length|].
    split; [lia|]. split; [|split; [lia|]].
    + rewrite lookup_app_r by lia. now replace (length st + h - length st)%nat with h by lia.
    + rewrite lookup_app_r by lia. now replace (length st + s - length st)%nat with s by lia.
  - destruct (get_latest_stock_data_st_run st data f Hdata) as (ext & k & E & Hk).
    rewrite E. cbn [fst snd].
    split; [apply take_app_length|]. split; [lia|].
    rewrite lookup_app_r by lia. now replace (length st + k - length st)%nat with k by lia.
Qed.

Lemma render_frame_witness :
  snd (render decimal_float 0 (SearchStock ["ABC"%string]) [trajectory_example]) !! 0%nat
  = Some trajectory_example.
Proof.
  apply (render_frame decimal_float [trajectory_example] 0 trajectory_example
           (SearchStock ["ABC"%string]) eq_refl).
Defined.

(** ** Latest row per symbol: what holds *)

Lemma first_cons (r : Row) (g : Frame) : first (r :: g) = union_with first_valid r (first g).
Proof. reflexivity. Qed.

Lemma lookup_total_first_valid (r m : Row) (c : string) :
  union_with first_valid r m !!! c
  = if isna (r !!! c)
    then match m !! c with Some b => b | None => r !!! c end
    else r !!! c.
Proof.
  rewrite !lookup_total_alt, lookup_union_with.
  destruct (r !! c) as [a|], (m !! c) as [b|]; simpl; try reflexivity;
    unfold first_valid; now destruct (isna a).
Qed.

Lemma first_lookup (c : string) (g : Frame) :
  match first_entry c g with
  | Some v => first g !!! c = v
  | None => isna (first g !!! c) = true
  end.
Proof.
  unfold first_entry. induction g as [|r g IH].
  - simpl. now rewrite lookup_total_empty.
  - rewrite first_cons, lookup_total_first_valid. cbn [List.find].
    destruct (isna (r !!! c)) eqn:Ha; cbn [negb option_map]; [|reflexivity].
    destruct (first g !! c) as [b|] eqn:Hg.
    + now rewrite (lookup_total_correct _ _ _ Hg) in IH.
    + destruct (List.find _ g) as [r0|] eqn:Hf; cbn [option_map] in *; [|exact Ha].
      apply List.find_some in Hf as [_ Hf]. rewrite <- IH in Hf.
      rewrite lookup_total_alt, Hg in Hf. discriminate.
Qed.

Lemma str_eq_iff (c : cell) (s : string) : str_eq c s = true <-> c = Str s.
Proof.
  destruct c; simpl; split; try discriminate.
  - intros H. apply String.eqb_eq in H. now subst.
  - intros [= ->]. apply String.eqb_refl.
Qed.

Lemma strs_In (l : list cell) (s : string) : In s (strs l) <-> In (Str s) l.
Proof.
  unfold strs. induction l as [|c l IH]; simpl; [reflexivity|].
  destruct c; simpl; rewrite IH; split; intros H;
    try (now right); try (destruct H as [H|H]; [discriminate|exact H]).
  - destruct H as [->|H]; auto.
  - destruct H as [[= ->]|H]; auto.
Qed.

Lemma strs_perm (l1 l2 : list cell) : Permutation l1 l2 -> Permutation (strs l1) (strs l2).
Proof.
  unfold strs. induction 1 as [|c l1 l2 H IH|c1 c2 l|l1 l2 l3 H1 IH1 H2 IH2]; simpl.
  - constructor.
  - destruct (as_str c); [now constructor|exact IH].
  - destruct (as_str c1), (as_str c2); try reflexivity. apply perm_swap.
  - now transitivity (omap as_str l2).
Qed.

Lemma group_symbol (c key : string) (df : Frame) :
  In key (strs (col c df)) ->
  first (group c key df) !!! c = Str key.
Proof.
  intros Hkey. apply strs_In in Hkey. unfold col in Hkey.
  apply List.in_map_iff in Hkey as (r & Hr & Hin).
  pose proof (first_lookup c (group c key df)) as H. unfold first_entry in H.
  destruct (List.find _ (group c key df)) as [r0|] eqn:Hf; cbn [option_map] in H.
  - rewrite H. apply List.find_some in Hf as [Hr0 _].
    apply List.filter_In in Hr0 as [_ Hr0]. now apply str_eq_iff.
  - assert (Hr' : In r (group c key df)).
    { apply List.filter_In. split; [exact Hin|]. now apply str_eq_iff. }
    pose proof (List.find_none _ _ Hf r Hr') as Hn. cbv beta in Hn.
    rewrite Hr in Hn. discriminate.
Qed.

Lemma unique_perm (l1 l2 : list string) :
  Permutation l1 l2 -> Permutation (unique l1) (unique l2).
Proof.
  intros H. apply Permutation.NoDup_Permutation; try apply unique_NoDup.
  intros s. rewrite !unique_In. split; apply Permutation_in; [exact H|now symmetry].
Qed.

Lemma stock_counts_lookup (l : list cell) (key : string) :
  In key (strs l) ->
  (list_to_map (value_counts l) : gmap string nat) !! key = Some (count key (strs l)).
Proof.
  intros Hkey. apply elem_of_list_to_map.
  - assert (E : (value_counts l).*1 = map fst (value_counts l)) by reflexivity.
    rewrite E. apply NoDup_ListNoDup, value_counts_keys_NoDup.
  - apply list_elem_of_In, value_counts_In. now split.
Qed.

Lemma desc_count_total (a b : option Q) :
  desc_na_last Qle_bool a b = true \/ desc_na_last Qle_bool b a = true.
Proof.
  destruct a as [x|], b as [y|]; simpl; auto.
  destruct (Qlt_le_dec x y) as [H|H]; [right|left]; apply Qle_bool_iff; auto.
  now apply Qlt_le_weak.
Qed.

Lemma desc_count_trans (a b c : option Q) :
  desc_na_last Qle_bool a b = true -> desc_na_last Qle_bool b c = true ->
  desc_na_last Qle_bool a c = true.
Proof.
  destruct a as [x|], b as [y|], c as [z|]; simpl; try congruence.
  rewrite !Qle_bool_iff. intros H1 H2. now apply Qle_trans with y.
Qed.

Lemma desc_date_total (a b : option Z) :
  desc_na_last Z.leb a b = true \/ desc_na_last Z.leb b a = true.
Proof.
  destruct a as [x|], b as [y|]; simpl; auto.
  destruct (Z.leb_spec y x); [auto|right]. apply Z.leb_le. lia.
Qed.

Lemma desc_date_trans (a b c : option Z) :
  desc_na_last Z.leb a b = true -> desc_na_last Z.leb b c = true ->
  desc_na_last Z.leb a c = true.
Proof.
  destruct a as [x|], b as [y|], c as [z|]; simpl; try congruence.
  rewrite !Z.leb_le. lia.
Qed.

Section Lexicographic.
Context {A : Type} (le1 le2 : A -> A -> bool).
Hypothesis total1 : forall x y, le1 x y = true \/ le1 y x = true.
Hypothesis trans1 : forall x y z, le1 x y = true -> le1 y z = true -> le1 x z = true.
Hypothesis total2 : forall x y, le2 x y = true \/ le2 y x = true.
Hypothesis trans2 : forall x y z, le2 x y = true -> le2 y z = true -> le2 x z = true.

Lemma lex_total (x y : A) : lex le1 le2 x y = true \/ lex le1 le2 y x = true.
Proof.
  unfold lex. destruct (le1 x y) eqn:Hxy, (le1 y x) eqn:Hyx; simpl; auto.
Qed.

Lemma lex_trans (x y z : A) :
  lex le1 le2 x y = true -> lex le1 le2 y z = true -> lex le1 le2 x z = true.
Proof.
  unfold lex.
  destruct (le1 x y) eqn:Hxy, (le1 y x) eqn:Hyx, (le1 y z) eqn:Hyz, (le1 z y) eqn:Hzy,
           (le1 x z) eqn:Hxz, (le1 z x) eqn:Hzx; simpl; try congruence; auto;
    intros H1 H2;
    first
      [ rewrite (trans1 x y z Hxy Hyz) in Hxz; discriminate
      | rewrite (trans1 z x y Hzx Hxy) in Hzy; discriminate
      | rewrite (trans1 y z x Hyz Hzx) in Hyx; discriminate
      | rewrite (trans1 z y x Hzy Hyx) in Hzx; discriminate
      | destruct (total1 x y); congruence
      | destruct (total1 y z); congruence
      | destruct (total1 x z); congruence
      | exact (trans2 x y z H1 H2) ].
Qed.
End Lexicographic.

Lemma latest_first_sorted (df : Frame) :
  StronglySorted (fun r1 r2 => latest_first r1 r2 = true) (sort_by latest_first df).
Proof.
  apply sort_by_sorted; unfold latest_first.
  - apply lex_total; intros x y; first [apply desc_date_total|apply desc_count_total].
  - apply lex_trans; intros *;
      first [apply desc_date_total|apply desc_date_trans|apply desc_count_trans].
Qed.

Lemma col_perm (c : string) (df1 df2 : Frame) :
  Permutation df1 df2 -> Permutation (col c df1) (col c df2).
Proof. apply Permutation_map. Qed.

Lemma counted_symbol (d : gmap string nat) (c : string) (g : Row) :
  c <> "count"%string ->
  (<["count" := map_dict d (g !!! "Symbol")]> g : Row) !!! c = g !!! c.
Proof. intros H. now rewrite lookup_total_insert_ne. Qed.

(** What [get_latest_stock_data] does deliver: exactly one row per distinct
    symbol; in each row the number of records of the symbol as [count]; the
    rows by descending count; and each other column of the row of a symbol is
    the first entry that is not missing among the records of that symbol,
    scanned from the latest date down and, within a date, from the highest
    change down (missing where all entries are).  So the row agrees with the
    latest record of the symbol on every field that record has. *)
Theorem get_latest_stock_data_rows (filtered_data : Frame) :
  let symbols := strs (col "Symbol" filtered_data) in
  let sorted := sort_by latest_first filtered_data in
  let latest := get_latest_stock_data filtered_data in
  Permutation (col "Symbol" latest) (map Str (unique symbols))
  /\ StronglySorted by_occurrences latest
  /\ StronglySorted (fun r1 r2 => latest_first r1 r2 = true) sorted
  /\ (forall r, In r latest ->
        exists key,
          In key symbols
          /\ r !!! "Symbol" = Str key
          /\ r !!! "count" = of_nat (count key symbols)
          /\ forall c, c <> "count"%string ->
               match first_entry c (group "Symbol" key sorted) with
               | Some v => r !!! c = v
               | None => isna (r !!! c) = true
               end)
  /\ (forall r key r0 rest c,
        In r latest -> r !!! "Symbol" = Str key ->
        group "Symbol" key sorted = r0 :: rest ->
        c <> "count"%string -> isna (r0 !!! c) = false ->
        r !!! c = r0 !!! c /\ forall r', In r' rest -> latest_first r0 r' = true).
Proof.
  cbv zeta. unfold get_latest_stock_data.
  set (sorted := sort_by latest_first filtered_data).
  set (d := list_to_map (value_counts (col "Symbol" filtered_data)) : gmap string nat).
  set (G := groupby_first "Symbol" sorted).
  assert (Hsym : Permutation (strs (col "Symbol" sorted)) (strs (col "Symbol" filtered_data))).
  { apply strs_perm, col_perm, sort_by_perm. }
  assert (Hkeys : forall key, In key (group_keys "Symbol" sorted) <->
                              In key (strs (col "Symbol" filtered_data))).
  { intros key. unfold group_keys. split; intros H.
    - apply (Permutation_in _ (sort_by_perm _ _)) in H.
      apply (proj1 (unique_In _ _)) in H.
      exact (Permutation_in _ Hsym H).
    - apply (Permutation_in _ (Permutation_sym (sort_by_perm _ _))).
      apply (proj2 (unique_In _ _)).
      exact (Permutation_in _ (Permutation_sym Hsym) H). }
  assert (HG : forall key, In key (group_keys "Symbol" sorted) ->
                           first (group "Symbol" key sorted) !!! "Symbol" = Str key).
  { intros key Hk. apply group_symbol.
    exact (Permutation_in _ (Permutation_sym Hsym) (proj1 (Hkeys key) Hk)). }
  assert (Hassign : assign "count" (map (map_dict d) (col "Symbol" G)) G
                    = map (fun g : Row => <["count" := map_dict d (g !!! "Symbol")]> g) G).
  { unfold col. rewrite List.map_map.
    apply (assign_map "count" (fun g : Row => map_dict d (g !!! "Symbol"))). }
  rewrite Hassign.
  set (C := map (fun g : Row => <["count" := map_dict d (g !!! "Symbol")]> g) G).
  set (by_count := fun r1 r2 : Row => desc_na_last Qle_bool (count_key r1) (count_key r2)).
  assert (HC : col "Symbol" C = map Str (group_keys "Symbol" sorted)).
  { unfold C, G, groupby_first, col. rewrite !List.map_map.
    apply List.map_ext_in. intros key Hk.
    rewrite counted_symbol by discriminate. now apply HG. }
  assert (Hrows : forall r, In r (sort_by by_count C) ->
        exists key,
          In key (strs (col "Symbol" filtered_data))
          /\ r !!! "Symbol" = Str key
          /\ r !!! "count" = of_nat (count key (strs (col "Symbol" filtered_data)))
          /\ forall c, c <> "count"%string ->
               match first_entry c (group "Symbol" key sorted) with
               | Some v => r !!! c = v
               | None => isna (r !!! c) = true
               end).
  { intros r Hr. apply (Permutation_in _ (sort_by_perm by_count C)) in Hr.
    unfold C, G, groupby_first in Hr. rewrite List.map_map in Hr.
    apply List.in_map_iff in Hr as (key & <- & Hk).
    exists key. pose proof (proj1 (Hkeys key) Hk) as Hin.
    split; [exact Hin|].
    split; [rewrite counted_symbol by discriminate; now apply HG|].
    split.
    + rewrite lookup_total_insert_eq, (HG key Hk). unfold map_dict, d.
      now rewrite (stock_counts_lookup _ _ Hin).
    + intros c Hc. rewrite counted_symbol by exact Hc. apply first_lookup. }
  split; [|split; [|split; [|split]]].
  - rewrite (col_perm "Symbol" _ C (sort_by_perm by_count C)), HC.
    apply Permutation_map. unfold group_keys. rewrite sort_by_perm.
    now apply unique_perm.
  - apply (sort_by_sorted by_count).
    + intros x y. apply desc_count_total.
    + intros x y z. apply desc_count_trans.
  - apply latest_first_sorted.
  - exact Hrows.
  - intros r key r0 rest c Hr Hsymr Hg Hc Hna. split.
    + destruct (Hrows r Hr) as (key' & _ & Hsym' & _ & Hfields).
      assert (key' = key) by congruence. subst key'.
      specialize (Hfields c Hc). unfold first_entry in Hfields. rewrite Hg in Hfields.
      cbn [List.find] in Hfields. rewrite Hna in Hfields. exact Hfields.
    + pose proof (StronglySorted_filter _ (fun r : Row => str_eq (r !!! "Symbol") key) _
                    (latest_first_sorted filtered_data)) as Hs.
      fold (group "Symbol" key (sort_by latest_first filtered_data)) in Hs.
      fold sorted in Hs. rewrite Hg in Hs. apply StronglySorted_inv in Hs as [_ Hall].
      now apply List.Forall_forall.
Qed.

(** * Further properties *)

(** ** The rows [load_data] returns *)

Lemma loaded_rows (str_of_num : Q -> string) (parse_number : string -> option Q)
    (parse_datetime : string -> option Z) (read_csv : outcome DataFrame) (r : Row) :
  In r (rows (snd (load_data str_of_num parse_number parse_datetime read_csv))) ->
  exists df r0,
    read_csv = Returns df /\ In r0 (rows df)
    /\ r = normalize_row str_of_num parse_number parse_datetime df r0.
Proof.
  rewrite load_data_characterised. unfold load_data_result.
  destruct read_csv as [df|e]; [|intros []].
  destruct (negb (has_column "Today's Date" df)); [intros []|].
  destruct (negb (forallb _ (rows df))); [intros []|].
  destruct (negb (forallb _ accessed_columns)); [intros []|].
  cbn [snd rows]. intros H. apply List.in_map_iff in H as (r0 & <- & Hr0).
  now exists df, r0.
Qed.

(** ** The frequency table *)

Lemma stock_table_st_run (st : store) (filtered_data : nat) (f : Frame) :
  st !! filtered_data = Some f ->
  exists ext table,
    stock_table_st filtered_data st = ((length st + table)%nat, st ++ ext)
    /\ ext !! table = Some (stock_table f).
Proof.
  intros Hf.
  replace (stock_table_st filtered_data st)
    with (stock_table_st filtered_data (st ++ [])) by now rewrite app_nil_r.
  unfold stock_table_st, stock_table.
  unfold bindM at 1. rewrite (run_derive_old _ _ _ _ _ Hf). cbn [length app Nat.add].
  unfold bindM at 1.
  rewrite (run_derive_old _ _ _ _ _ Hf). cbn [length app Nat.add].
  unfold bindM at 1. erewrite (run_read_new st) by reflexivity.
  unfold bindM at 1. erewrite (run_read_new st) by reflexivity.
  unfold bindM at 1. rewrite run_new. cbn [length app Nat.add].
  unfold bindM at 1. erewrite (run_derive_new st) by reflexivity. cbn [length app].
  unfold bindM at 1, setitem. rewrite (run_modify_new st). cbn [alter list_alter].
  unfold ret. eexists _, 3%nat. split; reflexivity.
Qed.

Lemma filter_key_absent {A} (sym : A -> cell) (R : string -> A) (key : string)
    (keys : list string) :
  (forall k, sym (R k) = Str k) ->
  ~ In key keys ->
  List.filter (fun r => match Str key, sym r with
                        | Str a, Str b => String.eqb a b
                        | _, _ => false
                        end) (map R keys) = [].
Proof.
  intros HR Hk. induction keys as [|k keys IH]; [reflexivity|].
  cbn [map List.filter]. rewrite HR.
  destruct (String.eqb key k) eqn:E.
  - apply String.eqb_eq in E. subst k. exfalso. apply Hk. now left.
  - apply IH. intros H. apply Hk. now right.
Qed.

Lemma filter_key_map {A} (sym : A -> cell) (R : string -> A) (key : string)
    (keys : list string) :
  (forall k, sym (R k) = Str k) ->
  List.NoDup keys -> In key keys ->
  List.filter (fun r => match Str key, sym r with
                        | Str a, Str b => String.eqb a b
                        | _, _ => false
                        end) (map R keys) = [R key].
Proof.
  intros HR Hnd Hin. induction keys as [|k keys IH]; [destruct Hin|].
  inversion Hnd as [|? ? Hk Hnd']; subst. cbn [map List.filter]. rewrite HR.
  destruct (String.eqb key k) eqn:E.
  - apply String.eqb_eq in E. subst k. f_equal. now apply filter_key_absent.
  - apply IH; [exact Hnd'|]. destruct Hin as [->|Hin]; [|exact Hin].
    rewrite String.eqb_refl in E. discriminate.
Qed.

Lemma merge_on_keys (c : string) (L R : string -> Row) (keys : list string) :
  (forall k, L k !!! c = Str k) -> (forall k, R k !!! c = Str k) ->
  List.NoDup keys ->
  merge_on c (map L keys) (map R keys) = map (fun k => L k ∪ R k) keys.
Proof.
  intros HL HR Hnd. unfold merge_on. rewrite List.map_map.
  assert (H : forall ks, (forall k, In k ks -> In k keys) ->
    concat (map (fun k => map (fun r : Row => L k ∪ r)
                   (List.filter (fun r : Row => match L k !!! c, r !!! c with
                                                | Str a, Str b => String.eqb a b
                                                | _, _ => false
                                                end) (map R keys))) ks)
    = map (fun k => L k ∪ R k) ks).
  { induction ks as [|k ks IH]; intros Hsub; [reflexivity|].
    cbn [map concat]. rewrite IH by (intros; apply Hsub; now right).
    rewrite HL.
    rewrite (filter_key_map (fun r : Row => r !!! c) R k keys HR Hnd) by (apply Hsub; now left).
    reflexivity. }
  apply H. auto.
Qed.

Lemma group_keys_NoDup (c : string) (df : Frame) : List.NoDup (group_keys c df).
Proof.
  unfold group_keys.
  apply (Permutation_NoDup (Permutation_sym (sort_by_perm String.leb _))), unique_NoDup.
Qed.

Lemma group_keys_In (c key : string) (df : Frame) :
  In key (group_keys c df) <-> In key (strs (col c df)).
Proof.
  unfold group_keys. split; intros H.
  - apply unique_In. exact (Permutation_in _ (sort_by_perm _ _) H).
  - apply (Permutation_in _ (Permutation_sym (sort_by_perm _ _))). now apply unique_In.
Qed.

Lemma group_keys_perm (c : string) (df : Frame) :
  Permutation (group_keys c df) (unique (strs (col c df))).
Proof. apply sort_by_perm. Qed.

Lemma count_group (c key : string) (df : Frame) :
  count key (strs (col c df)) = length (group c key df).
Proof.
  unfold count, strs, col, group. induction df as [|r df IH]; [reflexivity|].
  cbn [map List.filter]. unfold str_eq at 1.
  destruct (r !!! c) as [| |q|s|ns]; cbn [omap list_omap as_str]; try exact IH.
  cbn [List.filter]. rewrite (String.eqb_sym s key).
  destruct (String.eqb key s); cbn [length]; now rewrite IH.
Qed.

Lemma distinct_length (l : list Z) : (length (distinct l) <= length l)%nat.
Proof.
  induction l as [|x l IH]; [reflexivity|]. cbn [distinct length].
  apply le_n_S. etransitivity; [apply List.filter_length_le|exact IH].
Qed.

Lemma omap_length {A B} (f : A -> option B) (l : list A) :
  (length (omap f l) <= length l)%nat.
Proof.
  induction l as [|x l IH]; [reflexivity|].
  change (omap f (x :: l)) with (match f x with Some y => y :: omap f l | None => omap f l end).
  destruct (f x); cbn [length]; lia.
Qed.

Lemma nunique_le (l : list cell) : (nunique l <= length l)%nat.
Proof.
  unfold nunique. pose proof (distinct_length (omap as_stamp l)).
  pose proof (omap_length as_stamp l). lia.
Qed.

Lemma nunique_pos (l : list cell) (ns : Z) : In (Stamp ns) l -> (1 <= nunique l)%nat.
Proof.
  intros H. unfold nunique.
  assert (Hin : In ns (omap as_stamp l)).
  { induction l as [|c l IH]; [destruct H|].
    change (omap as_stamp (c :: l))
      with (match as_stamp c with Some y => y :: omap as_stamp l | None => omap as_stamp l end).
    destruct H as [->|H]; [now left|].
    destruct (as_stamp c); [right|]; now apply IH. }
  destruct (omap as_stamp l) as [|x xs]; [destruct Hin|]. cbn [distinct length]. lia.
Qed.

(** X2.  The frequency table of the month and date-range views has exactly
    one row per distinct symbol of the selection, its [Symbol] turned into the
    link to the symbol's page; [Occurrences] is the number of distinct dates
    among the records of the symbol, at most the number of those records and
    at least one when one of them is dated; the rows are by descending
    [Occurrences]; [Series Type] and [Sector] are the first entries that are
    not missing among the records of the symbol, in the order of the
    selection. *)
Theorem stock_table_rows (filtered_data : Frame) :
  let symbols := strs (col "Symbol" filtered_data) in
  let table := stock_table filtered_data in
  Permutation (col "Symbol" table) (map (fun key => screener_link (Str key)) (unique symbols))
  /\ StronglySorted occurrences_desc table
  /\ (forall r, In r table ->
        exists key,
          In key symbols
          /\ r !!! "Symbol" = screener_link (Str key)
          /\ r !!! "Occurrences" = of_nat (dates_of key filtered_data)
          /\ (dates_of key filtered_data <= count key symbols)%nat
          /\ (forall r' ns, In r' filtered_data -> r' !!! "Symbol" = Str key ->
                r' !!! "Today's Date" = Stamp ns -> (1 <= dates_of key filtered_data)%nat)
          /\ forall c, c = "Series Type"%string \/ c = "Sector"%string ->
               match first_entry c (group "Symbol" key filtered_data) with
               | Some v => r !!! c = v
               | None => isna (r !!! c) = true
               end).
Proof.
  cbv zeta. unfold stock_table.
  set (keys := group_keys "Symbol" filtered_data).
  set (L := fun key : string =>
              (<["Occurrences" := of_nat (dates_of key filtered_data)]>
                 (<["Symbol" := Str key]> ∅) : Row)).
  set (R := fun key : string =>
              let g : Row := first (group "Symbol" key filtered_data) in
              (<["Sector" := g !!! "Sector"]>
                 (<["Series Type" := g !!! "Series Type"]> (<["Symbol" := Str key]> ∅)) : Row)).
  assert (Hmerge : merge_on "Symbol" (stock_occurrences filtered_data) (stock_info filtered_data)
                   = map (fun k => L k ∪ R k) keys).
  { unfold stock_occurrences, stock_info. fold keys.
    apply (merge_on_keys "Symbol" L R keys).
    - intros k. unfold L. rewrite lookup_total_insert_ne by discriminate.
      apply lookup_total_insert_eq.
    - intros k. unfold R. cbv zeta. rewrite !lookup_total_insert_ne by discriminate.
      apply lookup_total_insert_eq.
    - apply group_keys_NoDup. }
  rewrite Hmerge.
  set (by_occ := fun r1 r2 : Row => desc_na_last Qle_bool (occurrences_key r1) (occurrences_key r2)).
  set (T := sort_by by_occ (map (fun k => L k ∪ R k) keys)).
  assert (Hassign : assign "Symbol" (map screener_link (col "Symbol" T)) T
                    = map (fun r : Row => <["Symbol" := screener_link (r !!! "Symbol")]> r) T).
  { unfold col. rewrite List.map_map.
    apply (assign_map "Symbol" (fun r : Row => screener_link (r !!! "Symbol"))). }
  rewrite Hassign.
  assert (HT : Permutation T (map (fun k => L k ∪ R k) keys)) by apply sort_by_perm.
  assert (Hsym : forall k, (L k ∪ R k) !!! "Symbol" = Str k).
  { intros k. rewrite !lookup_total_alt, lookup_union. unfold L.
    rewrite lookup_insert_ne by discriminate. now rewrite lookup_insert_eq. }
  assert (Hocc : forall k, (L k ∪ R k) !!! "Occurrences" = of_nat (dates_of k filtered_data)).
  { intros k. rewrite !lookup_total_alt, lookup_union. unfold L.
    now rewrite lookup_insert_eq. }
  assert (Hinfo : forall k c, c = "Series Type"%string \/ c = "Sector"%string ->
             (L k ∪ R k) !!! c = first (group "Symbol" k filtered_data) !!! c).
  { intros k c Hc. rewrite (lookup_total_alt (L k ∪ R k)), lookup_union. unfold L, R. cbv zeta.
    destruct Hc as [-> | ->].
    - rewrite !lookup_insert_ne by discriminate. rewrite lookup_empty.
      now rewrite lookup_insert_eq.
    - rewrite !lookup_insert_ne by discriminate. rewrite lookup_empty.
      now rewrite lookup_insert_eq. }
  split; [|split].
  - unfold col. rewrite List.map_map.
    rewrite (List.map_ext _ (fun r : Row => screener_link (r !!! "Symbol")))
      by (intros r; apply lookup_total_insert_eq).
    etransitivity; [apply Permutation_map, HT|]. rewrite List.map_map.
    rewrite (List.map_ext _ (fun k => screener_link (Str k))) by (intros k; now rewrite Hsym).
    apply Permutation_map, group_keys_perm.
  - eapply (StronglySorted_map (fun r1 r2 : Row => by_occ r1 r2 = true)).
    + intros a b H. unfold occurrences_desc, occurrences_key.
      rewrite !lookup_total_insert_ne by discriminate. exact H.
    + apply (sort_by_sorted by_occ).
      * intros x y. apply desc_count_total.
      * intros x y z. apply desc_count_trans.
  - intros r Hr. apply List.in_map_iff in Hr as (r0 & <- & Hr0).
    apply (Permutation_in _ HT) in Hr0. apply List.in_map_iff in Hr0 as (key & <- & Hk).
    exists key. apply group_keys_In in Hk.
    split; [exact Hk|].
    split; [now rewrite lookup_total_insert_eq, Hsym|].
    split; [rewrite lookup_total_insert_ne by discriminate; apply Hocc|].
    split.
    { rewrite count_group. unfold dates_of.
      pose proof (nunique_le (col "Today's Date" (group "Symbol" key filtered_data))) as H.
      unfold col in H at 2. now rewrite length_map in H. }
    split.
    { intros r' ns Hin Hs Hd. unfold dates_of. apply (nunique_pos _ ns).
      unfold col. apply List.in_map_iff. exists r'. split; [exact Hd|].
      apply List.filter_In. split; [exact Hin|]. now apply str_eq_iff. }
    intros c Hc.
    assert (c <> "Symbol"%string) by (destruct Hc as [-> | ->]; discriminate).
    rewrite lookup_total_insert_ne by congruence. rewrite (Hinfo key c Hc).
    apply first_lookup.
Qed.

(** ** Strings in order *)

Lemma string_compare_refl (a : string) : String.compare a a = Eq.
Proof.
  induction a as [|c a IH]; [reflexivity|]. cbn [String.compare].
  unfold Ascii.compare. now rewrite N.compare_refl.
Qed.

Lemma string_compare_lt_trans (a b c : string) :
  String.compare a b = Lt -> String.compare b c = Lt -> String.compare a c = Lt.
Proof.
  revert b c. induction a as [|x a IH]; intros [|y b] [|z c]; cbn [String.compare];
    try discriminate; try reflexivity.
  unfold Ascii.compare.
  destruct (N.compare_spec (N_of_ascii x) (N_of_ascii y)) as [Exy|Lxy|Gxy]; try discriminate;
    destruct (N.compare_spec (N_of_ascii y) (N_of_ascii z)) as [Eyz|Lyz|Gyz]; try discriminate;
    intros H1 H2.
  - rewrite Exy, Eyz, N.compare_refl. now apply (IH b c).
  - rewrite Exy. now rewrite (proj2 (N.compare_lt_iff _ _) Lyz).
  - rewrite <- Eyz. now rewrite (proj2 (N.compare_lt_iff _ _) Lxy).
  - now rewrite (proj2 (N.compare_lt_iff _ _) (N.lt_trans _ _ _ Lxy Lyz)).
Qed.

Lemma string_leb_trans (a b c : string) :
  String.leb a b = true -> String.leb b c = true -> String.leb a c = true.
Proof.
  unfold String.leb.
  destruct (String.compare a b) eqn:Hab; try discriminate;
    destruct (String.compare b c) eqn:Hbc; try discriminate; intros _ _.
  - apply String.compare_eq_iff in Hab, Hbc. subst. now rewrite string_compare_refl.
  - apply String.compare_eq_iff in Hab. subst. now rewrite Hbc.
  - apply String.compare_eq_iff in Hbc. subst. now rewrite Hab.
  - now rewrite (string_compare_lt_trans a b c Hab Hbc).
Qed.

Lemma string_leb_ltb (a b : string) : String.leb a b = true -> a <> b -> String.ltb a b = true.
Proof.
  unfold String.leb, String.ltb. destruct (String.compare a b) eqn:H; try discriminate; auto.
  apply String.compare_eq_iff in H. congruence.
Qed.

Lemma string_ltb_leb (a b : string) : String.ltb a b = true -> String.leb a b = true.
Proof. unfold String.leb, String.ltb. now destruct (String.compare a b). Qed.

Lemma string_ltb_irrefl (a : string) : String.ltb a a = false.
Proof. unfold String.ltb. now rewrite string_compare_refl. Qed.

Lemma sorted_strings (l : list string) :
  List.NoDup l -> StronglySorted string_lt (sort_by String.leb l).
Proof.
  intros Hnd.
  assert (Hs : StronglySorted (fun a b => String.leb a b = true) (sort_by String.leb l)).
  { apply sort_by_sorted; [apply String.leb_total|apply string_leb_trans]. }
  assert (Hnd' : List.NoDup (sort_by String.leb l)).
  { apply (Permutation_NoDup (Permutation_sym (sort_by_perm String.leb l)) Hnd). }
  induction Hs as [|a s Hs IH Hall]; [constructor|].
  inversion Hnd' as [|? ? Ha Hnds]; subst. constructor; [now apply IH|].
  apply List.Forall_forall. intros b Hb.
  apply string_leb_ltb; [exact (proj1 (List.Forall_forall _ _) Hall b Hb)|].
  intros ->. contradiction.
Qed.

(** ** Text columns *)

Lemma same_text_eq (a b : option string) : same_text a b = true <-> a = b.
Proof.
  destruct a as [x|], b as [y|]; cbn [same_text]; split; try discriminate; try reflexivity.
  - intros H. apply String.eqb_eq in H. now subst.
  - intros [= ->]. apply String.eqb_refl.
Qed.

Lemma unique_text_In (l : list (option string)) (x : option string) :
  In x (unique_text l) <-> In x l.
Proof.
  induction l as [|y l IH]; [reflexivity|]. cbn [unique_text In].
  rewrite List.filter_In, IH. split.
  - intros [H|[H _]]; auto.
  - intros [H|H]; [now left|].
    destruct (same_text x y) eqn:E.
    + left. symmetry. now apply same_text_eq.
    + right. split; [exact H|]. reflexivity.
Qed.

Lemma unique_text_NoDup (l : list (option string)) : List.NoDup (unique_text l).
Proof.
  induction l as [|y l IH]; [constructor|]. cbn [unique_text]. constructor.
  - rewrite List.filter_In. intros [_ H]. cbv beta in H.
    rewrite (proj2 (same_text_eq y y) eq_refl) in H. discriminate.
  - now apply List.NoDup_filter.
Qed.

Lemma unique_text_strings (l : list string) :
  unique_text (map Some l) = map Some (unique l).
Proof.
  induction l as [|x l IH]; [reflexivity|]. cbn [map unique_text unique]. rewrite IH. f_equal.
  generalize (unique l). intros u. induction u as [|y u IHu]; [reflexivity|].
  cbn [map List.filter same_text]. destruct (String.eqb y x); cbn [negb map]; now rewrite IHu.
Qed.

Lemma texts_strings (l : list cell) :
  (forall c, In c l -> exists s, c = Str s) -> texts l = map Some (strs l).
Proof.
  unfold texts, strs. induction l as [|c l IH]; intros H; [reflexivity|].
  destruct (H c (or_introl eq_refl)) as [s ->].
  change (omap as_str (Str s :: l)) with (s :: omap as_str l).
  cbn [map as_str]. rewrite IH; [reflexivity|]. intros c Hc. apply H. now right.
Qed.

(** ** Symbol search *)

Lemma lower_upper_ascii (c : ascii) : lower_ascii (upper_ascii c) = lower_ascii c.
Proof. destruct c as [[] [] [] [] [] [] [] []]; reflexivity. Qed.

Lemma lower_lower_ascii (c : ascii) : lower_ascii (lower_ascii c) = lower_ascii c.
Proof. destruct c as [[] [] [] [] [] [] [] []]; reflexivity. Qed.

Lemma lower_upper (s : string) : lower (upper s) = lower s.
Proof.
  induction s as [|c s IH]; [reflexivity|]. cbn [upper lower].
  now rewrite lower_upper_ascii, IH.
Qed.

Lemma lower_lower (s : string) : lower (lower s) = lower s.
Proof.
  induction s as [|c s IH]; [reflexivity|]. cbn [lower].
  now rewrite lower_lower_ascii, IH.
Qed.

Lemma filtered_symbols_strings (l : list string) (search_text : string) :
  filtered_symbols (map Some l) search_text
  = Attr (List.filter (fun s => String.prefix (lower search_text) (lower s)) l).
Proof.
  induction l as [|x l IH]; [reflexivity|]. cbn [map filtered_symbols List.filter].
  rewrite IH. now destruct (String.prefix _ _).
Qed.

Lemma filtered_symbols_missing (l : list (option string)) (search_text : string) :
  In None l -> filtered_symbols l search_text = AttributeError.
Proof.
  induction l as [|x l IH]; intros H; [destruct H|]. cbn [filtered_symbols].
  destruct x as [x|]; [|reflexivity].
  destruct H as [H|H]; [discriminate|]. now rewrite (IH H).
Qed.

Lemma filtered_symbols_case (l : list (option string)) (t t' : string) :
  lower t = lower t' -> filtered_symbols l t = filtered_symbols l t'.
Proof.
  intros H. induction l as [|x l IH]; [reflexivity|]. cbn [filtered_symbols].
  now rewrite IH, H.
Qed.

Lemma get_stock_symbols_strings (data : Frame) (search_text : string) :
  truthy search_text = true ->
  (forall c, In c (col "Symbol" data) -> exists s, c = Str s) ->
  exists found,
    get_stock_symbols data search_text = Attr found
    /\ StronglySorted string_lt found
    /\ forall s, In s found <->
                 In (Str s) (col "Symbol" data)
                 /\ String.prefix (lower search_text) (lower s) = true.
Proof.
  intros Ht Hall. unfold get_stock_symbols. rewrite Ht. cbn [negb].
  rewrite (texts_strings _ Hall), unique_text_strings, filtered_symbols_strings.
  eexists. split; [reflexivity|]. split.
  - apply sorted_strings, List.NoDup_filter, unique_NoDup.
  - intros s. split.
    + intros H. apply (Permutation_in _ (sort_by_perm String.leb _)) in H.
      apply List.filter_In in H as [H Hp]. split; [|exact Hp].
      apply strs_In. now apply unique_In.
    + intros [H Hp]. apply (Permutation_in _ (Permutation_sym (sort_by_perm String.leb _))).
      apply List.filter_In. split; [|exact Hp]. apply unique_In. now apply strs_In.
Qed.


(** ** The choice lists of the sidebar *)

Lemma string_ltb_antisym (a b : string) : negb (String.ltb b a) = String.leb a b.
Proof.
  unfold String.ltb, String.leb. rewrite (String.compare_antisym a b).
  now destruct (String.compare b a).
Qed.

Lemma insert_sorted_strings (x : string) (l : list string) :
  insert_sorted (Some x) (map Some l) = Returns (map Some (insert_by String.leb x l)).
Proof.
  induction l as [|y l IH]; [reflexivity|].
  cbn [map insert_sorted text_lt bind insert_by].
  rewrite <- string_ltb_antisym. destruct (String.ltb y x); cbn [negb]; [|reflexivity].
  now rewrite IH.
Qed.

Lemma sorted_strings_text (l : list string) :
  sorted (map Some l) = Returns (map Some (sort_by String.leb l)).
Proof.
  induction l as [|x l IH]; [reflexivity|]. cbn [map sorted]. rewrite IH. cbn [bind].
  apply insert_sorted_strings.
Qed.

Lemma sorted_missing (n : nat) :
  sorted (repeat (None : option string) n) = Returns (repeat None n).
Proof.
  induction n as [|n IH]; [reflexivity|]. cbn [repeat sorted]. rewrite IH. cbn [bind].
  destruct n; reflexivity.
Qed.

Lemma all_strings (l : list (option string)) :
  (forall e, In e l -> e <> None) -> exists ss, l = map Some ss.
Proof.
  induction l as [|e l IH]; intros H; [now exists []|].
  destruct IH as [ss ->]; [intros; apply H; now right|].
  destruct e as [s|]; [now exists (s :: ss)|].
  exfalso. now apply (H None (or_introl eq_refl)).
Qed.

Lemma all_missing (l : list (option string)) :
  (forall e, In e l -> e = None) -> l = repeat None (length l).
Proof.
  induction l as [|e l IH]; intros H; [reflexivity|]. cbn [length repeat].
  rewrite (H e (or_introl eq_refl)). f_equal. apply IH. intros; apply H; now right.
Qed.

Lemma has_string_dec (l : list (option string)) :
  (exists s, In (Some s) l) \/ (forall e, In e l -> e = None).
Proof.
  induction l as [|e l [[s H]|H]].
  - right. intros e [].
  - left. exists s. now right.
  - destruct e as [s|].
    + left. exists s. now left.
    + right. intros e [<-|He]; auto.
Qed.

Lemma has_missing_dec (l : list (option string)) :
  In None l \/ (forall e, In e l -> e <> None).
Proof.
  induction l as [|e l [H|H]].
  - right. intros e [].
  - left. now right.
  - destruct e as [s|].
    + right. intros e [<-|He]; [discriminate|auto].
    + left. now left.
Qed.

Lemma sorted_mixed (l : list (option string)) (s : string) :
  In None l -> In (Some s) l -> sorted l = Raises TypeError.
Proof.
  revert s. induction l as [|x l IH]; intros s Hn Hs; [destruct Hn|].
  cbn [sorted].
  destruct (has_missing_dec l) as [Hn'|Hall].
  - destruct (has_string_dec l) as [[s' Hin]|Hall].
    + now rewrite (IH s' Hn' Hin).
    + destruct Hs as [->|Hs]; [|now discriminate (Hall _ Hs)].
      rewrite (all_missing l Hall), sorted_missing. cbn [bind].
      destruct l as [|e l]; [destruct Hn'|]. reflexivity.
  - destruct Hn as [->|Hn]; [|now destruct (Hall _ Hn)].
    destruct (all_strings l Hall) as [ss ->]. rewrite sorted_strings_text. cbn [bind].
    destruct Hs as [Hs|Hs]; [discriminate|].
    apply List.in_map_iff in Hs as (s0 & _ & Hs0).
    pose proof (Permutation_in _ (Permutation_sym (sort_by_perm String.leb ss)) Hs0) as Hin.
    destruct (sort_by String.leb ss) as [|y ys]; [destruct Hin|]. reflexivity.
Qed.

Lemma unique_text_missing (n : nat) :
  unique_text (repeat None n) = match n with O => [] | S _ => [None] end.
Proof.
  induction n as [|n IH]; [reflexivity|]. cbn [repeat unique_text]. rewrite IH.
  now destruct n.
Qed.

(** X4.  The choice list of a text column is ["All"] followed by the sorted
    distinct entries.  Building it raises [TypeError] exactly when the column
    of the selection has an entry that is missing and an entry that is a
    string.  When every entry is a string, the list has each of them once, in
    ascending order; when every entry is missing, it is ["All"] and the
    missing value (["All"] alone for an empty selection).  The list of
    [Series Type] never fails on rows that [load_data] returned, whatever
    the mask that selected them. *)
Theorem available_options_sorted (c : string) (filtered_data : Frame) :
  let entries := texts (col c filtered_data) in
  (available_options c filtered_data = Raises TypeError <->
   In None entries /\ exists s, In (Some s) entries)
  /\ (forall e, available_options c filtered_data = Raises e -> e = TypeError)
  /\ ((forall e, In e entries -> e <> None) ->
      exists options,
        available_options c filtered_data = Returns (Some "All"%string :: map Some options)
        /\ StronglySorted string_lt options
        /\ forall s, In s options <-> In (Some s) entries)
  /\ ((forall e, In e entries -> e = None) ->
      available_options c filtered_data
      = Returns (Some "All"%string :: if empty filtered_data then [] else [None]))
  /\ (forall str_of_num parse_number parse_datetime read_csv (mask : Row -> bool),
         filtered_data
         = List.filter mask
             (rows (snd (load_data str_of_num parse_number parse_datetime read_csv))) ->
         exists options, available_series filtered_data = Returns options).
Proof.
  cbv zeta. unfold available_series, available_options.
  set (entries := texts (col c filtered_data)).
  assert (Hstr : (forall e, In e entries -> e <> None) ->
      exists options,
        sorted (unique_text entries) = Returns (map Some options)
        /\ StronglySorted string_lt options
        /\ forall s, In s options <-> In (Some s) entries).
  { intros Hall. destruct (all_strings entries Hall) as [ss Hss]. rewrite Hss.
    rewrite unique_text_strings, sorted_strings_text. eexists. split; [reflexivity|].
    split; [apply sorted_strings, unique_NoDup|].
    intros s. split.
    - intros H. apply (Permutation_in _ (sort_by_perm String.leb _)) in H.
      apply (proj1 (unique_In _ _)) in H. now apply List.in_map.
    - intros H. apply List.in_map_iff in H as (s' & [= ->] & H).
      apply (Permutation_in _ (Permutation_sym (sort_by_perm String.leb _))).
      now apply unique_In. }
  assert (Hmiss : (forall e, In e entries -> e = None) ->
      sorted (unique_text entries) = Returns (if empty filtered_data then [] else [None])).
  { intros Hall. rewrite (all_missing entries Hall), unique_text_missing.
    unfold entries, texts, col. rewrite !length_map.
    destruct filtered_data; reflexivity. }
  assert (Hiff : sorted (unique_text entries) = Raises TypeError <->
                 In None entries /\ exists s, In (Some s) entries).
  { split.
    - intros H. destruct (has_missing_dec entries) as [Hn|Hall].
      + split; [exact Hn|]. destruct (has_string_dec entries) as [Hs|Hall]; [exact Hs|].
        rewrite (Hmiss Hall) in H. discriminate.
      + destruct (Hstr Hall) as (options & Heq & _). rewrite Heq in H. discriminate.
    - intros [Hn [s Hs]]. apply (sorted_mixed _ s); now apply unique_text_In. }
  split; [|split; [|split; [|split]]].
  - rewrite <- Hiff. destruct (sorted (unique_text entries)) as [l|e]; cbn [bind].
    + split; discriminate.
    + reflexivity.
  - intros e H. destruct (has_missing_dec entries) as [Hn|Hall].
    + destruct (has_string_dec entries) as [Hs|Hall].
      * rewrite (proj2 Hiff (conj Hn Hs)) in H. cbn [bind] in H. congruence.
      * rewrite (Hmiss Hall) in H. discriminate.
    + destruct (Hstr Hall) as (options & Heq & _). rewrite Heq in H. discriminate.
  - intros Hall. destruct (Hstr Hall) as (options & Heq & Hs & Hin).
    exists options. rewrite Heq. cbn [bind].
    split; [reflexivity|]. split; [exact Hs|exact Hin].
  - intros Hall. now rewrite (Hmiss Hall).
  - intros str_of_num parse_number parse_datetime read_csv mask Hsel.
    assert (Hall : forall e, In e (texts (col "Series Type" filtered_data)) -> e <> None).
    { intros e He. unfold texts, col in He. rewrite List.map_map in He.
      apply List.in_map_iff in He as (r & <- & Hr). rewrite Hsel in Hr.
      apply List.filter_In in Hr as [Hr _]. apply loaded_rows in Hr as (df & r0 & _ & _ & ->).
      destruct (normalize_row_fields str_of_num parse_number parse_datetime df r0)
        as (_ & _ & _ & _ & -> & _).
      discriminate. }
    destruct (all_strings _ Hall) as [ss Hss]. rewrite Hss.
    rewrite unique_text_strings, sorted_strings_text. cbn [bind]. eexists. reflexivity.
Qed.

(** ** The metrics of the search view *)

Lemma prices_cons (r : Row) (df : Frame) :
  prices (r :: df) = match LTP r with Some q => q :: prices df | None => prices df end.
Proof. reflexivity. Qed.

Lemma prices_In (df : Frame) (q : Q) :
  In q (prices df) <-> exists r, In r df /\ LTP r = Some q.
Proof.
  induction df as [|r0 df IH].
  - split; [intros []|intros (r & [] & _)].
  - rewrite prices_cons. split.
    + destruct (LTP r0) as [q0|] eqn:H0.
      * intros [<-|H]; [exists r0; split; [now left|exact H0]|].
        apply IH in H as (r & Hr & HL). exists r. split; [now right|exact HL].
      * intros H. apply IH in H as (r & Hr & HL). exists r. split; [now right|exact HL].
    + intros (r & [<-|Hr] & HL).
      * rewrite HL. now left.
      * assert (In q (prices df)) by (apply IH; now exists r).
        destruct (LTP r0); [now right|assumption].
Qed.

Lemma foldl_Qmaxb (qs : list Q) (q : Q) :
  (foldl Qmaxb q qs = q \/ In (foldl Qmaxb q qs) qs)
  /\ (q <= foldl Qmaxb q qs)%Q
  /\ forall x, In x qs -> (x <= foldl Qmaxb q qs)%Q.
Proof.
  revert q. induction qs as [|y qs IH]; intros q.
  - cbn [foldl]. split; [now left|]. split; [apply Qle_refl|intros x []].
  - cbn [foldl]. destruct (IH (Qmaxb q y)) as (Hin & Hge & Hall). split; [|split].
    + destruct Hin as [->|Hin].
      * unfold Qmaxb. destruct (Qle_bool q y); [right; now left|now left].
      * right. now right.
    + eapply Qle_trans; [apply Qmaxb_ge_l|exact Hge].
    + intros x [<-|Hx]; [|now apply Hall].
      eapply Qle_trans; [apply Qmaxb_ge_r|exact Hge].
Qed.

Lemma series_max_prices (df : Frame) :
  match highest_price df with
  | Num m => In m (prices df) /\ forall q, In q (prices df) -> (q <= m)%Q
  | _ => prices df = [] /\ highest_price df = NaN
  end.
Proof.
  unfold highest_price, series_max. fold (prices df).
  destruct (prices df) as [|q qs]; [now split|].
  destruct (foldl_Qmaxb qs q) as (Hin & Hge & Hall). split.
  - destruct Hin as [->|Hin]; [now left|now right].
  - intros x [<-|Hx]; [exact Hge|now apply Hall].
Qed.

Lemma col_LTP_with_highs (acc : option Q) (df : Frame) :
  col "LTP" (with_highs acc df) = col "LTP" df.
Proof.
  revert acc. induction df as [|r df IH]; intros acc; [reflexivity|].
  rewrite with_highs_cons. unfold col in *.
  destruct (r !!! "LTP") eqn:H; cbn [map]; rewrite IH;
    now rewrite lookup_total_insert_ne, H by discriminate.
Qed.

Lemma with_highs_LTP (acc : option Q) (df : Frame) (r : Row) :
  In r (with_highs acc df) -> exists r0, In r0 df /\ LTP r0 = LTP r.
Proof.
  revert acc. induction df as [|r0 df IH]; intros acc Hr; [destruct Hr|].
  rewrite with_highs_cons in Hr.
  destruct (r0 !!! "LTP"); destruct Hr as [<-|Hr];
    try (exists r0; split; [now left|now rewrite LTP_insert_high]);
    destruct (IH _ Hr) as (r1 & Hin & HL); exists r1; split; auto; now right.
Qed.

(** The last high point carries the greatest price; there is none exactly
    when every price stays under the maximum the series started with. *)
Lemma last_high_point (df : Frame) (acc : option Q) :
  match last (List.filter is_high (with_highs acc df)) with
  | Some r =>
      exists p, LTP r = Some p
                /\ (forall a, acc = Some a -> (a <= p)%Q)
                /\ forall q, In q (prices df) -> (q <= p)%Q
  | None =>
      forall q, In q (prices df) -> exists a, acc = Some a /\ (q < a)%Q
  end.
Proof.
  revert acc. induction df as [|r0 df IH]; intros acc.
  - cbn. intros q [].
  - rewrite with_highs_cons, prices_cons.
    assert (HL : LTP r0 = as_num (r0 !!! "LTP")) by reflexivity.
    destruct (r0 !!! "LTP") as [| |q| |] eqn:Hc; cbn [as_num] in HL; rewrite HL;
      cbn [List.filter]; rewrite is_high_insert, Hc; cbn [num_eq]; try apply IH.
    set (m := match acc with Some a => Qmaxb a q | None => q end).
    assert (Hq : (q <= m)%Q).
    { unfold m. destruct acc; [apply Qmaxb_ge_r|apply Qle_refl]. }
    assert (Ha : forall a, acc = Some a -> (a <= m)%Q).
    { intros a ->. apply Qmaxb_ge_l. }
    specialize (IH (Some m)).
    destruct (Qeq_bool q m) eqn:Hqm.
    + apply Qeq_bool_iff in Hqm. rewrite last_cons.
      destruct (last (List.filter is_high (with_highs (Some m) df))) as [r|].
      * destruct IH as (p & Hp & Hm & Hall). exists p. split; [exact Hp|].
        specialize (Hm m eq_refl). split.
        -- intros a E. eapply Qle_trans; [apply (Ha a E)|exact Hm].
        -- intros x [<-|Hx]; [eapply Qle_trans; eauto|now apply Hall].
      * exists q. rewrite LTP_insert_high. unfold LTP. rewrite Hc. split; [reflexivity|].
        split.
        -- intros a E. rewrite Hqm. now apply Ha.
        -- intros x [<-|Hx]; [apply Qle_refl|].
           destruct (IH x Hx) as (a & [= <-] & Hlt). rewrite Hqm. now apply Qlt_le_weak.
    + assert (Hlt : exists a, acc = Some a /\ (q < a)%Q /\ m = a).
      { unfold m in *. destruct acc as [a|].
        - exists a. split; [reflexivity|]. unfold Qmaxb in *.
          destruct (Qle_bool a q) eqn:E.
          + rewrite Qeq_bool_refl in Hqm. discriminate.
          + split; [|reflexivity]. apply Qnot_le_lt. intros H.
            apply Qle_bool_iff in H. congruence.
        - rewrite Qeq_bool_refl in Hqm. discriminate. }
      destruct Hlt as (a & -> & Hlt & Hm).
      destruct (last (List.filter is_high (with_highs (Some m) df))) as [r|].
      * destruct IH as (p & Hp & Hmp & Hall). exists p. split; [exact Hp|].
        specialize (Hmp m eq_refl). split.
        -- intros a' [= <-]. now rewrite <- Hm.
        -- intros x [<-|Hx]; [eapply Qle_trans; eauto|now apply Hall].
      * intros x [<-|Hx]; [now exists a|].
        destruct (IH x Hx) as (a' & [= <-] & Hlt'). exists a. split; [reflexivity|].
        now rewrite <- Hm.
Qed.

Lemma prices_with_highs (acc : option Q) (df : Frame) :
  prices (with_highs acc df) = prices df.
Proof. unfold prices. now rewrite col_LTP_with_highs. Qed.

Lemma high_points_metrics (py_float : string -> option pyfloat) (df : Frame) :
  let stock_data := with_highs None df in
  let high_dates := List.filter is_high stock_data in
  (high_dates = [] <-> forall r, In r stock_data -> LTP r = None)
  /\ (highest_price stock_data = NaN <-> high_dates = [])
  /\ (forall r, last high_dates = Some r ->
        exists p m, LTP r = Some p /\ highest_price stock_data = Num m /\ (p == m)%Q
                    /\ forall r' q, In r' stock_data -> LTP r' = Some q -> (q <= p)%Q)
  /\ (high_dates = [] ->
      search_metrics py_float high_dates stock_data = (Returns "N/A"%string, "0"%string)).
Proof.
  cbv zeta. set (S := with_highs None df). set (H := List.filter is_high S).
  pose proof (last_high_point df None) as Hlast. fold S H in Hlast.
  rewrite <- (prices_with_highs None df) in Hlast. fold S in Hlast.
  pose proof (series_max_prices S) as Hmax.
  assert (Hnone : H = [] <-> prices S = []).
  { split.
    - intros E. rewrite E in Hlast. cbn in Hlast.
      destruct (prices S) as [|q qs]; [reflexivity|].
      destruct (Hlast q (or_introl eq_refl)) as (a & Ha & _). discriminate.
    - intros E. apply last_None. destruct (last H) as [r|] eqn:Hr; [|reflexivity].
      destruct Hlast as (p & Hp & _). exfalso.
      assert (Hin : In p (prices S)).
      { apply prices_In. exists r. split; [|exact Hp].
        apply last_Some in Hr as [l' Hl']. unfold H in Hl'.
        assert (Hin : In r (List.filter is_high S)) by (rewrite Hl'; apply List.in_or_app; right; now left).
        now apply List.filter_In in Hin. }
      rewrite E in Hin. destruct Hin. }
  split; [|split; [|split]].
  - rewrite Hnone. split.
    + intros E r Hr. destruct (LTP r) as [q|] eqn:HL; [|reflexivity].
      assert (Hin : In q (prices S)) by (apply prices_In; now exists r).
      rewrite E in Hin. destruct Hin.
    + intros Hall. destruct (prices S) as [|q qs] eqn:E; [reflexivity|].
      assert (Hin : In q (prices S)) by (rewrite E; now left).
      apply prices_In in Hin as (r & Hr & HL). rewrite (Hall r Hr) in HL. discriminate.
  - rewrite Hnone. destruct (highest_price S) as [| |m| |] eqn:E;
      try (destruct Hmax as [Hp Hc]; try discriminate; now split).
    destruct Hmax as [Hin _]. split; [discriminate|]. intros Hp. rewrite Hp in Hin. destruct Hin.
  - intros r Hr. rewrite Hr in Hlast. destruct Hlast as (p & Hp & _ & Hall).
    assert (Hin : In p (prices S)).
    { apply prices_In. exists r. split; [|exact Hp].
      apply last_Some in Hr as [l' Hl']. unfold H in Hl'.
      assert (Hin : In r (List.filter is_high S)) by (rewrite Hl'; apply List.in_or_app; right; now left).
      now apply List.filter_In in Hin. }
    destruct (highest_price S) as [| |m| |] eqn:E;
      try (destruct Hmax as [Hp' _]; rewrite Hp' in Hin; now destruct Hin).
    destruct Hmax as [Hm Hle]. exists p, m. split; [exact Hp|]. split; [reflexivity|].
    split; [apply Qle_antisym; [now apply Hle|now apply Hall]|].
    intros r' q Hr' HL. apply Hall, prices_In. now exists r'.
  - intros E. unfold search_metrics. rewrite E. cbn [high_points_found empty negb].
    apply Hnone in E.
    destruct (highest_price S) as [| |m| |] eqn:Em;
      try (destruct Hmax as [_ Hc]; discriminate); try reflexivity.
    destruct Hmax as [Hin _]. rewrite E in Hin. destruct Hin.
Qed.


(** ** The metrics row and the sector chart *)

Lemma has_missing_In (l : list (option string)) : has_missing l = true <-> In None l.
Proof.
  unfold has_missing. rewrite List.existsb_exists. split.
  - intros ([s|] & H & E); [discriminate|exact H].
  - intros H. now exists None.
Qed.

Lemma texts_In (l : list cell) (s : string) : In (Some s) (texts l) <-> In s (strs l).
Proof.
  rewrite strs_In. unfold texts. rewrite List.in_map_iff. split.
  - intros (c & Hc & Hin). destruct c; try discriminate. injection Hc as ->. exact Hin.
  - intros H. now exists (Str s).
Qed.

Lemma unique_text_length (l : list cell) :
  length (unique_text (texts l))
  = (length (unique (strs l)) + one_if (has_missing (texts l)))%nat.
Proof.
  set (tail := if has_missing (texts l) then [None] else [] : list (option string)).
  assert (Hlen : length tail = one_if (has_missing (texts l))).
  { unfold tail, one_if. now destruct (has_missing (texts l)). }
  rewrite <- Hlen, <- (length_map Some (unique (strs l))), <- length_app.
  apply Permutation_length, Permutation.NoDup_Permutation.
  - apply unique_text_NoDup.
  - apply List.NoDup_app.
    + apply List.NoDup_map_inv with (f := fun e : option string => default ""%string e).
      rewrite List.map_map. cbn [default from_option]. rewrite List.map_id.
      apply unique_NoDup.
    + unfold tail. destruct (has_missing (texts l)); repeat constructor. intros [].
    + intros e He Ht. apply List.in_map_iff in He as (s & <- & _).
      unfold tail in Ht. destruct (has_missing (texts l)); [|destruct Ht].
      destruct Ht as [Ht|[]]. discriminate.
  - intros e. rewrite unique_text_In, List.in_app_iff, List.in_map_iff. split.
    + intros He. destruct e as [s|].
      * left. exists s. split; [reflexivity|]. now apply unique_In, texts_In.
      * right. unfold tail. rewrite (proj2 (has_missing_In _) He). now left.
    + intros [(s & <- & Hs)|Ht].
      * now apply texts_In, unique_In.
      * unfold tail in Ht. destruct (has_missing (texts l)) eqn:E; [|destruct Ht].
        destruct Ht as [<-|[]]. now apply has_missing_In.
Qed.

Lemma list_sum_counts (counts : list (string * nat)) :
  list_sum (map snd counts) = total counts.
Proof.
  unfold total, list_sum. induction counts as [|p counts IH]; [reflexivity|].
  cbn [map fold_right foldr]. now rewrite IH.
Qed.

Lemma value_counts_length (l : list cell) :
  length (value_counts l) = length (unique (strs l)).
Proof. now rewrite (Permutation_length (value_counts_perm l)), length_map. Qed.

Lemma assign_length (c : string) (f : Row -> cell) (df : Frame) :
  length (assign c (map f df) df) = length df.
Proof. now rewrite assign_map, length_map. Qed.

Lemma get_latest_stock_data_length (filtered_data : Frame) :
  length (get_latest_stock_data filtered_data)
  = length (unique (strs (col "Symbol" filtered_data))).
Proof.
  unfold get_latest_stock_data. cbv zeta. rewrite sort_by_length.
  set (G := groupby_first "Symbol" (sort_by latest_first filtered_data)).
  change (col "Symbol" G) with (map (fun r : Row => r !!! "Symbol") G).
  rewrite List.map_map.
  rewrite (assign_length "count" (fun r : Row => map_dict _ (r !!! "Symbol"))).
  unfold G, groupby_first, group_keys. rewrite length_map, sort_by_length.
  apply Permutation_length, unique_perm, strs_perm, col_perm, sort_by_perm.
Qed.

Lemma series_mean_missing (l : list cell) :
  (forall c, In c l -> as_num c = None) -> series_mean l = FNaN.
Proof.
  intros H. unfold series_mean.
  assert (E : omap as_num l = []).
  { induction l as [|c l IH]; [reflexivity|].
    change (omap as_num (c :: l))
      with (match as_num c with Some q => q :: omap as_num l | None => omap as_num l end).
    rewrite (H c (or_introl eq_refl)). apply IH. intros; apply H; now right. }
  now rewrite E.
Qed.

(** X6.  The bars of the sector chart are the distinct sectors of the
    selection, each once, by descending count, each bar at least 1 and
    labelled with its height; the heights add up to the number of records
    that have a sector.  The metric "Total Sectors" counts the missing sector
    as one more sector than the chart has bars, and "Total Stocks" is the
    number of stock cards plus one when a symbol is missing.  "Average
    Change" reads "+nan%" when no record of the selection has a change. *)
Theorem metrics_and_sector_chart (filtered_data : Frame) :
  let chart := create_sector_chart filtered_data in
  let sectors := col "Sector" filtered_data in
  let symbols := col "Symbol" filtered_data in
  trace_text chart = trace_y chart
  /\ length (trace_x chart) = length (trace_y chart)
  /\ List.NoDup (trace_x chart)
  /\ (forall s, In s (trace_x chart) <-> In (Str s) sectors)
  /\ Forall (fun n => (1 <= n)%nat) (trace_y chart)
  /\ StronglySorted ge (trace_y chart)
  /\ list_sum (trace_y chart) = length (strs sectors)
  /\ total_sectors filtered_data
     = (length (trace_x chart) + one_if (has_missing (texts sectors)))%nat
  /\ total_stocks filtered_data
     = (length (get_latest_stock_data filtered_data) + one_if (has_missing (texts symbols)))%nat
  /\ ((forall r, In r filtered_data -> chng r = None) ->
      average_change filtered_data = "+nan%"%string).
Proof.
  cbv zeta. unfold create_sector_chart. cbn [trace_x trace_y trace_text].
  set (counts := value_counts (col "Sector" filtered_data)).
  split; [reflexivity|].
  split; [now rewrite !length_map|].
  split; [apply value_counts_keys_NoDup|].
  split.
  { intros s. rewrite <- strs_In, List.in_map_iff. split.
    - intros ([s' n] & <- & H). now apply value_counts_In in H as [H _].
    - intros H. exists (s, count s (strs (col "Sector" filtered_data))).
      split; [reflexivity|]. now apply value_counts_In. }
  split.
  { apply List.Forall_forall. intros n Hn. apply List.in_map_iff in Hn as ([s n'] & <- & H).
    apply value_counts_In in H as [Hs ->]. cbn [snd]. unfold count.
    destruct (List.filter (String.eqb s) (strs (col "Sector" filtered_data))) as [|x xs] eqn:E.
    - assert (Hin : In s (List.filter (String.eqb s) (strs (col "Sector" filtered_data)))).
      { apply List.filter_In. split; [exact Hs|apply String.eqb_refl]. }
      rewrite E in Hin. destruct Hin.
    - cbn [length]. lia. }
  split.
  { eapply StronglySorted_map; [|apply value_counts_sorted].
    intros a b H. exact H. }
  split; [rewrite list_sum_counts; apply value_counts_total|].
  split.
  { unfold total_sectors, counts.
    now rewrite unique_text_length, length_map, value_counts_length. }
  split.
  { unfold total_stocks. now rewrite unique_text_length, get_latest_stock_data_length. }
  intros Hall. unfold average_change. rewrite series_mean_missing; [reflexivity|].
  intros c Hc. unfold col in Hc. apply List.in_map_iff in Hc as (r & <- & Hr).
  exact (Hall r Hr).
Qed.

(** ** Symbols and series types after [load_data] *)

Lemma reverse_involutive (s : string) : reverse (reverse s) = s.
Proof.
  unfold reverse. rewrite list_ascii_of_string_of_list_ascii, rev_involutive.
  apply string_of_list_ascii_of_string.
Qed.

Lemma list_ascii_app (a b : string) :
  list_ascii_of_string (a ++ b) = list_ascii_of_string a ++ list_ascii_of_string b.
Proof.
  induction a as [|c a IH]; [reflexivity|].
  change (String c a ++ b)%string with (String c (a ++ b)).
  cbn [list_ascii_of_string app]. now rewrite IH.
Qed.

Lemma string_of_list_app (a b : list ascii) :
  string_of_list_ascii (a ++ b) = (string_of_list_ascii a ++ string_of_list_ascii b)%string.
Proof.
  induction a as [|c a IH]; [reflexivity|].
  cbn [string_of_list_ascii app]. rewrite IH. reflexivity.
Qed.

Lemma reverse_app (a b : string) : reverse (a ++ b) = (reverse b ++ reverse a)%string.
Proof. unfold reverse. now rewrite list_ascii_app, rev_app_distr, string_of_list_app. Qed.

Lemma is_space_upper (c : ascii) : is_space (upper_ascii c) = is_space c.
Proof. destruct c as [[] [] [] [] [] [] [] []]; reflexivity. Qed.

Lemma upper_upper_ascii (c : ascii) : upper_ascii (upper_ascii c) = upper_ascii c.
Proof. destruct c as [[] [] [] [] [] [] [] []]; reflexivity. Qed.

Lemma upper_upper (s : string) : upper (upper s) = upper s.
Proof.
  induction s as [|c s IH]; [reflexivity|]. cbn [upper]. now rewrite upper_upper_ascii, IH.
Qed.

Lemma lstrip_upper (s : string) : lstrip (upper s) = upper (lstrip s).
Proof.
  induction s as [|c s IH]; [reflexivity|]. cbn [upper lstrip]. rewrite is_space_upper.
  destruct (is_space c); [exact IH|reflexivity].
Qed.

Lemma upper_list (l : list ascii) :
  upper (string_of_list_ascii l) = string_of_list_ascii (map upper_ascii l).
Proof.
  induction l as [|c l IH]; [reflexivity|]. cbn [map string_of_list_ascii upper].
  now rewrite IH.
Qed.

Lemma list_upper (s : string) :
  list_ascii_of_string (upper s) = map upper_ascii (list_ascii_of_string s).
Proof.
  induction s as [|c s IH]; [reflexivity|]. cbn [map list_ascii_of_string upper].
  now rewrite IH.
Qed.

Lemma reverse_upper (s : string) : reverse (upper s) = upper (reverse s).
Proof. unfold reverse. now rewrite list_upper, upper_list, List.map_rev. Qed.

Lemma strip_upper (s : string) : strip (upper s) = upper (strip s).
Proof. unfold strip. now rewrite lstrip_upper, reverse_upper, lstrip_upper, reverse_upper. Qed.

Lemma lstrip_lstrip (s : string) : lstrip (lstrip s) = lstrip s.
Proof.
  induction s as [|c s IH]; [reflexivity|]. cbn [lstrip].
  destruct (is_space c) eqn:E; [exact IH|]. cbn [lstrip]. now rewrite E.
Qed.

Lemma lstrip_length (s : string) : (String.length (lstrip s) <= String.length s)%nat.
Proof.
  induction s as [|c s IH]; [reflexivity|]. cbn [lstrip].
  destruct (is_space c); cbn [String.length]; lia.
Qed.

Lemma lstrip_suffix (s : string) : exists w, s = (w ++ lstrip s)%string.
Proof.
  induction s as [|c s [w IH]]; [now exists ""%string|]. cbn [lstrip].
  destruct (is_space c).
  - exists (String c w). change (String c w ++ lstrip s)%string with (String c (w ++ lstrip s)).
    now rewrite <- IH.
  - now exists ""%string.
Qed.

Lemma lstrip_prefix (t u w : string) : lstrip t = t -> t = (u ++ w)%string -> lstrip u = u.
Proof.
  intros Ht ->. destruct u as [|c u]; [reflexivity|].
  change (String c u ++ w)%string with (String c (u ++ w)) in Ht.
  cbn [lstrip] in *. destruct (is_space c); [|reflexivity].
  pose proof (lstrip_length (u ++ w)) as H. rewrite Ht in H. cbn [String.length] in H. lia.
Qed.

Lemma strip_strip (s : string) : strip (strip s) = strip s.
Proof.
  unfold strip. set (t := lstrip s).
  assert (Ht : lstrip t = t) by apply lstrip_lstrip.
  set (u := reverse (lstrip (reverse t))).
  assert (Hu : lstrip u = u).
  { destruct (lstrip_suffix (reverse t)) as [w Hw].
    apply (lstrip_prefix t u (reverse w) Ht).
    unfold u. rewrite <- reverse_app, <- Hw. symmetry. apply reverse_involutive. }
  rewrite Hu. unfold u. now rewrite reverse_involutive, lstrip_lstrip.
Qed.

Lemma filter_none_in {A} (p : A -> bool) (l : list A) :
  (forall x, In x l -> p x = false) -> List.filter p l = [].
Proof.
  intros Hp. induction l as [|x l IH]; [reflexivity|]. cbn [List.filter].
  rewrite (Hp x (or_introl eq_refl)). apply IH. intros y Hy. apply Hp. now right.
Qed.

Lemma normal_symbol_clean (s : string) : normal_symbol (upper (strip s)).
Proof. unfold normal_symbol. now rewrite strip_upper, upper_upper, strip_strip. Qed.


(** ** The market cap after [load_data] *)

Lemma append_cons (c : ascii) (a b : string) :
  (String c a ++ b)%string = String c (a ++ b).
Proof. reflexivity. Qed.

Lemma append_assoc (a b c : string) : ((a ++ b) ++ c)%string = (a ++ (b ++ c))%string.
Proof.
  induction a as [|x a IH]; [reflexivity|]. rewrite !append_cons. now rewrite IH.
Qed.

Lemma take_digits_split (s : string) :
  s = (fst (take_digits s) ++ snd (take_digits s))%string
  /\ digits (fst (take_digits s)) = true
  /\ starts_with_digit (snd (take_digits s)) = false.
Proof.
  induction s as [|c s (IH1 & IH2 & IH3)]; [now repeat split|].
  cbn [take_digits]. destruct (is_digit c) eqn:E.
  - destruct (take_digits s) as [ds rest]. cbn [fst snd] in *.
    rewrite append_cons, <- IH1. cbn [digits]. rewrite E, IH2. now repeat split.
  - cbn [fst snd starts_with_digit]. now repeat split.
Qed.

Lemma take_digits_head (c : ascii) (s : string) :
  is_digit c = true -> fst (take_digits (String c s)) <> ""%string.
Proof.
  intros E. cbn [take_digits]. rewrite E. now destruct (take_digits s).
Qed.

Lemma extract_none (s : string) : extract s = None <-> has_digit s = false.
Proof.
  induction s as [|c s IH]; [now split|].
  cbn [extract has_digit]. destruct (is_digit c) eqn:E; [|exact IH].
  cbn [orb]. split; [|discriminate].
  destruct (take_digits (String c s)) as [ds rest].
  destruct rest as [|d rest']; [discriminate|].
  destruct (Ascii.eqb_spec d ".") as [->|Hd].
  - destruct (take_digits rest') as [[|f fs] r]; discriminate.
  - destruct d as [[] [] [] [] [] [] [] []]; try discriminate. now destruct Hd.
Qed.

Lemma extract_some (s x : string) :
  extract s = Some x ->
  number_text x
  /\ exists pre post,
       s = (pre ++ x ++ post)%string /\ has_digit pre = false
       /\ starts_with_digit post = false.
Proof.
  revert x. induction s as [|c s IH]; intros x; [discriminate|].
  cbn [extract]. destruct (is_digit c) eqn:E.
  - pose proof (take_digits_split (String c s)) as (Hs & Hd & Hr).
    pose proof (take_digits_head c s E) as Hne.
    destruct (take_digits (String c s)) as [ds rest]. cbn [fst snd] in *.
    assert (Hint : Some ds = Some x ->
              number_text x
              /\ exists pre post, String c s = (pre ++ x ++ post)%string
                                  /\ has_digit pre = false /\ starts_with_digit post = false).
    { intros [= <-]. split; [exists ds; now repeat split; auto|].
      exists ""%string, rest. now repeat split. }
    destruct rest as [|d rest']; [exact Hint|].
    destruct (Ascii.eqb_spec d ".") as [->|Hd'].
    + pose proof (take_digits_split rest') as (Hs' & Hdf & Hr').
      destruct (take_digits rest') as [fs r]. cbn [fst snd] in *.
      destruct fs as [|f fs]; [exact Hint|].
      intros [= <-]. split.
      * exists ds. split; [exact Hd|]. split; [exact Hne|]. right.
        exists (String f fs). now repeat split.
      * exists ""%string, r. split; [|now split].
        rewrite Hs, Hs'. change (""%string ++ ?a)%string with a.
        rewrite !append_assoc. reflexivity.
    + destruct d as [[] [] [] [] [] [] [] []]; try exact Hint. now destruct Hd'.
  - intros H. destruct (IH x H) as (Hn & pre & post & -> & Hpre & Hpost).
    split; [exact Hn|]. exists (String c pre), post.
    split; [reflexivity|]. split; [|exact Hpost]. cbn [has_digit]. now rewrite E.
Qed.

Lemma take_digits_digits (ds rest : string) :
  digits ds = true -> starts_with_digit rest = false ->
  take_digits (ds ++ rest) = (ds, rest).
Proof.
  intros Hd Hr. induction ds as [|c ds IH].
  - change (""%string ++ rest)%string with rest.
    destruct rest as [|d rest]; [reflexivity|]. cbn [take_digits].
    cbn [starts_with_digit] in Hr. now rewrite Hr.
  - cbn [digits] in Hd. apply andb_prop in Hd as [Hc Hd].
    rewrite append_cons. cbn [take_digits]. now rewrite Hc, (IH Hd).
Qed.

Lemma digits_value_digits (ds : string) (acc : Z) :
  digits ds = true -> 0 <= acc -> exists n, digits_value acc ds = Some n /\ 0 <= n.
Proof.
  revert acc. induction ds as [|c ds IH]; intros acc Hd Hacc; [now exists acc|].
  cbn [digits] in Hd. apply andb_prop in Hd as [Hc Hd]. cbn [digits_value]. rewrite Hc.
  apply IH; [exact Hd|]. unfold digit_value. lia.
Qed.

Lemma parse_digits_digits (ds : string) :
  digits ds = true -> ds <> ""%string -> exists n, parse_digits ds = Some n /\ 0 <= n.
Proof.
  intros Hd Hne. unfold parse_digits. destruct ds as [|c ds]; [contradiction|].
  now apply digits_value_digits.
Qed.

Lemma parse_unsigned_number (x : string) :
  number_text x -> exists q, parse_unsigned x = Some q /\ (0 <= q)%Q.
Proof.
  intros (ds & Hd & Hne & Hx). unfold parse_unsigned.
  destruct (parse_digits_digits ds Hd Hne) as (n & Hn & Hn0).
  assert (Hq : (0 <= inject_Z n)%Q) by (unfold Qle; simpl; lia).
  destruct Hx as [->|(fs & Hf & Hfne & ->)].
  - assert (E : (ds ++ "")%string = ds).
    { clear. induction ds as [|c ds IH]; [reflexivity|]. rewrite append_cons. now rewrite IH. }
    pose proof (take_digits_digits ds "" Hd eq_refl) as T. rewrite E in T.
    rewrite T, Hn. now exists (inject_Z n).
  - rewrite (take_digits_digits ds ("." ++ fs) Hd eq_refl), Hn.
    change ("." ++ fs)%string with (String "." fs).
    destruct (parse_digits_digits fs Hf Hfne) as (f & -> & Hf0).
    eexists. split; [reflexivity|].
    assert (Hp : (0 < inject_Z (pow10 (String.length fs)))%Q).
    { unfold pow10, Qlt. simpl. pose proof (Z.pow_pos_nonneg 10 (Z.of_nat (String.length fs))). lia. }
    assert (Hfq : (0 <= inject_Z f)%Q) by (unfold Qle; simpl; lia).
    apply (Qle_trans _ (inject_Z n + 0)); [now rewrite Qplus_0_r|].
    apply Qplus_le_r. apply Qle_shift_div_l; [exact Hp|]. now rewrite Qmult_0_l.
Qed.

Lemma number_text_unsigned (x : string) :
  number_text x -> parse_decimal x = parse_unsigned x.
Proof.
  intros (ds & Hd & Hne & Hx).
  assert (H : exists c x', x = String c x' /\ is_digit c = true).
  { destruct ds as [|c ds]; [contradiction|]. cbn [digits] in Hd.
    apply andb_prop in Hd as [Hc _].
    destruct Hx as [->|(fs & _ & _ & ->)]; eexists _, _; (split; [reflexivity|exact Hc]). }
  destruct H as (c & x' & -> & Hc). unfold parse_decimal.
  destruct c as [[] [] [] [] [] [] [] []]; try reflexivity; discriminate.
Qed.



(** ** The month list of the month view *)

Lemma pretty_char_digit (n : N) :
  (n < 10)%N ->
  is_digit (pretty_N_char n) = true /\ digit_value (pretty_N_char n) = Z.of_N n.
Proof.
  intros H.
  assert (E : n = 0%N \/ n = 1%N \/ n = 2%N \/ n = 3%N \/ n = 4%N \/ n = 5%N \/ n = 6%N
              \/ n = 7%N \/ n = 8%N \/ n = 9%N) by lia.
  repeat (destruct E as [->|E]; [now split|]). subst. now split.
Qed.

Lemma year_text (y : Z) :
  1000 <= y <= 9999 ->
  exists d1 d2 d3 d4,
    pretty y = String d1 (String d2 (String d3 (String d4 "")))
    /\ is_digit d1 = true /\ is_digit d2 = true /\ is_digit d3 = true /\ is_digit d4 = true
    /\ parse_digits (pretty y) = Some y.
Proof.
  intros Hy. destruct y as [|p|p]; try lia.
  change (pretty (Z.pos p)) with (pretty_N_go (N.pos p) "").
  set (x := N.pos p). assert (Hx : (1000 <= x <= 9999)%N) by lia.
  assert (Hz : Z.pos p = Z.of_N x) by reflexivity. rewrite Hz. clear Hz. clearbody x. clear p Hy.
  rewrite pretty_N_go_step by lia.
  rewrite pretty_N_go_step by (apply N.div_str_pos; lia).
  rewrite pretty_N_go_step
    by (apply N.div_str_pos; split; [lia|]; apply N.div_le_lower_bound; lia).
  rewrite pretty_N_go_step
    by (apply N.div_str_pos; split; [lia|]; apply N.div_le_lower_bound; [lia|];
        apply N.div_le_lower_bound; lia).
  assert (E0 : ((((x / 10) / 10) / 10) / 10 = 0)%N).
  { rewrite !N.Div0.div_div. apply N.div_small. lia. }
  rewrite E0, pretty_N_go_0.
  destruct (pretty_char_digit (x mod 10)%N) as [D4 V4]; [apply N.mod_lt; lia|].
  destruct (pretty_char_digit ((x / 10) mod 10)%N) as [D3 V3]; [apply N.mod_lt; lia|].
  destruct (pretty_char_digit (((x / 10) / 10) mod 10)%N) as [D2 V2];
    [apply N.mod_lt; lia|].
  destruct (pretty_char_digit ((((x / 10) / 10) / 10) mod 10)%N) as [D1 V1];
    [apply N.mod_lt; lia|].
  eexists _, _, _, _. split; [reflexivity|]. repeat (split; [assumption|]).
  unfold parse_digits. cbn [digits_value]. rewrite D1, D2, D3, D4, V1, V2, V3, V4.
  f_equal.
  pose proof (N.div_mod x 10). pose proof (N.div_mod (x / 10)%N 10).
  pose proof (N.div_mod ((x / 10) / 10)%N 10).
  pose proof (N.div_mod (((x / 10) / 10) / 10)%N 10).
  lia.
Qed.

Lemma digit_not_space (c : ascii) : is_digit c = true -> is_space c = false.
Proof. destruct c as [[] [] [] [] [] [] [] []]; try discriminate; reflexivity. Qed.

(** [strptime] reads back what [strftime] wrote. *)
Lemma strptime_strftime (ym : Z * Z) :
  valid_month ym -> strptime_B_Y (month_text ym) = Returns ym.
Proof.
  destruct ym as [y m]. intros [Hy Hm]. cbn [fst snd] in *.
  destruct (year_text y Hy) as (d1 & d2 & d3 & d4 & HP & D1 & D2 & D3 & D4 & Hparse).
  unfold strptime_B_Y, month_text. cbn [fst snd]. rewrite HP in *.
  set (P := String d1 (String d2 (String d3 (String d4 "")))) in *.
  assert (Hfind : find_month [1; 2; 3; 4; 5; 6; 7; 8; 9; 10; 11; 12]
                    (month_name m ++ " " ++ P) = Some (m, String " " P)).
  { assert (E : m = 1 \/ m = 2 \/ m = 3 \/ m = 4 \/ m = 5 \/ m = 6 \/ m = 7 \/ m = 8
                \/ m = 9 \/ m = 10 \/ m = 11 \/ m = 12) by lia.
    unfold P.
    repeat (destruct E as [->|E]; [vm_compute; reflexivity|]). subst m.
    vm_compute; reflexivity. }
  rewrite Hfind. cbv zeta.
  assert (Hl : lstrip (String " " P) = P).
  { cbn [lstrip]. change (is_space " ") with true. cbv iota. unfold P. cbn [lstrip].
    now rewrite (digit_not_space d1 D1). }
  rewrite Hl. change (String.length (String " " P)) with 5%nat.
  change (String.length P) with 4%nat. cbn [Nat.ltb Nat.leb Nat.eqb andb].
  rewrite Hparse. destruct (1 <=? y) eqn:E; [reflexivity|]. apply Z.leb_gt in E. lia.
Qed.

Lemma month_text_inj (a b : Z * Z) :
  valid_month a -> valid_month b -> month_text a = month_text b -> a = b.
Proof.
  intros Ha Hb E. pose proof (strptime_strftime a Ha) as H1.
  rewrite E, (strptime_strftime b Hb) in H1. congruence.
Qed.

Lemma strftime_month_text (ns : Z) : strftime_B_Y ns = month_text (year_month ns).
Proof.
  unfold strftime_B_Y, month_text, year_month.
  now destruct (civil_from_days (dt_date ns)) as [[y m] d].
Qed.

Lemma civil_month_range (z : Z) : 1 <= snd (fst (civil_from_days z)) <= 12.
Proof.
  unfold civil_from_days. cbv zeta. cbn [fst snd].
  destruct ((5 * _ + 2) / 153 <? 10) eqn:E.
  - apply Z.ltb_lt in E. Z.to_euclidean_division_equations; lia.
  - apply Z.ltb_ge in E. Z.to_euclidean_division_equations; lia.
Qed.

Lemma civil_year_range (z : Z) :
  -106752 <= z <= 106751 -> 1677 <= fst (fst (civil_from_days z)) <= 2262.
Proof.
  intros H. unfold civil_from_days. cbv zeta. cbn [fst snd].
  destruct ((5 * _ + 2) / 153 <? 10) eqn:E.
  - apply Z.ltb_lt in E.
    destruct (_ <=? 2) eqn:E2; [apply Z.leb_le in E2|apply Z.leb_gt in E2];
      Z.to_euclidean_division_equations; lia.
  - apply Z.ltb_ge in E.
    destruct (_ <=? 2) eqn:E2; [apply Z.leb_le in E2|apply Z.leb_gt in E2];
      Z.to_euclidean_division_equations; lia.
Qed.

Lemma year_month_valid (ns : Z) : int64 ns -> valid_month (year_month ns).
Proof.
  intros H. unfold valid_month, year_month.
  assert (Hd : -106752 <= dt_date ns <= 106751).
  { unfold int64 in H. unfold dt_date, ns_per_day.
    change (2 ^ 63) with 9223372036854775808 in H.
    Z.to_euclidean_division_equations; lia. }
  pose proof (civil_year_range _ Hd). pose proof (civil_month_range (dt_date ns)).
  destruct (civil_from_days (dt_date ns)) as [[y m] d]. cbn [fst snd] in *. lia.
Qed.

Lemma keyed_labels (yms : list (Z * Z)) :
  Forall valid_month yms ->
  keyed (map (fun ym => Some (month_text ym)) yms)
  = Returns (map (fun ym => (ym, month_text ym)) yms).
Proof.
  induction 1 as [|ym yms Hym _ IH]; [reflexivity|].
  cbn [map keyed]. rewrite (strptime_strftime ym Hym), IH. reflexivity.
Qed.

Lemma keyed_missing (l : list (option string)) :
  (forall x, In (Some x) l -> exists ym, valid_month ym /\ x = month_text ym) ->
  In None l -> keyed l = Raises TypeError.
Proof.
  induction l as [|e l IH]; intros Hl Hn; [destruct Hn|].
  destruct e as [x|]; [|reflexivity]. cbn [keyed].
  destruct (Hl x (or_introl eq_refl)) as (ym & Hym & ->).
  rewrite (strptime_strftime ym Hym). cbn [bind].
  rewrite IH; [reflexivity| |].
  - intros x Hx. apply Hl. now right.
  - destruct Hn as [Hn|Hn]; [discriminate|exact Hn].
Qed.

Lemma month_labels (data : Frame) :
  texts (map month_label (col "Today's Date" data))
  = map (fun r : Row => option_map strftime_B_Y (date_key r)) data.
Proof.
  unfold texts, col, date_key. rewrite !List.map_map. apply List.map_ext. intros r.
  now destruct (r !!! "Today's Date").
Qed.

Lemma ym_le_total (a b : Z * Z) : ym_le a b = true \/ ym_le b a = true.
Proof.
  unfold ym_le. destruct a as [y m], b as [y' m']. cbn [fst snd].
  rewrite !orb_true_iff, !andb_true_iff, !Z.ltb_lt, !Z.eqb_eq, !Z.leb_le. lia.
Qed.

Lemma ym_le_trans (a b c : Z * Z) :
  ym_le a b = true -> ym_le b c = true -> ym_le a c = true.
Proof.
  unfold ym_le. destruct a as [y m], b as [y' m'], c as [y'' m'']. cbn [fst snd].
  rewrite !orb_true_iff, !andb_true_iff, !Z.ltb_lt, !Z.eqb_eq, !Z.leb_le. lia.
Qed.

Lemma ym_le_lt (a b : Z * Z) : ym_le a b = true -> a <> b -> ym_lt a b.
Proof.
  unfold ym_le, ym_lt. destruct a as [y m], b as [y' m']. cbn [fst snd].
  rewrite !orb_true_iff, !andb_true_iff, !Z.ltb_lt, !Z.eqb_eq, !Z.leb_le.
  intros H Hne.
  assert (m <> m' \/ y <> y') by (destruct (Z.eq_dec m m'); [right|left]; congruence).
  lia.
Qed.

Lemma StronglySorted_strict {A} (R S : A -> A -> Prop) (l : list A) :
  (forall a b, R a b -> a <> b -> S a b) ->
  StronglySorted R l -> List.NoDup l -> StronglySorted S l.
Proof.
  intros HRS Hs. induction Hs as [|a l Hs IH Hall]; intros Hnd; [constructor|].
  inversion Hnd as [|? ? Ha Hnd']; subst. constructor; [now apply IH|].
  apply List.Forall_forall. intros b Hb. apply HRS.
  - exact (proj1 (List.Forall_forall _ _) Hall b Hb).
  - intros ->. contradiction.
Qed.

Lemma labels_of (yml : list (Z * Z)) (U : list string) :
  (forall x, In x U -> exists ym, In ym yml /\ x = month_text ym) ->
  exists ums, U = map month_text ums /\ forall ym, In ym ums -> In ym yml.
Proof.
  induction U as [|x U IH]; intros H; [now exists []|].
  destruct IH as (ums & -> & Hums); [intros; apply H; now right|].
  destruct (H x (or_introl eq_refl)) as (ym & Hym & ->).
  exists (ym :: ums). split; [reflexivity|]. intros ym' [<-|H']; auto.
Qed.

Lemma omap_all {A B} (f : A -> option B) (l : list A) :
  (forall a, In a l -> f a <> None) ->
  map f l = map Some (omap f l).
Proof.
  induction l as [|a l IH]; intros H; [reflexivity|].
  change (omap f (a :: l)) with (match f a with Some b => b :: omap f l | None => omap f l end).
  cbn [map]. destruct (f a) as [b|] eqn:E.
  - cbn [map]. rewrite IH; [reflexivity|]. intros; apply H; now right.
  - exfalso. now apply (H a (or_introl eq_refl)).
Qed.

Lemma omap_In {A B} (f : A -> option B) (l : list A) (b : B) :
  In b (omap f l) <-> exists a, In a l /\ f a = Some b.
Proof.
  induction l as [|a l IH].
  - split; [intros []|intros (a & [] & _)].
  - change (omap f (a :: l)) with (match f a with Some b => b :: omap f l | None => omap f l end).
    split.
    + destruct (f a) as [b'|] eqn:E.
      * intros [<-|H]; [exists a; split; [now left|exact E]|].
        apply IH in H as (a' & Ha' & Hf). exists a'. split; [now right|exact Hf].
      * intros H. apply IH in H as (a' & Ha' & Hf). exists a'. split; [now right|exact Hf].
    + intros (a' & [<-|Ha'] & Hf).
      * rewrite Hf. now left.
      * assert (In b (omap f l)) by (apply IH; now exists a').
        destruct (f a); [now right|assumption].
Qed.

(** X9.  The month list of the month view.  With the timestamps pandas can
    hold: when a date of the dataset is missing, building the list raises
    [TypeError]; when every record is dated, the list has the label of each
    month that has a record, once, the months in chronological order, and
    selecting a listed month gives a selection that is not empty. *)
Theorem month_options_chronological (data : Frame) :
  (forall r ns, In r data -> date_key r = Some ns -> int64 ns) ->
  ((exists r, In r data /\ date_key r = None) -> month_options data = Raises TypeError)
  /\ ((forall r, In r data -> date_key r <> None) ->
      exists months,
        month_options data = Returns (map month_text months)
        /\ StronglySorted ym_lt months
        /\ (forall ym, In ym months <->
                       exists r ns, In r data /\ date_key r = Some ns /\ year_month ns = ym)
        /\ forall ym, In ym months -> filterByMonth data (month_text ym) <> []).
Proof.
  intros Hrange. unfold month_options. rewrite month_labels.
  set (labels := map (fun r : Row => option_map strftime_B_Y (date_key r)) data).
  assert (Hlabel : forall x, In (Some x) labels ->
                     exists ym, valid_month ym /\ x = month_text ym
                                /\ exists r ns, In r data /\ date_key r = Some ns
                                                /\ year_month ns = ym).
  { intros x Hx. unfold labels in Hx. apply List.in_map_iff in Hx as (r & Hr & Hin).
    destruct (date_key r) as [ns|] eqn:Hd; [|discriminate]. injection Hr as <-.
    exists (year_month ns). split; [apply year_month_valid, (Hrange r ns Hin Hd)|].
    split; [apply strftime_month_text|]. now exists r, ns. }
  split.
  - intros (r & Hr & Hd). rewrite keyed_missing; [reflexivity| |].
    + intros x Hx. apply (proj1 (unique_text_In _ _)) in Hx.
      destruct (Hlabel x Hx) as (ym & Hym & -> & _). now exists ym.
    + apply unique_text_In. unfold labels. apply List.in_map_iff. exists r.
      now rewrite Hd.
  - intros Hall.
    set (stamps := omap date_key data).
    set (yml := map year_month stamps).
    assert (Hyml : forall ym, In ym yml <->
                     exists r ns, In r data /\ date_key r = Some ns /\ year_month ns = ym).
    { intros ym. unfold yml, stamps. rewrite List.in_map_iff. split.
      - intros (ns & <- & Hns). apply omap_In in Hns as (r & Hr & Hd). now exists r, ns.
      - intros (r & ns & Hr & Hd & <-). exists ns. split; [reflexivity|].
        apply omap_In. now exists r. }
    assert (Hvalid : forall ym, In ym yml -> valid_month ym).
    { intros ym Hym. apply Hyml in Hym as (r & ns & Hr & Hd & <-).
      apply year_month_valid, (Hrange r ns Hr Hd). }
    assert (Hl : labels = map Some (map month_text yml)).
    { unfold labels, yml, stamps.
      transitivity (map (option_map strftime_B_Y) (map date_key data));
        [now rewrite List.map_map|].
      rewrite (omap_all date_key data Hall), !List.map_map.
      apply List.map_ext. intros ns. cbn [option_map]. now rewrite strftime_month_text. }
    rewrite Hl, unique_text_strings.
    set (U := unique (map month_text yml)).
    destruct (labels_of yml U) as (ums & HU & Hums).
    { intros x Hx. apply (proj1 (unique_In _ _)) in Hx. apply List.in_map_iff in Hx as (ym & <- & Hym).
      now exists ym. }
    assert (Hnd : List.NoDup ums).
    { apply (List.NoDup_map_inv month_text). rewrite <- HU. apply unique_NoDup. }
    assert (Hv : Forall valid_month ums).
    { apply List.Forall_forall. intros ym Hym. apply Hvalid, Hums, Hym. }
    rewrite HU, List.map_map, (keyed_labels ums Hv). cbn [bind].
    set (K := map (fun ym => (ym, month_text ym)) ums).
    set (le := fun a b : Z * Z * string => ym_le (fst a) (fst b)).
    assert (Hperm : Permutation (sort_by le K) K) by apply sort_by_perm.
    assert (Hpairs : forall p, In p (sort_by le K) -> snd p = month_text (fst p)).
    { intros p Hp. apply (Permutation_in _ Hperm) in Hp. unfold K in Hp.
      apply List.in_map_iff in Hp as (ym & <- & _). reflexivity. }
    assert (Hfst : Permutation (map fst (sort_by le K)) ums).
    { etransitivity; [apply (Permutation_map fst Hperm)|]. unfold K.
      rewrite List.map_map. cbn [fst]. now rewrite List.map_id. }
    exists (map fst (sort_by le K)). split; [|split; [|split]].
    + f_equal. rewrite List.map_map. apply List.map_ext_in. intros p Hp. now apply Hpairs.
    + apply (StronglySorted_strict (fun a b => ym_le a b = true)).
      * intros a b. apply ym_le_lt.
      * eapply (StronglySorted_map (fun a b : Z * Z * string => le a b = true)).
        -- intros a b H. exact H.
        -- apply sort_by_sorted; unfold le.
           ++ intros a b. apply ym_le_total.
           ++ intros a b c. apply ym_le_trans.
      * apply (Permutation_NoDup (Permutation_sym Hfst) Hnd).
    + intros ym. rewrite <- Hyml. split.
      * intros H. apply Hums. exact (Permutation_in _ Hfst H).
      * intros H. apply (Permutation_in _ (Permutation_sym Hfst)).
        assert (Hx : In (month_text ym) U) by (apply unique_In; now apply List.in_map).
        rewrite HU in Hx. apply List.in_map_iff in Hx as (ym' & E & Hym').
        rewrite <- (month_text_inj ym' ym); auto.
    + intros ym Hym. apply (Permutation_in _ Hfst), Hums, Hyml in Hym.
      destruct Hym as (r & ns & Hr & Hd & <-). intros E.
      assert (Hin : In r (filterByMonth data (month_text (year_month ns)))).
      { apply List.filter_In. split; [exact Hr|]. unfold date_key in Hd.
        destruct (r !!! "Today's Date"); try discriminate. injection Hd as ->.
        cbn [month_eq]. rewrite strftime_month_text. apply String.eqb_refl. }
      rewrite E in Hin. destruct Hin.
Qed.

Lemma month_options_chronological_witness :
  exists months,
    month_options trajectory_example = Returns (map month_text months)
    /\ StronglySorted ym_lt months.
Proof.
  assert (Hrange : forall r ns, In r trajectory_example -> date_key r = Some ns -> int64 ns).
  { intros r ns Hr Hd. unfold trajectory_example in Hr.
    repeat (destruct Hr as [<-|Hr];
            [vm_compute in Hd; injection Hd as <-; vm_compute; split;
             [discriminate|reflexivity]|]).
    destruct Hr. }
  assert (Hall : forall r, In r trajectory_example -> date_key r <> None).
  { intros r Hr. unfold trajectory_example in Hr.
    repeat (destruct Hr as [<-|Hr]; [vm_compute; discriminate|]). destruct Hr. }
  destruct (month_options_chronological trajectory_example Hrange) as [_ H].
  destruct (H Hall) as (months & H1 & H2 & _).
  exists months. exact (conj H1 H2).
Defined.

(** X13.  For the timestamps pandas can hold, [strptime] with ['%B %Y'] reads
    back the year and the month of the label that [strftime] wrote with the
    same format.  So two timestamps have the same label exactly when they
    fall in the same month of the same year, and the month filter keeps a
    record exactly when it falls in the month that was chosen. *)
Theorem month_label_round_trip (ns ns' : Z) :
  int64 ns -> int64 ns' ->
  strptime_B_Y (strftime_B_Y ns) = Returns (year_month ns)
  /\ (strftime_B_Y ns = strftime_B_Y ns' <-> year_month ns = year_month ns')
  /\ (month_eq (Stamp ns') (strftime_B_Y ns) = true <-> year_month ns' = year_month ns).
Proof.
  intros H H'. pose proof (year_month_valid ns H) as Hv.
  pose proof (year_month_valid ns' H') as Hv'.
  rewrite !strftime_month_text. split; [now apply strptime_strftime|].
  assert (Hiff : month_text (year_month ns) = month_text (year_month ns')
                 <-> year_month ns = year_month ns').
  { split; [now apply month_text_inj|now intros ->]. }
  split; [exact Hiff|].
  cbn [month_eq]. rewrite String.eqb_eq, strftime_month_text. split.
  - intros E. symmetry. now apply Hiff.
  - intros E. now rewrite E.
Qed.

Lemma month_label_round_trip_witness :
  strptime_B_Y (strftime_B_Y (midnight 2024 1 5)) = Returns (2024, 1).
Proof.
  assert (H : int64 (midnight 2024 1 5)) by (vm_compute; split; [discriminate|reflexivity]).
  assert (H' : int64 (midnight 2024 2 1)) by (vm_compute; split; [discriminate|reflexivity]).
  destruct (month_label_round_trip (midnight 2024 1 5) (midnight 2024 2 1) H H') as [E _].
  exact E.
Defined.

(** ** The stock card *)

Section StockCardFacts.
Variable py_float : string -> option pyfloat.
Variable str_of_num : Q -> string.
Variable str_of_stamp : Z -> string.

Lemma format_number_cell (c : cell) :
  exists s, format_number py_float (pyval_of_cell c) = Returns s.
Proof.
  destruct c as [| |q|s|ns].
  - cbn; eauto.
  - cbn; eauto.
  - apply format_number_pyfloat.
  - cbn [pyval_of_cell]. unfold format_number. cbn [pd_isna to_float].
    destruct (py_float _) as [f|]; [|cbn; eauto].
    destruct (format_number_pyfloat py_float f) as [r Hr]. unfold format_number in Hr.
    destruct f as [|negative|q]; cbn in Hr; cbn; eauto.
  - cbn; eauto.
Qed.

Lemma metric_value_cell (c : cell) : exists s, metric_value py_float c = Returns s.
Proof.
  destruct c as [| |q|s|ns].
  - cbn; eauto.
  - cbn; eauto.
  - apply format_metric_value_float.
  - cbn [metric_value pyval_of_cell]. unfold format_metric_value. cbn [pd_isna to_float].
    destruct (py_float _) as [f|]; [|cbn; eauto].
    cbn [bind]. apply py_format_float.
  - cbn; eauto.
Qed.

Lemma metric_value_missing (row : Row) (c : string) :
  py_float "N/A" = None -> absent_or_missing row c ->
  metric_value py_float (get_or_na row c) = Returns "N/A"%string
  /\ format_number py_float (pyval_of_cell (get_or_na row c)) = Returns "N/A"%string.
Proof.
  intros Hna [H|(v & H & Hv)]; unfold get_or_na; rewrite H.
  - cbn [metric_value pyval_of_cell]. unfold format_metric_value, format_number.
    cbn [pd_isna to_float]. change (strip (remove "," (remove rupee "N/A"))) with "N/A"%string.
    rewrite Hna. now split.
  - destruct v; try discriminate; now split.
Qed.

Lemma create_stock_card_run (row : Row) (chg sym ser ltp : cell) :
  row !! "%chng" = Some chg -> row !! "Symbol" = Some sym ->
  row !! "Series Type" = Some ser -> row !! "LTP" = Some ltp ->
  exists price cap pe roe dy roce,
    format_number py_float (pyval_of_cell ltp) = Returns price
    /\ format_number py_float (pyval_of_cell (get_or_na row "Market Cap")) = Returns cap
    /\ metric_value py_float (get_or_na row "P/E Ratio") = Returns pe
    /\ metric_value py_float (get_or_na row "ROE") = Returns roe
    /\ metric_value py_float (get_or_na row "Dividend Yield") = Returns dy
    /\ metric_value py_float (get_or_na row "ROCE") = Returns roce
    /\ create_stock_card py_float str_of_num str_of_stamp row
       = let* change := change_box chg in
         let* days := getitem row "Days Since High" in
         let* v := metric_value py_float days in
         Returns
           {| card_link :=
                ("https://www.screener.in/company/" ++ py_str str_of_num str_of_stamp sym)%string;
              card_symbol := py_str str_of_num str_of_stamp sym;
              card_series := py_str str_of_num str_of_stamp ser;
              card_sector := py_str str_of_num str_of_stamp (get_or_na row "Sector");
              card_industry := py_str str_of_num str_of_stamp (get_or_na row "Industry");
              card_price := price;
              card_price_color := fst change;
              card_change := snd change;
              card_metrics :=
                [ {| metric_label := "Market Cap"; metric_color := "#A5B4FC";
                     metric_trend_color := "white"; metric_text := (cap ++ "" ++ " " ++ "")%string |};
                  {| metric_label := "Days Since High"; metric_color := "#BAE6FD";
                     metric_trend_color := "white"; metric_text := (v ++ "" ++ " " ++ "")%string |};
                  {| metric_label := "Stock P/E"; metric_color := "#93C5FD";
                     metric_trend_color := "white"; metric_text := (pe ++ "" ++ " " ++ "")%string |};
                  {| metric_label := "ROE"; metric_color := "#FDA4AF";
                     metric_trend_color := "white";
                     metric_text := (roe ++ (" " ++ "%") ++ " " ++ "")%string |};
                  {| metric_label := "Dividend Yield"; metric_color := "#FCA5A5";
                     metric_trend_color := "white";
                     metric_text := (dy ++ (" " ++ "%") ++ " " ++ "")%string |};
                  {| metric_label := "ROCE"; metric_color := "#FDBA74";
                     metric_trend_color := "white";
                     metric_text := (roce ++ (" " ++ "%") ++ " " ++ "")%string |} ];
              card_about := about_section str_of_num str_of_stamp row |}.
Proof.
  intros H1 H2 H3 H4.
  destruct (format_number_cell ltp) as [price Hprice].
  destruct (format_number_cell (get_or_na row "Market Cap")) as [cap Hcap].
  destruct (metric_value_cell (get_or_na row "P/E Ratio")) as [pe Hpe].
  destruct (metric_value_cell (get_or_na row "ROE")) as [roe Hroe].
  destruct (metric_value_cell (get_or_na row "Dividend Yield")) as [dy Hdy].
  destruct (metric_value_cell (get_or_na row "ROCE")) as [roce Hroce].
  exists price, cap, pe, roe, dy, roce. repeat (split; [assumption|]).
  unfold create_stock_card, getitem at 1 2 3 4 5 6. rewrite H1, H2, H3, H4. cbn [bind].
  rewrite Hprice. cbn [bind]. destruct (change_box chg) as [change|e]; [|reflexivity].
  cbn [bind]. rewrite Hcap. cbn [bind create_metric_container trend_color trend_icon truthy].
  destruct (getitem row "Days Since High") as [days|e]; [|reflexivity]. cbn [bind].
  destruct (metric_value py_float days) as [v|e]; [|reflexivity].
  cbn [bind create_metric_container trend_color trend_icon truthy].
  rewrite Hpe. cbn [bind create_metric_container trend_color trend_icon truthy].
  rewrite Hroe. cbn [bind create_metric_container trend_color trend_icon truthy].
  rewrite Hdy. cbn [bind create_metric_container trend_color trend_icon truthy].
  rewrite Hroce. cbn [bind create_metric_container trend_color trend_icon truthy].
  reflexivity.
Qed.
End StockCardFacts.

(** X10.  A stock card needs the columns [%chng], [Symbol], [Series Type],
    [LTP] and [Days Since High]: without one of them [create_stock_card]
    raises [KeyError], and with a change that is no number it raises
    [TypeError]; the other columns have the default ["N/A"].  When the card is
    built, the sector reads ["N/A"] when the row has no such column but
    ["nan"] when the column is there and the value missing; a missing change
    is shown in red as ["+nan%  ↓"]; and a metric whose column is absent or
    whose value is missing reads ["N/A"], followed by its unit. *)
Theorem create_stock_card_fields
    (py_float : string -> option pyfloat) (str_of_num : Q -> string)
    (str_of_stamp : Z -> string) (row : Row) :
  py_float "N/A" = None ->
  let card := create_stock_card py_float str_of_num str_of_stamp row in
  let first_four := ["%chng"; "Symbol"; "Series Type"; "LTP"]%string in
  ((exists c, In c first_four /\ row !! c = None) -> card = Raises KeyError)
  /\ ((forall c, In c first_four -> row !! c <> None) ->
      (forall v, row !! "%chng" = Some v -> ~ is_number_or_missing v) ->
      card = Raises TypeError)
  /\ ((forall c, In c first_four -> row !! c <> None) ->
      (exists v, row !! "%chng" = Some v /\ is_number_or_missing v) ->
      row !! "Days Since High" = None ->
      card = Raises KeyError)
  /\ ((forall c, In c card_columns -> row !! c <> None) ->
      (exists v, row !! "%chng" = Some v /\ is_number_or_missing v) ->
      exists k,
        card = Returns k
        /\ card_symbol k = py_str str_of_num str_of_stamp (row !!! "Symbol")
        /\ card_link k = ("https://www.screener.in/company/" ++ card_symbol k)%string
        /\ (row !! "Sector" = None -> card_sector k = "N/A"%string)
        /\ (row !! "Sector" = Some NaN -> card_sector k = "nan"%string)
        /\ (row !! "%chng" = Some NaN ->
            card_price_color k = "#EF4444"%string /\ card_change k = "+nan%  ↓"%string)
        /\ map metric_label (card_metrics k)
           = ["Market Cap"; "Days Since High"; "Stock P/E"; "ROE"; "Dividend Yield"; "ROCE"]%string
        /\ forall c label unit,
             In (c, label, unit) optional_metrics -> absent_or_missing row c ->
             exists m, In m (card_metrics k) /\ metric_label m = label
                       /\ metric_text m
                          = ("N/A" ++ (if truthy unit then " " ++ unit else "") ++ " ")%string).
Proof.
  intros Hna. cbv zeta.
  assert (Hfour : (forall c, In c ["%chng"; "Symbol"; "Series Type"; "LTP"]%string ->
                             row !! c <> None) ->
                  exists chg sym ser ltp,
                    row !! "%chng" = Some chg /\ row !! "Symbol" = Some sym
                    /\ row !! "Series Type" = Some ser /\ row !! "LTP" = Some ltp).
  { intros H.
    destruct (row !! "%chng") as [chg|] eqn:H1; [|now destruct (H "%chng"%string); cbn; auto].
    destruct (row !! "Symbol") as [sym|] eqn:H2; [|now destruct (H "Symbol"%string); cbn; auto].
    destruct (row !! "Series Type") as [ser|] eqn:H3;
      [|now destruct (H "Series Type"%string); cbn; auto].
    destruct (row !! "LTP") as [ltp|] eqn:H4; [|now destruct (H "LTP"%string); cbn; auto].
    now exists chg, sym, ser, ltp. }
  split; [|split; [|split]].
  - intros (c & Hc & Hnone). unfold create_stock_card, getitem.
    destruct (row !! "%chng") as [chg|] eqn:H1; [|reflexivity]. cbn [bind].
    destruct (row !! "Symbol") as [sym|] eqn:H2; [|reflexivity]. cbn [bind].
    destruct (row !! "Series Type") as [ser|] eqn:H3; [|reflexivity]. cbn [bind].
    destruct (row !! "LTP") as [ltp|] eqn:H4; [|reflexivity].
    exfalso. cbn [In] in Hc. destruct Hc as [<-|[<-|[<-|[<-|[]]]]]; congruence.
  - intros Hall Hbad. destruct (Hfour Hall) as (chg & sym & ser & ltp & H1 & H2 & H3 & H4).
    destruct (create_stock_card_run py_float str_of_num str_of_stamp row _ _ _ _ H1 H2 H3 H4)
      as (price & cap & pe & roe & dy & roce & _ & _ & _ & _ & _ & _ & ->).
    specialize (Hbad chg H1). unfold is_number_or_missing in Hbad.
    destruct chg as [| |q|s|ns]; try reflexivity; exfalso; apply Hbad; eauto.
  - intros Hall (v & Hv & Hnum) Hdays.
    destruct (Hfour Hall) as (chg & sym & ser & ltp & H1 & H2 & H3 & H4).
    destruct (create_stock_card_run py_float str_of_num str_of_stamp row _ _ _ _ H1 H2 H3 H4)
      as (price & cap & pe & roe & dy & roce & _ & _ & _ & _ & _ & _ & ->).
    assert (chg = v) by congruence. subst v. unfold getitem. rewrite Hdays.
    destruct Hnum as [->|[q ->]]; reflexivity.
  - intros Hall (v & Hv & Hnum).
    assert (Hall4 : forall c, In c ["%chng"; "Symbol"; "Series Type"; "LTP"]%string ->
                              row !! c <> None).
    { intros c Hc. apply Hall. unfold card_columns. cbn [In] in *. intuition. }
    destruct (Hfour Hall4) as (chg & sym & ser & ltp & H1 & H2 & H3 & H4).
    destruct (create_stock_card_run py_float str_of_num str_of_stamp row _ _ _ _ H1 H2 H3 H4)
      as (price & cap & pe & roe & dy & roce & _ & Hcap & Hpe & Hroe & Hdy & Hroce & ->).
    assert (chg = v) by congruence. subst v.
    destruct (row !! "Days Since High") as [days|] eqn:H5;
      [|exfalso; apply (Hall "Days Since High"%string); [do 4 right; now left|exact H5]].
    unfold getitem. rewrite H5.
    destruct (metric_value_cell py_float days) as [dv Hdv].
    assert (Hchange : exists change, change_box chg = Returns change
                        /\ (chg = NaN -> change = ("#EF4444", "+nan%  ↓")%string)).
    { destruct Hnum as [->|[q ->]]; eexists; (split; [reflexivity|]); [reflexivity|discriminate]. }
    destruct Hchange as (change & -> & Hnan). cbn [bind]. rewrite Hdv. cbn [bind].
    eexists. split; [reflexivity|]. cbn [card_symbol card_link card_sector card_price_color
                                          card_change card_metrics map metric_label].
    split; [now rewrite (lookup_total_correct _ _ _ H2)|].
    split; [reflexivity|].
    split; [intros E; unfold get_or_na; now rewrite E|].
    split; [intros E; unfold get_or_na; now rewrite E|].
    split; [intros E; assert (chg = NaN) by congruence; now rewrite (Hnan H)|].
    split; [reflexivity|].
    intros c label unit Hin Hmiss. unfold optional_metrics in Hin. cbn [In] in Hin.
    destruct (metric_value_missing py_float row c Hna Hmiss) as [Hm Hf].
    destruct Hin as [E|[E|[E|[E|[E|[]]]]]]; injection E as <- <- <-.
    + eexists. split; [left; reflexivity|]. split; [reflexivity|].
      cbn [metric_text]. assert (cap = "N/A"%string) by congruence. now subst.
    + eexists. split; [right; right; left; reflexivity|]. split; [reflexivity|].
      cbn [metric_text]. assert (pe = "N/A"%string) by congruence. now subst.
    + eexists. split; [do 3 right; left; reflexivity|]. split; [reflexivity|].
      cbn [metric_text]. assert (roe = "N/A"%string) by congruence. now subst.
    + eexists. split; [do 4 right; left; reflexivity|]. split; [reflexivity|].
      cbn [metric_text]. assert (dy = "N/A"%string) by congruence. now subst.
    + eexists. split; [do 5 right; left; reflexivity|]. split; [reflexivity|].
      cbn [metric_text]. assert (roce = "N/A"%string) by congruence. now subst.
Qed.

Lemma create_stock_card_fields_witness :
  exists k,
    create_stock_card decimal_float plain_repr pretty card_example = Returns k
    /\ card_sector k = "nan"%string
    /\ card_change k = "+nan%  ↓"%string.
Proof.
  assert (Hall : forall c, In c card_columns -> card_example !! c <> None).
  { intros c Hc. unfold card_columns in Hc. cbn [In] in Hc.
    destruct Hc as [<-|[<-|[<-|[<-|[<-|[]]]]]]; vm_compute; discriminate. }
  assert (Hchg : exists v, card_example !! "%chng" = Some v /\ is_number_or_missing v).
  { exists NaN. split; [vm_compute; reflexivity|now left]. }
  destruct (create_stock_card_fields decimal_float plain_repr pretty card_example eq_refl)
    as (_ & _ & _ & H).
  destruct (H Hall Hchg) as (k & Hk & _ & _ & _ & Hsector & Hchange & _).
  exists k. split; [exact Hk|]. split.
  - apply Hsector. vm_compute. reflexivity.
  - apply Hchange. vm_compute. reflexivity.
Defined.

(** ** The cards of the specific-date view *)

Lemma first_absent (c : string) (g : Frame) :
  (forall r, In r g -> r !! c = None) -> first g !! c = None.
Proof.
  induction g as [|r g IH]; intros H; [apply lookup_empty|].
  rewrite first_cons, lookup_union_with, (H r (or_introl eq_refl)), IH; [reflexivity|].
  intros r' Hr'. apply H. now right.
Qed.

Lemma first_present (c : string) (g : Frame) (v : cell) :
  first g !! c = Some v -> exists r, In r g /\ r !! c = Some v.
Proof.
  induction g as [|r g IH]; intros H.
  { unfold first in H. cbn [foldr] in H. now rewrite lookup_empty in H. }
  rewrite first_cons, lookup_union_with in H.
  destruct (r !! c) as [a|] eqn:Ha, (first g !! c) as [b|] eqn:Hb; cbn in H.
  - unfold first_valid in H. injection H as <-. destruct (isna a).
    + destruct (IH eq_refl) as (r' & Hr' & Hv). exists r'. split; [now right|exact Hv].
    + exists r. split; [now left|exact Ha].
  - injection H as <-. exists r. split; [now left|exact Ha].
  - injection H as <-. destruct (IH eq_refl) as (r' & Hr' & Hv).
    exists r'. split; [now right|exact Hv].
  - discriminate.
Qed.

Lemma latest_row (filtered_data : Frame) (r : Row) :
  In r (get_latest_stock_data filtered_data) ->
  exists g v,
    (forall r', In r' g -> In r' filtered_data)
    /\ r = <["count" := v]> (first g).
Proof.
  unfold get_latest_stock_data. cbv zeta. intros Hr.
  apply (Permutation_in _ (sort_by_perm _ _)) in Hr.
  set (G := groupby_first "Symbol" (sort_by latest_first filtered_data)) in Hr.
  change (col "Symbol" G) with (map (fun r : Row => r !!! "Symbol") G) in Hr.
  rewrite List.map_map in Hr.
  rewrite (assign_map "count" (fun r : Row => map_dict _ (r !!! "Symbol"))) in Hr.
  apply List.in_map_iff in Hr as (g0 & <- & Hg0). unfold G, groupby_first in Hg0.
  apply List.in_map_iff in Hg0 as (key & <- & _).
  eexists _, _. split; [|reflexivity].
  intros r' Hr'. unfold group in Hr'. apply List.filter_In in Hr' as [Hr' _].
  exact (Permutation_in _ (sort_by_perm _ _) Hr').
Qed.

Section LoadedCards.
Variable str_of_num : Q -> string.
Variable parse_number : string -> option Q.
Variable parse_datetime : string -> option Z.

Lemma update_lookup_ne (c c' : string) (f : cell -> cell) (r : Row) :
  c <> c' -> update c f r !! c' = r !! c'.
Proof. intros H. unfold update. now apply lookup_insert_ne. Qed.

Lemma clean_optional_row_lookup (df : DataFrame) (r : Row) (cols : list string) (c : string) :
  ~ In c cols ->
  foldl (clean_optional_row str_of_num parse_number df) r cols !! c = r !! c.
Proof.
  revert r. induction cols as [|c' cols IH]; intros r Hc; [reflexivity|].
  cbn [foldl]. rewrite IH by (intros H; apply Hc; now right).
  unfold clean_optional_row. destruct (has_column c' df); [|reflexivity].
  apply update_lookup_ne. intros ->. apply Hc. now left.
Qed.

Lemma normalize_row_days (df : DataFrame) (r : Row) :
  normalize_row str_of_num parse_number parse_datetime df r !! "Days Since High"
  = r !! "Days Since High".
Proof.
  unfold normalize_row. rewrite !update_lookup_ne by discriminate.
  rewrite clean_optional_row_lookup by (cbn; intuition discriminate).
  rewrite update_lookup_ne by discriminate. now rewrite lookup_insert_ne.
Qed.

Lemma normalize_row_change (df : DataFrame) (r : Row) :
  exists v,
    normalize_row str_of_num parse_number parse_datetime df r !! "%chng" = Some v
    /\ is_number_or_missing v.
Proof.
  exists (clean_percent str_of_num parse_number (r !!! "%chng")).
  split; [|apply to_numeric_number_or_missing].
  unfold normalize_row. rewrite !update_lookup_ne by discriminate.
  rewrite clean_optional_row_lookup by (cbn; intuition discriminate).
  unfold update at 1. rewrite lookup_insert_eq. now rewrite lookup_total_insert_ne.
Qed.
End LoadedCards.

Section CardsFacts.
Variable py_float : string -> option pyfloat.
Variable str_of_num : Q -> string.
Variable str_of_stamp : Z -> string.

Lemma create_stock_card_without_days (row : Row) :
  row !! "Days Since High" = None ->
  (forall v, row !! "%chng" = Some v -> is_number_or_missing v) ->
  create_stock_card py_float str_of_num str_of_stamp row = Raises KeyError.
Proof.
  intros Hdays Hchg. unfold create_stock_card, getitem.
  destruct (row !! "%chng") as [chg|]; [|reflexivity]. cbn [bind].
  destruct (row !! "Symbol") as [sym|]; [|reflexivity]. cbn [bind].
  destruct (row !! "Series Type") as [ser|]; [|reflexivity]. cbn [bind].
  destruct (row !! "LTP") as [ltp|]; [|reflexivity]. cbn [bind].
  destruct (format_number_cell py_float ltp) as [price ->]. cbn [bind].
  destruct (format_number_cell py_float (get_or_na row "Market Cap")) as [cap ->].
  rewrite Hdays.
  destruct (Hchg chg eq_refl) as [->|[q ->]]; reflexivity.
Qed.
End CardsFacts.



(** ** Date ranges *)

Lemma date_range_mask_iff (start_date end_date : Z) (r : Row) :
  date_range_mask start_date end_date r = true <->
  exists ns, date_key r = Some ns /\ start_date <= dt_date ns <= end_date.
Proof.
  unfold date_range_mask, date_ge, date_le, date_key.
  destruct (r !!! "Today's Date") as [| |q|s|ns]; cbn [as_stamp];
    try (split; [discriminate|intros (ns' & [=] & _)]).
  rewrite andb_true_iff, !Z.leb_le. split.
  - intros H. now exists ns.
  - intros (ns' & [= <-] & H). exact H.
Qed.

Lemma filter_filter {A} (p q : A -> bool) (l : list A) :
  List.filter p (List.filter q l) = List.filter (fun x => q x && p x) l.
Proof.
  induction l as [|x l IH]; [reflexivity|]. cbn [List.filter].
  destruct (q x); cbn [List.filter andb]; [destruct (p x)|]; now rewrite IH.
Qed.

Lemma filter_split_length {A} (p q1 q2 : A -> bool) (l : list A) :
  (forall x, p x = q1 x || q2 x) -> (forall x, q1 x && q2 x = false) ->
  length (List.filter p l) = (length (List.filter q1 l) + length (List.filter q2 l))%nat.
Proof.
  intros Hp Hq. induction l as [|x l IH]; [reflexivity|]. cbn [List.filter].
  rewrite Hp. specialize (Hq x).
  destruct (q1 x), (q2 x); try discriminate; cbn [orb length]; lia.
Qed.

(** X12.  The date-range selection keeps, in order, exactly the records
    whose calendar day lies between the two dates, both included; a record
    without a date is never kept.  A range of one day selects what the
    specific-date view selects for that day; narrowing a range inside a
    selection gives the selection of the narrower range; and two adjacent
    ranges share no record and together hold the records of the range they
    make up. *)
Theorem date_range_selection (data : Frame) (start_date end_date : Z) :
  filterByDateRange data start_date end_date = Returns (date_range data start_date end_date)
  /\ (forall r, In r (date_range data start_date end_date) <->
                In r data
                /\ exists ns, date_key r = Some ns /\ start_date <= dt_date ns <= end_date)
  /\ date_range data start_date start_date = filterByExactDate data start_date
  /\ (forall s e, start_date <= s -> e <= end_date ->
        date_range (date_range data start_date end_date) s e = date_range data s e)
  /\ (forall m, start_date <= m + 1 -> m <= end_date ->
        length (date_range data start_date end_date)
        = (length (date_range data start_date m) + length (date_range data (m + 1) end_date))%nat
        /\ forall r, In r (date_range data start_date m) ->
                     ~ In r (date_range data (m + 1) end_date)).
Proof.
  unfold date_range, filterByDateRange.
  split; [reflexivity|]. split; [|split; [|split]].
  - intros r. now rewrite List.filter_In, date_range_mask_iff.
  - unfold filterByExactDate. apply List.filter_ext. intros r.
    unfold date_range_mask, date_ge, date_le, date_eq.
    destruct (r !!! "Today's Date"); try reflexivity.
    destruct (Z.leb_spec start_date (dt_date ns)), (Z.leb_spec (dt_date ns) start_date),
      (Z.eqb_spec (dt_date ns) start_date); cbn [andb]; try reflexivity; lia.
  - intros s e Hs He. rewrite filter_filter. apply List.filter_ext. intros r.
    unfold date_range_mask, date_ge, date_le.
    destruct (r !!! "Today's Date"); try reflexivity.
    destruct (Z.leb_spec start_date (dt_date ns)), (Z.leb_spec (dt_date ns) end_date),
      (Z.leb_spec s (dt_date ns)), (Z.leb_spec (dt_date ns) e);
      cbn [andb]; try reflexivity; lia.
  - intros m Hs He. split.
    + apply filter_split_length; intros r; unfold date_range_mask, date_ge, date_le;
        destruct (r !!! "Today's Date"); try reflexivity;
        destruct (Z.leb_spec start_date (dt_date ns)), (Z.leb_spec (dt_date ns) end_date),
          (Z.leb_spec (m + 1) (dt_date ns)), (Z.leb_spec (dt_date ns) m);
        cbn [andb orb]; try reflexivity; lia.
    + intros r H1 H2. apply List.filter_In in H1 as [_ H1], H2 as [_ H2].
      apply date_range_mask_iff in H1 as (ns & Hd & H1), H2 as (ns' & Hd' & H2).
      assert (ns = ns') by congruence. subst ns'. lia.
Qed.

(** ** The timeline of the search view *)

Lemma desc_date_sorted (df : Frame) :
  StronglySorted latest_date_first (sort_desc_by_date df).
Proof.
  apply (sort_by_sorted (fun r1 r2 : Row => desc_na_last Z.leb (date_key r1) (date_key r2))).
  - intros x y. apply desc_date_total.
  - intros x y z. apply desc_date_trans.
Qed.

Lemma timeline_rows (py_float : string -> option pyfloat) (high_dates : Frame) :
  timeline py_float high_dates
  = map (fun r : Row =>
           <["Change" := change_text (r !!! "%chng")]>
             (<["Price" := price_text py_float (r !!! "LTP")]>
                (<["Date" := date_text (r !!! "Today's Date")]> r)))
        (sort_desc_by_date high_dates).
Proof.
  unfold timeline. cbv zeta. set (S := sort_desc_by_date high_dates).
  change (col "Today's Date" S) with (map (fun r : Row => r !!! "Today's Date") S).
  rewrite List.map_map, (assign_map "Date" (fun r : Row => date_text (r !!! "Today's Date"))).
  set (S1 := map _ S).
  change (col "LTP" S1) with (map (fun r : Row => r !!! "LTP") S1).
  rewrite List.map_map, (assign_map "Price" (fun r : Row => price_text py_float (r !!! "LTP"))).
  set (S2 := map _ S1).
  change (col "%chng" S2) with (map (fun r : Row => r !!! "%chng") S2).
  rewrite List.map_map, (assign_map "Change" (fun r : Row => change_text (r !!! "%chng"))).
  unfold S2, S1. rewrite !List.map_map. apply List.map_ext. intros r.
  now rewrite !lookup_total_insert_ne by discriminate.
Qed.

Lemma NoDup_map_eq {A B} (f : A -> B) (l : list A) (x y : A) :
  List.NoDup (map f l) -> In x l -> In y l -> f x = f y -> x = y.
Proof.
  induction l as [|a l IH]; intros Hnd Hx Hy E; [destruct Hx|].
  cbn [map] in Hnd. inversion Hnd as [|? ? Ha Hnd']; subst.
  destruct Hx as [->|Hx], Hy as [->|Hy]; auto.
  - exfalso. apply Ha. rewrite E. now apply List.in_map.
  - exfalso. apply Ha. rewrite <- E. now apply List.in_map.
Qed.

Lemma sorted_last {A} (R : A -> A -> Prop) (l : list A) (h : A) :
  StronglySorted R l -> last l = Some h -> forall x, In x l -> x = h \/ R x h.
Proof.
  induction 1 as [|a l Hs IH Hall]; intros Hl x Hx; [discriminate|].
  destruct l as [|b l'].
  - cbn in Hl. injection Hl as <-. destruct Hx as [->|[]]. now left.
  - rewrite last_cons_cons in Hl. destruct Hx as [<-|Hx]; [|now apply IH].
    right. apply (proj1 (List.Forall_forall _ _) Hall).
    apply last_Some in Hl as [l'' Hl'']. rewrite Hl''. apply List.in_or_app. right. now left.
Qed.



(** ** The decimals of a formatted value *)

Lemma pretty_N_go_digits (k : nat) :
  forall (x : N) (s : string),
    (x < 10 ^ N.of_nat k)%N ->
    (String.length s <= String.length (pretty_N_go x s) <= k + String.length s)%nat
    /\ ((0 < x)%N -> (String.length s < String.length (pretty_N_go x s))%nat)
    /\ (digits s = true -> digits (pretty_N_go x s) = true).
Proof.
  induction k as [|k IH]; intros x s Hx.
  - assert (x = 0%N) by (cbn in Hx; lia). subst x. rewrite pretty_N_go_0.
    split; [lia|]. split; [lia|auto].
  - destruct (N.eq_dec x 0%N) as [->|Hne].
    + rewrite pretty_N_go_0. split; [lia|]. split; [lia|auto].
    + rewrite pretty_N_go_step by lia.
      assert (Hd : (x / 10 < 10 ^ N.of_nat k)%N).
      { apply N.Div0.div_lt_upper_bound. rewrite Nat2N.inj_succ, N.pow_succ_r' in Hx. lia. }
      destruct (IH (x / 10)%N (String (pretty_N_char (x mod 10)) s) Hd) as (Hlen & _ & Hdig).
      cbn [String.length] in Hlen. split; [lia|]. split; [lia|].
      intros Hs. apply Hdig. cbn [digits].
      destruct (pretty_char_digit (x mod 10)%N) as [-> _]; [apply N.mod_lt; lia|exact Hs].
Qed.

Lemma pretty_digits (z : Z) (k : nat) :
  0 <= z < 10 ^ Z.of_nat k ->
  digits (pretty z) = true /\ pretty z <> ""%string
  /\ (0 < k -> String.length (pretty z) <= k)%nat.
Proof.
  intros Hz. destruct z as [|p|p]; try lia.
  - split; [reflexivity|]. split; [discriminate|]. cbn. lia.
  - change (pretty (Z.pos p)) with (pretty_N_go (N.pos p) "").
    assert (Hp : (N.pos p < 10 ^ N.of_nat k)%N).
    { apply N2Z.inj_lt. rewrite N2Z.inj_pow, nat_N_Z. cbn. lia. }
    destruct (pretty_N_go_digits k (N.pos p) "" Hp) as (Hlen & Hpos & Hdig).
    cbn [String.length] in *. split; [now apply Hdig|]. split; [|lia].
    intros E. rewrite E in Hpos. cbn in Hpos. lia.
Qed.

Lemma exists_power (z : Z) : 0 <= z -> exists k : nat, z < 10 ^ Z.of_nat k.
Proof.
  intros Hz. exists (Z.to_nat z). rewrite Z2Nat.id by exact Hz.
  apply Z.pow_gt_lin_r; lia.
Qed.

Lemma zeros_digits (k : nat) : digits (zeros k) = true /\ String.length (zeros k) = k.
Proof. induction k as [|k [IH1 IH2]]; [now split|]. cbn. now rewrite IH1, IH2. Qed.

Lemma digits_app (a b : string) : digits a = true -> digits b = true -> digits (a ++ b) = true.
Proof.
  intros Ha Hb. induction a as [|c a IH]; [exact Hb|].
  rewrite append_cons. cbn [digits] in *. apply andb_prop in Ha as [-> Ha]. now apply IH.
Qed.

Lemma length_app_string (a b : string) :
  String.length (a ++ b) = (String.length a + String.length b)%nat.
Proof.
  induction a as [|c a IH]; [reflexivity|]. rewrite append_cons. cbn [String.length].
  now rewrite IH.
Qed.

Lemma pad_zeros_digits (width : nat) (s : string) :
  digits s = true -> (String.length s <= width)%nat ->
  digits (pad_zeros width s) = true /\ String.length (pad_zeros width s) = width.
Proof.
  intros Hs Hlen. unfold pad_zeros.
  destruct (zeros_digits (width - String.length s)) as [Hz Hl]. split.
  - now apply digits_app.
  - rewrite length_app_string, Hl. lia.
Qed.

Lemma round_half_even_nonneg (q : Q) : (0 <= q)%Q -> 0 <= round_half_even q.
Proof.
  intros Hq. unfold round_half_even.
  assert (Hn : 0 <= Qnum q) by (unfold Qle in Hq; cbn in Hq; lia).
  assert (Hf : 0 <= Qnum q / Z.pos (Qden q)) by (apply Z.div_pos; lia).
  destruct (2 * (Qnum q mod Z.pos (Qden q)) ?= Z.pos (Qden q)); [|exact Hf|lia].
  destruct (Z.even _); lia.
Qed.

Lemma format_fixed_shape (prec : nat) (q : Q) :
  (0 < prec)%nat ->
  exists whole frac,
    format_fixed false prec q
    = ((if Qle_bool 0 q then "" else "-") ++ whole ++ "." ++ frac)%string
    /\ digits whole = true /\ whole <> ""%string
    /\ digits frac = true /\ String.length frac = prec.
Proof.
  intros Hprec. unfold format_fixed.
  set (scaled := round_half_even (Qabs q * inject_Z (pow10 prec))).
  assert (Hpow : 0 < pow10 prec) by (unfold pow10; apply Z.pow_pos_nonneg; lia).
  assert (Hs : 0 <= scaled).
  { apply round_half_even_nonneg. apply Qmult_le_0_compat; [apply Qabs_nonneg|].
    unfold Qle. cbn. lia. }
  destruct prec as [|p]; [lia|].
  exists (pretty (scaled / pow10 (S p))), (pad_zeros (S p) (pretty (scaled mod pow10 (S p)))).
  split; [reflexivity|].
  destruct (exists_power (scaled / pow10 (S p))) as [k Hk]; [now apply Z.div_pos|].
  destruct (pretty_digits (scaled / pow10 (S p)) k) as (Hw & Hwne & _);
    [split; [now apply Z.div_pos|exact Hk]|].
  split; [exact Hw|]. split; [exact Hwne|].
  pose proof (Z.mod_pos_bound scaled (pow10 (S p)) Hpow) as Hm.
  destruct (pretty_digits (scaled mod pow10 (S p)) (S p)) as (Hf & _ & Hlen); [exact Hm|].
  apply pad_zeros_digits; [exact Hf|]. apply Hlen. lia.
Qed.



(** ** The bounds of the date pickers *)

Lemma foldl_min (l : list Z) (a : Z) :
  (foldl Z.min a l = a \/ In (foldl Z.min a l) l)
  /\ foldl Z.min a l <= a /\ forall x, In x l -> foldl Z.min a l <= x.
Proof.
  revert a. induction l as [|y l IH]; intros a.
  - cbn [foldl]. split; [now left|]. split; [lia|intros x []].
  - cbn [foldl]. destruct (IH (Z.min a y)) as (Hin & Hle & Hall). split; [|split].
    + destruct Hin as [->|Hin].
      * destruct (Z.min_spec a y) as [[_ ->]|[_ ->]]; [now left|right; now left].
      * right. now right.
    + lia.
    + intros x [<-|Hx]; [lia|now apply Hall].
Qed.

Lemma foldl_max (l : list Z) (a : Z) :
  (foldl Z.max a l = a \/ In (foldl Z.max a l) l)
  /\ a <= foldl Z.max a l /\ forall x, In x l -> x <= foldl Z.max a l.
Proof.
  revert a. induction l as [|y l IH]; intros a.
  - cbn [foldl]. split; [now left|]. split; [lia|intros x []].
  - cbn [foldl]. destruct (IH (Z.max a y)) as (Hin & Hle & Hall). split; [|split].
    + destruct Hin as [->|Hin].
      * destruct (Z.max_spec a y) as [[_ ->]|[_ ->]]; [right; now left|now left].
      * right. now right.
    + lia.
    + intros x [<-|Hx]; [lia|now apply Hall].
Qed.

Lemma stamps_In (data : Frame) (ns : Z) :
  In ns (omap date_key data) <-> exists r, In r data /\ date_key r = Some ns.
Proof. apply omap_In. Qed.

Lemma bounds_of_dates (data : Frame) (lo hi : Z) :
  min_date data = Stamp lo -> max_date data = Stamp hi ->
  (exists r, In r data /\ date_key r = Some lo)
  /\ (exists r, In r data /\ date_key r = Some hi)
  /\ forall r ns, In r data -> date_key r = Some ns -> lo <= ns <= hi.
Proof.
  unfold min_date, max_date. intros Hmin Hmax.
  destruct (omap date_key data) as [|a l] eqn:E; [discriminate|].
  injection Hmin as <-. injection Hmax as <-.
  destruct (foldl_min l a) as (Hin & Hle & Hall).
  destruct (foldl_max l a) as (Hin' & Hle' & Hall').
  split; [|split].
  - apply stamps_In. rewrite E. destruct Hin as [->|Hin]; [now left|now right].
  - apply stamps_In. rewrite E. destruct Hin' as [->|Hin']; [now left|now right].
  - intros r ns Hr Hd.
    assert (Hns : In ns (a :: l)) by (rewrite <- E; apply stamps_In; now exists r).
    destruct Hns as [<-|Hns]; [lia|]. split; [now apply Hall|now apply Hall'].
Qed.

Lemma dt_date_mono (a b : Z) : a <= b -> dt_date a <= dt_date b.
Proof. intros H. unfold dt_date, ns_per_day. now apply Z.div_le_mono. Qed.

(** X16.  The bounds and the defaults of the date pickers.  With [lo] the
    earliest and [hi] the latest timestamp of the dataset: the day of [hi],
    the default of the specific-date view, has a record, and so has the day
    of [lo]; no day outside the two has one; and the default of the date-range
    view, from the day of [lo] to the day of [hi], selects every dated record
    of the dataset, in order. *)
Theorem date_picker_bounds (data : Frame) (lo hi : Z) :
  min_date data = Stamp lo -> max_date data = Stamp hi ->
  lo <= hi
  /\ filterByExactDate data (dt_date hi) <> []
  /\ filterByExactDate data (dt_date lo) <> []
  /\ (forall d, d < dt_date lo \/ dt_date hi < d -> filterByExactDate data d = [])
  /\ date_range data (dt_date lo) (dt_date hi) = List.filter dated data.
Proof.
  intros Hmin Hmax.
  destruct (bounds_of_dates data lo hi Hmin Hmax)
    as ((rlo & Hrlo & Hdlo) & (rhi & Hrhi & Hdhi) & Hall).
  assert (Hexact : forall r ns, In r data -> date_key r = Some ns ->
                                filterByExactDate data (dt_date ns) <> []).
  { intros r ns Hr Hd E.
    assert (Hin : In r (filterByExactDate data (dt_date ns))).
    { apply List.filter_In. split; [exact Hr|]. unfold date_key in Hd.
      destruct (r !!! "Today's Date"); try discriminate. injection Hd as ->.
      cbn [date_eq]. apply Z.eqb_refl. }
    rewrite E in Hin. destruct Hin. }
  split; [exact (proj1 (Hall rhi hi Hrhi Hdhi))|].
  split; [exact (Hexact rhi hi Hrhi Hdhi)|].
  split; [exact (Hexact rlo lo Hrlo Hdlo)|].
  split.
  - intros d Hd. apply filter_none_in. intros r Hr.
    pose proof (Hall r) as Hns. unfold date_key in Hns.
    destruct (r !!! "Today's Date") as [| | | |ns]; try reflexivity.
    specialize (Hns ns Hr eq_refl). cbn [date_eq]. apply Z.eqb_neq.
    pose proof (dt_date_mono lo ns). pose proof (dt_date_mono ns hi). lia.
  - unfold date_range, filterByDateRange.
    clear Hexact Hrlo Hrhi Hmin Hmax. induction data as [|r data IH]; [reflexivity|].
    cbn [List.filter].
    assert (Hr : date_range_mask (dt_date lo) (dt_date hi) r = dated r).
    { pose proof (Hall r) as Hr. unfold date_range_mask, dated, date_key in *.
      destruct (r !!! "Today's Date") as [| | | |ns]; try reflexivity.
      specialize (Hr ns (or_introl eq_refl) eq_refl). cbn [date_ge date_le as_stamp].
      pose proof (dt_date_mono lo ns). pose proof (dt_date_mono ns hi).
      apply andb_true_iff. rewrite !Z.leb_le. lia. }
    rewrite Hr, IH; [reflexivity|]. intros r' ns Hr'. apply Hall. now right.
Qed.

Lemma date_picker_bounds_witness :
  filterByExactDate trajectory_example (dt_date (midnight 2024 1 5)) <> []
  /\ date_range trajectory_example (dt_date (midnight 2024 1 1)) (dt_date (midnight 2024 1 5))
     = List.filter dated trajectory_example.
Proof.
  destruct (date_picker_bounds trajectory_example (midnight 2024 1 1) (midnight 2024 1 5)
              eq_refl eq_refl) as (_ & H1 & _ & _ & H2).
  exact (conj H1 H2).
Defined.

(** ** Refining a selection by sector *)

Lemma insert_sorted_perm (x : option string) (l s : list (option string)) :
  insert_sorted x l = Returns s -> Permutation s (x :: l).
Proof.
  revert s. induction l as [|y l IH]; intros s; cbn [insert_sorted].
  - intros [= <-]. reflexivity.
  - destruct (text_lt y x) as [[]|e]; cbn [bind]; try discriminate.
    + destruct (insert_sorted x l) as [s'|e]; cbn [bind]; [|discriminate].
      intros [= <-]. rewrite (IH s' eq_refl). apply perm_swap.
    + intros [= <-]. reflexivity.
Qed.

Lemma sorted_perm (l s : list (option string)) : sorted l = Returns s -> Permutation s l.
Proof.
  revert s. induction l as [|x l IH]; intros s; cbn [sorted].
  - intros [= <-]. reflexivity.
  - destruct (sorted l) as [s'|e]; cbn [bind]; [|discriminate].
    intros H. rewrite (insert_sorted_perm _ _ _ H). now rewrite (IH s' eq_refl).
Qed.

Lemma strs_same (l : list cell) (s : string) :
  (forall c, In c l -> c = Str s) -> strs l = repeat s (length l).
Proof.
  induction l as [|c l IH]; intros H; [reflexivity|].
  rewrite (H c (or_introl eq_refl)). change (strs (Str s :: l)) with (s :: strs l).
  cbn [length repeat]. f_equal. apply IH. intros c' Hc'. apply H. now right.
Qed.

Lemma unique_repeat (s : string) (n : nat) : unique (repeat s (S n)) = [s].
Proof.
  induction n as [|n IH]; [reflexivity|].
  change (repeat s (S (S n))) with (s :: repeat s (S n)). cbn [unique]. rewrite IH.
  cbn [List.filter]. now rewrite String.eqb_refl.
Qed.

Lemma count_repeat (s : string) (n : nat) : count s (repeat s n) = n.
Proof.
  unfold count. induction n as [|n IH]; [reflexivity|]. cbn [repeat List.filter].
  rewrite String.eqb_refl. cbn [length]. now rewrite IH.
Qed.

(** X17.  Refining by a sector taken from the choice list.  The choice
    ["All"] leaves the selection as it is.  Any other listed choice keeps, in
    order, exactly the records of that sector: the refined selection is not
    empty, refining it again changes nothing, and its sector chart has the
    one bar of that sector, as high as the selection is long. *)
Theorem refine_by_listed_sector (filtered_data : Frame) (selected : string) :
  (exists options, available_sectors filtered_data = Returns options
                   /\ In (Some selected) options) ->
  let refined := refine "Sector" selected filtered_data in
  (selected = "All"%string -> refined = filtered_data)
  /\ (selected <> "All"%string ->
      refined <> []
      /\ (forall r, In r refined <-> In r filtered_data /\ r !!! "Sector" = Str selected)
      /\ sector_counts refined = [(selected, length refined)]
      /\ total_sectors refined = 1%nat)
  /\ refine "Sector" selected refined = refined.
Proof.
  intros (options & Hopt & Hsel). cbv zeta. unfold refine.
  destruct (String.eqb_spec selected "All") as [->|Hne].
  - split; [reflexivity|]. split; [intros H; now destruct H|reflexivity].
  - split; [intros ->; now destruct Hne|].
    set (refined := List.filter (fun r : Row => str_eq (r !!! "Sector") selected) filtered_data).
    assert (Hrows : forall r, In r refined <->
                              In r filtered_data /\ r !!! "Sector" = Str selected).
    { intros r. unfold refined. now rewrite List.filter_In, str_eq_iff. }
    assert (Hex : exists r, In r filtered_data /\ r !!! "Sector" = Str selected).
    { unfold available_sectors, available_options in Hopt.
      destruct (sorted (unique_text (texts (col "Sector" filtered_data)))) as [s|e] eqn:Es;
        [|discriminate].
      cbn [bind] in Hopt. injection Hopt as <-.
      destruct Hsel as [Hsel|Hsel]; [congruence|].
      apply (Permutation_in _ (sorted_perm _ _ Es)) in Hsel.
      apply (proj1 (unique_text_In _ _)) in Hsel. apply texts_In, strs_In in Hsel.
      unfold col in Hsel. apply List.in_map_iff in Hsel as (r & Hr & Hin). now exists r. }
    assert (Hne' : refined <> []).
    { destruct Hex as (r & Hr & Hs). intros E.
      assert (Hin : In r refined) by now apply Hrows. rewrite E in Hin. destruct Hin. }
    assert (Hcol : forall c, In c (col "Sector" refined) -> c = Str selected).
    { intros c Hc. unfold col in Hc. apply List.in_map_iff in Hc as (r & <- & Hr).
      now apply Hrows in Hr. }
    assert (Hstrs : strs (col "Sector" refined) = repeat selected (length refined)).
    { rewrite (strs_same _ selected Hcol). unfold col. now rewrite length_map. }
    split; [|].
    + split; [exact Hne'|]. split; [exact Hrows|].
      destruct refined as [|r0 rest] eqn:E; [now destruct Hne'|].
      split.
      * unfold sector_counts, value_counts. rewrite Hstrs.
        cbn [length]. rewrite unique_repeat. cbn [map sort_by foldr insert_by].
        now rewrite count_repeat.
      * unfold total_sectors. rewrite unique_text_length, Hstrs. cbn [length].
        rewrite unique_repeat.
        assert (Hm : has_missing (texts (col "Sector" (r0 :: rest))) = false).
        { destruct (has_missing _) eqn:Hm; [|reflexivity].
          apply has_missing_In in Hm. unfold texts in Hm.
          apply List.in_map_iff in Hm as (c & Hc & Hin).
          rewrite (Hcol c Hin) in Hc. discriminate. }
        now rewrite Hm.
    + apply filter_idempotent.
Qed.

Lemma refine_by_listed_sector_witness :
  sector_counts (refine "Sector" "Tech" sector_example) = [("Tech"%string, 2%nat)].
Proof.
  assert (H : exists options, available_sectors sector_example = Returns options
                              /\ In (Some "Tech"%string) options).
  { eexists. split; [vm_compute; reflexivity|]. right. right. now left. }
  destruct (refine_by_listed_sector sector_example "Tech" H) as (_ & H2 & _).
  assert (Hne : "Tech"%string <> "All"%string) by discriminate.
  destruct (H2 Hne) as (_ & _ & Hc & _).
  exact Hc.
Defined.
